(** * bipbip: a shallow embedding of [binder.py] and [filesmanager.py]

    The development has two parts.  Part I embeds the program: Python text and
    byte strings, the UTF-8 codec and the [json] text format that
    [Binder.load] / [Binder.dump] go through, the mutable world the program
    works in (the [bytearray] heap, the file system, the call trace), the
    [Binder] class and the account functions of [filesmanager].  Part II
    states and proves the properties of that embedding. *)

From Stdlib Require Import NArith ZArith List Lia Bool String Ascii.
From stdpp Require Import base option list gmap.
Import ListNotations.
#[local] Set Warnings "-register-all".
Open Scope N_scope.

(** [lia] extended with the Euclidean division equations (the codecs divide
    by powers of two). *)
Ltac dlia := zify; Z.to_euclidean_division_equations; lia.

(* ===================================================================== *)
(** * Part I. The model                                                   *)
(* ===================================================================== *)

(** ** Python text and bytes *)

(** A Python [str] is a sequence of code points, a [bytes] / [bytearray]
    content a sequence of octets.  Both are lists of [N]. *)
Definition pystr := list N.
Definition bytes := list N.

(** An ASCII literal read as a Python [str], one code point a character. *)
Definition str (s : string) : pystr :=
  map N_of_ascii (list_ascii_of_string s).

Fixpoint str_eqb (a b : pystr) : bool :=
  match a, b with
  | [], [] => true
  | x :: a', y :: b' => (x =? y) && str_eqb a' b'
  | _, _ => false
  end.

(** [x in l] on a list of strings. *)
Definition str_in (x : pystr) (l : list pystr) : bool :=
  existsb (str_eqb x) l.

Definition is_surrogate (c : N) : bool := (0xD800 <=? c) && (c <=? 0xDFFF).

(** Unicode scalar values: the code points of well-formed text. *)
Definition is_scalar (c : N) : bool := (c <? 0x110000) && negb (is_surrogate c).

Definition text_ok (s : pystr) : Prop := Forall (fun c => is_scalar c = true) s.

(** [f] on every element, or [None] when it fails on one. *)
Fixpoint traverse {A B : Type} (f : A -> option B) (l : list A) : option (list B) :=
  match l with
  | [] => Some []
  | x :: l' =>
      match f x, traverse f l' with
      | Some y, Some ys => Some (y :: ys)
      | _, _ => None
      end
  end.

(** ** Dictionaries *)

(** A [dict] with [str] keys, in insertion order. *)
Definition dict (V : Type) : Type := list (pystr * V).

Fixpoint dict_get {V : Type} (d : dict V) (k : pystr) : option V :=
  match d with
  | [] => None
  | (k', v) :: d' => if str_eqb k' k then Some v else dict_get d' k
  end.

Fixpoint dict_del {V : Type} (d : dict V) (k : pystr) : dict V :=
  match d with
  | [] => []
  | (k', v) :: d' => if str_eqb k' k then d' else (k', v) :: dict_del d' k
  end.

(** [d[k] = v]: in place when [k] is a key, at the end otherwise. *)
Fixpoint dict_set {V : Type} (d : dict V) (k : pystr) (v : V) : dict V :=
  match d with
  | [] => [(k, v)]
  | (k', v') :: d' => if str_eqb k' k then (k, v) :: d' else (k', v') :: dict_set d' k v
  end.

Definition dict_keys {V : Type} (d : dict V) : list pystr := map fst d.

(** ** UTF-8: [str.encode('utf-8')] and [bytearray.decode('utf-8')] *)

Module Utf8.

(** One code point; [None] is [UnicodeEncodeError] (a surrogate). *)
Definition encode_char (c : N) : option bytes :=
  if c <? 0x80 then Some [c]
  else if c <? 0x800 then Some [0xC0 + c / 64; 0x80 + c mod 64]
  else if c <? 0x10000 then
    if is_surrogate c then None
    else Some [0xE0 + c / 4096; 0x80 + (c / 64) mod 64; 0x80 + c mod 64]
  else if c <? 0x110000 then
    Some [0xF0 + c / 262144; 0x80 + (c / 4096) mod 64;
          0x80 + (c / 64) mod 64; 0x80 + c mod 64]
  else None.

Fixpoint encode (s : pystr) : option bytes :=
  match s with
  | [] => Some []
  | c :: s' =>
      match encode_char c, encode s' with
      | Some b, Some bs => Some (b ++ bs)
      | _, _ => None
      end
  end.

Definition is_cont (b : N) : bool := (0x80 <=? b) && (b <=? 0xBF).

(** Strict decoding; [None] is [UnicodeDecodeError] (a stray or missing
    continuation byte, an overlong form, a surrogate, a value above
    U+10FFFF). *)
Fixpoint decode (bs : bytes) : option pystr :=
  match bs with
  | [] => Some []
  | b0 :: r0 =>
      if b0 <? 0x80 then cons b0 <$> decode r0
      else if b0 <? 0xC2 then None
      else if b0 <? 0xE0 then
        match r0 with
        | b1 :: r1 =>
            if is_cont b1
            then cons ((b0 - 0xC0) * 64 + (b1 - 0x80)) <$> decode r1
            else None
        | _ => None
        end
      else if b0 <? 0xF0 then
        match r0 with
        | b1 :: b2 :: r2 =>
            let c := (b0 - 0xE0) * 4096 + (b1 - 0x80) * 64 + (b2 - 0x80) in
            if is_cont b1 && is_cont b2 && (0x800 <=? c) && negb (is_surrogate c)
            then cons c <$> decode r2
            else None
        | _ => None
        end
      else if b0 <? 0xF5 then
        match r0 with
        | b1 :: b2 :: b3 :: r3 =>
            let c := (b0 - 0xF0) * 262144 + (b1 - 0x80) * 4096
                     + (b2 - 0x80) * 64 + (b3 - 0x80) in
            if is_cont b1 && is_cont b2 && is_cont b3
               && (0x10000 <=? c) && (c <? 0x110000)
            then cons c <$> decode r3
            else None
        | _ => None
        end
      else None
  end.

End Utf8.

(** ** The [json] text format: [json.dumps] and [json.loads]

    [Binder.dump] and [Binder.load] go through Python's [json] module with its
    default settings ([ensure_ascii=True], separators [", "] and [": "],
    strict string scanning).  Number literals are outside this model: the
    store of a [Binder] holds strings, booleans, sequences and mappings. *)

Module Json.

#[local] Unset Elimination Schemes.
Inductive value : Type :=
| JNull
| JBool (b : bool)
| JStr (s : pystr)
| JArr (items : list value)
| JObj (members : list (pystr * value)).
#[local] Set Elimination Schemes.

(** *** Writing *)

Definition hex_digit (d : N) : N := if d <? 10 then 48 + d else 87 + d.

Definition hex4 (n : N) : list N :=
  [hex_digit (n / 4096 mod 16); hex_digit (n / 256 mod 16);
   hex_digit (n / 16 mod 16); hex_digit (n mod 16)].

(** ["\uXXXX"] *)
Definition escape_u (n : N) : list N := 92 :: 117 :: hex4 n.

(** [ESCAPE_ASCII]: the short escapes, printable ASCII as it is, everything
    else as [\uXXXX], a surrogate pair above U+FFFF. *)
Definition escape_char (c : N) : list N :=
  if c =? 34 then [92; 34]
  else if c =? 92 then [92; 92]
  else if c =? 10 then [92; 110]
  else if c =? 13 then [92; 114]
  else if c =? 9 then [92; 116]
  else if c =? 12 then [92; 102]
  else if c =? 8 then [92; 98]
  else if (32 <=? c) && (c <=? 126) then [c]
  else if c <? 0x10000 then escape_u c
  else
    let n := c - 0x10000 in
    escape_u (0xD800 + n / 1024 mod 1024) ++ escape_u (0xDC00 + n mod 1024).

Definition dump_string (s : pystr) : pystr :=
  34 :: flat_map escape_char s ++ [34].

Fixpoint dumps (v : value) : pystr :=
  match v with
  | JNull => str "null"
  | JBool true => str "true"
  | JBool false => str "false"
  | JStr s => dump_string s
  | JArr [] => str "[]"
  | JArr (x :: xs) =>
      91 :: dumps x ++
      (fix more (l : list value) : pystr :=
         match l with
         | [] => [93]
         | y :: l' => 44 :: 32 :: dumps y ++ more l'
         end) xs
  | JObj [] => str "{}"
  | JObj ((k, x) :: ms) =>
      123 :: dump_string k ++ 58 :: 32 :: dumps x ++
      (fix more (l : list (pystr * value)) : pystr :=
         match l with
         | [] => [125]
         | (k', y) :: l' => 44 :: 32 :: dump_string k' ++ 58 :: 32 :: dumps y ++ more l'
         end) ms
  end.

(** What [dumps] writes after the first item of an array, of an object. *)
Fixpoint dumps_items (l : list value) : pystr :=
  match l with
  | [] => [93]
  | y :: l' => 44 :: 32 :: dumps y ++ dumps_items l'
  end.

Fixpoint dumps_members (l : list (pystr * value)) : pystr :=
  match l with
  | [] => [125]
  | (k, y) :: l' => 44 :: 32 :: dump_string k ++ 58 :: 32 :: dumps y ++ dumps_members l'
  end.

(** The characters a written value starts with. *)
Definition opens_value (c : N) : bool :=
  (c =? 34) || (c =? 91) || (c =? 123) || (c =? 110) || (c =? 116) || (c =? 102).

(** *** Reading *)

(** What a scan can end in: a result, [JSONDecodeError], a number literal
    (outside the model, whatever follows it), [RecursionError]. *)
Inductive parse (A : Type) : Type :=
| Parsed (a : A)
| Malformed
| Unsupported
| TooDeep.
Arguments Parsed {A} a.
Arguments Malformed {A}.
Arguments Unsupported {A}.
Arguments TooDeep {A}.

Definition parse_bind {A B : Type} (p : parse A) (k : A -> parse B) : parse B :=
  match p with
  | Parsed a => k a
  | Malformed => Malformed
  | Unsupported => Unsupported
  | TooDeep => TooDeep
  end.

Definition is_ws (c : N) : bool :=
  (c =? 32) || (c =? 9) || (c =? 10) || (c =? 13).

Fixpoint skip_ws (s : pystr) : pystr :=
  match s with
  | c :: r => if is_ws c then skip_ws r else s
  | [] => []
  end.

Definition hex_value (h : N) : option N :=
  if (48 <=? h) && (h <=? 57) then Some (h - 48)
  else if (97 <=? h) && (h <=? 102) then Some (h - 87)
  else if (65 <=? h) && (h <=? 70) then Some (h - 55)
  else None.

Definition hex4_value (h1 h2 h3 h4 : N) : option N :=
  match hex_value h1, hex_value h2, hex_value h3, hex_value h4 with
  | Some a, Some b, Some c, Some d => Some (a * 4096 + b * 256 + c * 16 + d)
  | _, _, _, _ => None
  end.

(** [BACKSLASH] *)
Definition unescape (e : N) : option N :=
  if e =? 34 then Some 34
  else if e =? 92 then Some 92
  else if e =? 47 then Some 47
  else if e =? 98 then Some 8
  else if e =? 102 then Some 12
  else if e =? 110 then Some 10
  else if e =? 114 then Some 13
  else if e =? 116 then Some 9
  else None.

Definition is_high (c : N) : bool := (0xD800 <=? c) && (c <=? 0xDBFF).
Definition is_low (c : N) : bool := (0xDC00 <=? c) && (c <=? 0xDFFF).

Definition push (c : N) (r : option (pystr * pystr)) : option (pystr * pystr) :=
  match r with
  | Some (s, rest) => Some (c :: s, rest)
  | None => None
  end.

(** [scanstring], entered after the opening quote; [None] is
    [JSONDecodeError] (unterminated, control character, bad escape). *)
Fixpoint scan_string (s : pystr) : option (pystr * pystr) :=
  match s with
  | [] => None
  | c :: r =>
      if c =? 34 then Some ([], r)
      else if c <? 32 then None
      else if c =? 92 then
        match r with
        | [] => None
        | e :: r1 =>
            if e =? 117 then
              match r1 with
              | h1 :: h2 :: h3 :: h4 :: r2 =>
                  match hex4_value h1 h2 h3 h4 with
                  | None => None
                  | Some uni =>
                      if is_high uni then
                        match r2 with
                        | b :: u :: g1 :: g2 :: g3 :: g4 :: r3 =>
                            if (b =? 92) && (u =? 117) then
                              match hex4_value g1 g2 g3 g4 with
                              | None => None
                              | Some uni2 =>
                                  if is_low uni2
                                  then push (0x10000 + ((uni - 0xD800) * 1024 + (uni2 - 0xDC00)))
                                            (scan_string r3)
                                  else push uni (scan_string r2)
                              end
                            else push uni (scan_string r2)
                        | _ => push uni (scan_string r2)
                        end
                      else push uni (scan_string r2)
                  end
              | _ => None
              end
            else
              match unescape e with
              | Some ch => push ch (scan_string r1)
              | None => None
              end
        end
      else push c (scan_string r)
  end.

Definition parse_string (s : pystr) : parse (pystr * pystr) :=
  match scan_string s with
  | Some r => Parsed r
  | None => Malformed
  end.

Fixpoint starts_with (p s : pystr) : option pystr :=
  match p, s with
  | [], _ => Some s
  | a :: p', b :: s' => if a =? b then starts_with p' s' else None
  | _ :: _, [] => None
  end.

Definition is_digit (c : N) : bool := (48 <=? c) && (c <=? 57).

(** Where [NUMBER_RE] or one of [NaN], [Infinity], [-Infinity] matches. *)
Definition number_ahead (s : pystr) : bool :=
  match s with
  | c :: r =>
      is_digit c
      || ((c =? 45) && match r with d :: _ => is_digit d | [] => false end)
      || match starts_with (str "NaN") s with Some _ => true | None => false end
      || match starts_with (str "Infinity") s with Some _ => true | None => false end
      || match starts_with (str "-Infinity") s with Some _ => true | None => false end
  | [] => false
  end.

(** [dict(pairs)]: a repeated key keeps its first place and its last value. *)
Definition dict_of_pairs {V : Type} (pairs : list (pystr * V)) : list (pystr * V) :=
  fold_left (fun d kv => dict_set d (fst kv) (snd kv)) pairs [].

Section Loops.
  (** The scanner of one value, [scan_once]. *)
Variable parse_elem : pystr -> parse (value * pystr).

(** [JSONArray] after the look-ahead for ["[]"].  [n] bounds the number of
    items by the length of the text: at [0] the text is used up, which is
    Python's "Expecting value". *)
Fixpoint parse_items (n : nat) (s : pystr) : parse (list value * pystr) :=
  match n with
  | O => Malformed
  | S n' =>
      parse_bind (parse_elem s) (fun '(v, r) =>
        match skip_ws r with
        | c :: r' =>
            if c =? 93 then Parsed ([v], r')
            else if c =? 44 then
              parse_bind (parse_items n' (skip_ws r')) (fun '(vs, r'') =>
                Parsed (v :: vs, r''))
            else Malformed
        | [] => Malformed
        end)
  end.

(** [JSONObject] from the opening quote of a key on. *)
Fixpoint parse_members (n : nat) (s : pystr) : parse (list (pystr * value) * pystr) :=
  match n with
  | O => Malformed
  | S n' =>
      match s with
      | q :: s1 =>
          if q =? 34 then
            parse_bind (parse_string s1) (fun '(k, r) =>
              match skip_ws r with
              | c :: r1 =>
                  if c =? 58 then
                    parse_bind (parse_elem (skip_ws r1)) (fun '(v, r2) =>
                      match skip_ws r2 with
                      | c' :: r3 =>
                          if c' =? 125 then Parsed ([(k, v)], r3)
                          else if c' =? 44 then
                            parse_bind (parse_members n' (skip_ws r3)) (fun '(ms, r4) =>
                              Parsed ((k, v) :: ms, r4))
                          else Malformed
                      | [] => Malformed
                      end)
                  else Malformed
              | [] => Malformed
              end)
          else Malformed
      | [] => Malformed
      end
  end.
End Loops.

(** [scan_once]; [depth] is the nesting the interpreter still allows. *)
Fixpoint parse_value (depth : nat) (s : pystr) : parse (value * pystr) :=
  match s with
  | [] => Malformed
  | c :: r =>
      if c =? 34 then
        parse_bind (parse_string r) (fun '(x, r') => Parsed (JStr x, r'))
      else if c =? 123 then
        match depth with
        | O => TooDeep
        | S depth' =>
            match skip_ws r with
            | c' :: r' =>
                if c' =? 125 then Parsed (JObj [], r')
                else
                  parse_bind (parse_members (parse_value depth') (length r) (skip_ws r))
                    (fun '(ms, r'') => Parsed (JObj (dict_of_pairs ms), r''))
            | [] => Malformed
            end
        end
      else if c =? 91 then
        match depth with
        | O => TooDeep
        | S depth' =>
            match skip_ws r with
            | c' :: r' =>
                if c' =? 93 then Parsed (JArr [], r')
                else
                  parse_bind (parse_items (parse_value depth') (length r) (skip_ws r))
                    (fun '(vs, r'') => Parsed (JArr vs, r''))
            | [] => Malformed
            end
        end
      else
        match starts_with (str "null") s with
        | Some r' => Parsed (JNull, r')
        | None =>
        match starts_with (str "true") s with
        | Some r' => Parsed (JBool true, r')
        | None =>
        match starts_with (str "false") s with
        | Some r' => Parsed (JBool false, r')
        | None => if number_ahead s then Unsupported else Malformed
        end end end
  end.

(** [sys.getrecursionlimit()] of a fresh interpreter: the most levels the
    scanner can go down.  The frames of the caller count against the same
    limit, so that Python gives up on a document somewhat less deep than
    this. *)
Definition recursion_limit : nat := 1000.

(** [json.loads] on a [str]: no byte order mark, one value between optional
    white space, nothing after it. *)
Definition loads (s : pystr) : parse value :=
  match starts_with [0xFEFF] s with
  | Some _ => Malformed
  | None =>
      parse_bind (parse_value recursion_limit (skip_ws s)) (fun '(v, r) =>
        match skip_ws r with
        | [] => Parsed v
        | _ :: _ => Malformed
        end)
  end.

(** Nesting of arrays and objects. *)
Fixpoint depth (v : value) : nat :=
  match v with
  | JArr items => S (fold_right (fun x m => Nat.max (depth x) m) O items)
  | JObj members => S (fold_right (fun kx m => Nat.max (depth (snd kx)) m) O members)
  | _ => O
  end.

(** No high surrogate stands right before a low one. *)
Fixpoint unpaired (s : pystr) : bool :=
  match s with
  | [] => true
  | c :: r =>
      negb (is_high c && match r with c' :: _ => is_low c' | [] => false end) && unpaired r
  end.

(** The strings [loads] reads back as [dumps] wrote them: the code points of
    a Python [str] (all below 0x110000, surrogates among them) in which no
    high surrogate stands right before a low one.  Such a pair is written as
    two [\uXXXX] escapes, like the one code point above U+FFFF it encodes,
    and read as that code point. *)
Definition json_text (s : pystr) : Prop :=
  Forall (fun c => c < 0x110000) s /\ unpaired s = true.

(** [scanstring] at a [\uXXXX] escape of a low surrogate. *)
Definition low_ahead (s : pystr) : bool :=
  match s with
  | b :: r =>
      if b =? 92 then
        match r with
        | u :: r' =>
            if u =? 117 then
              match r' with
              | g1 :: g2 :: g3 :: g4 :: _ =>
                  match hex4_value g1 g2 g3 g4 with
                  | Some uni2 => is_low uni2
                  | None => true
                  end
              | _ => false
              end
            else false
        | [] => false
        end
      else false
  | [] => false
  end.

(** The documents [dumps] writes and [loads] reads back: no key twice in an
    object, no surrogate pair in a string. *)
Fixpoint wf (v : value) : Prop :=
  match v with
  | JStr s => json_text s
  | JArr items => fold_right (fun x P => wf x /\ P) True items
  | JObj members =>
      NoDup (map fst members)
      /\ fold_right (fun kx P => json_text (fst kx) /\ wf (snd kx) /\ P) True members
  | _ => True
  end.

(** A scanner [pe] reads back what [dumps] wrote of [v], whatever follows. *)
Definition reads_back (pe : pystr -> parse (value * pystr)) (v : value) : Prop :=
  forall r, pe (dumps v ++ r) = Parsed (v, r).

Definition reads_back_at (v : value) : Prop :=
  wf v -> forall (d : nat) (rest : pystr), (depth v <= d)%nat ->
  parse_value d (dumps v ++ rest) = Parsed (v, rest).

End Json.

(** ** The world the program runs in *)

(** Objects passed by reference ([bytearray]s) live at a location. *)
Definition loc := positive.

(** A file-system path, one component a list element. *)
Definition path := list pystr.

(** The arguments callers hand to the program, as far as its [isinstance]
    checks tell them apart. *)
Inductive pyobj : Type :=
| PyNone
| PyBool (b : bool)
| PyInt (z : Z)
| PyStr (s : pystr)
| PyBytes (b : bytes)
| PyBytearray (l : loc)
| PyList (items : list pyobj)
| PyTuple (items : list pyobj).

Inductive exn : Type :=
| TypeError
| ValueError
| KeyError
| NameError
| JSONDecodeError
| RecursionError
| UnicodeDecodeError
| UnicodeEncodeError
| BinasciiError
| WrongKeyError
| FileNotFoundError
| ComputationError.

Definition exn_eqb (a b : exn) : bool :=
  match a, b with
  | TypeError, TypeError | ValueError, ValueError | KeyError, KeyError
  | NameError, NameError | JSONDecodeError, JSONDecodeError
  | RecursionError, RecursionError | UnicodeDecodeError, UnicodeDecodeError
  | UnicodeEncodeError, UnicodeEncodeError | BinasciiError, BinasciiError
  | WrongKeyError, WrongKeyError | FileNotFoundError, FileNotFoundError
  | ComputationError, ComputationError => true
  | _, _ => false
  end.

(** What the program does to the outside, in the order it does it. *)
Inductive event : Type :=
| EvEncrypt (plain : bytes)            (* a call of the engine's encryption *)
| EvDecrypt (cipher : bytes)           (* a call of the engine's decryption *)
| EvWipe (l : loc)                     (* encryption.delete_bytearray(buffer) *)
| EvRead (p : path)                    (* open(p, "rb").read() *)
| EvWrite (p : path) (content : bytes) (* open(p, "wb").write(content) *)
| EvRmtree (p : path).                 (* shutil.rmtree(p) *)

(** A stored datum is a 2-sequence of strings; Python tells a tuple (what
    [set_website_data] accepts and [get_website_data] builds) from a list
    (what [json.loads] returns). *)
Inductive seqkind : Type := KTuple | KList.

Record datum : Type := Datum {
  d_kind : seqkind;
  d_type : pystr;    (* datum[0] *)
  d_value : pystr    (* datum[1] *)
}.

(** [website_info = {'__name__': str, '__encrypted__': bool, '__data__': list}],
    the keys in the order [add_website] creates them. *)
Record website_info : Type := WebsiteInfo {
  name : pystr;
  encrypted : bool;
  data : list datum
}.

Record world : Type := World {
  userdict : dict website_info;          (* self.userdict *)
  private_website_code : list pystr;     (* Binder.private_website_code *)
  heap : gmap loc bytes;                 (* the bytearrays alive *)
  files : gmap path bytes;               (* regular files *)
  dirs : gset path;                      (* directories *)
  entropy : nat -> N;                    (* what the random sources will yield *)
  drawn : nat;                           (* how much of it has been used *)
  trace : list event
}.

Definition set_userdict (d : dict website_info) (w : world) : world :=
  World d (private_website_code w) (heap w) (files w) (dirs w) (entropy w) (drawn w) (trace w).
Definition set_heap (h : gmap loc bytes) (w : world) : world :=
  World (userdict w) (private_website_code w) h (files w) (dirs w) (entropy w) (drawn w) (trace w).
Definition set_files (f : gmap path bytes) (w : world) : world :=
  World (userdict w) (private_website_code w) (heap w) f (dirs w) (entropy w) (drawn w) (trace w).
Definition set_dirs (d : gset path) (w : world) : world :=
  World (userdict w) (private_website_code w) (heap w) (files w) d (entropy w) (drawn w) (trace w).
Definition set_drawn (n : nat) (w : world) : world :=
  World (userdict w) (private_website_code w) (heap w) (files w) (dirs w) (entropy w) n (trace w).
Definition log (e : event) (w : world) : world :=
  World (userdict w) (private_website_code w) (heap w) (files w) (dirs w) (entropy w) (drawn w)
        (trace w ++ [e]).

(** *** Computations: a state that survives exceptions *)

(** A call returns, raises, or leaves the fragment of Python modelled here
    ([Unmodelled]: a JSON document that is not a record store, a reference to
    no object). *)
Inductive outcome (A : Type) : Type :=
| Return (a : A)
| Raise (e : exn)
| Unmodelled.
Arguments Return {A} a.
Arguments Raise {A} e.
Arguments Unmodelled {A}.

Definition M (A : Type) : Type := world -> outcome A * world.

Definition ret {A : Type} (a : A) : M A := fun w => (Return a, w).

Definition bind {A B : Type} (m : M A) (k : A -> M B) : M B :=
  fun w =>
    match m w with
    | (Return a, w') => k a w'
    | (Raise e, w') => (Raise e, w')
    | (Unmodelled, w') => (Unmodelled, w')
    end.

Definition raise {A : Type} (e : exn) : M A := fun w => (Raise e, w).
Definition unmodelled {A : Type} : M A := fun w => (Unmodelled, w).
Definition gets {A : Type} (f : world -> A) : M A := fun w => (Return (f w), w).
Definition modify (f : world -> world) : M unit := fun w => (Return tt, f w).

(** [try: body  except e: handler] *)
Definition try_except {A : Type} (body : M A) (e : exn) (handler : M A) : M A :=
  fun w =>
    match body w with
    | (Raise e', w') => if exn_eqb e' e then handler w' else (Raise e', w')
    | r => r
    end.

Definition of_option {A : Type} (e : exn) (o : option A) : M A :=
  match o with
  | Some a => ret a
  | None => raise e
  end.

Declare Scope py_scope.
Delimit Scope py_scope with py.
Notation "x <- m ;; k" := (bind m (fun x => k))
  (at level 100, m at next level, right associativity) : py_scope.
Notation "m ;;; k" := (bind m (fun _ => k))
  (at level 100, right associativity) : py_scope.
Open Scope py_scope.

(** *** Buffers *)

(** The content of the [bytearray] at [l]. *)
Definition read_buffer (l : loc) : M bytes :=
  fun w =>
    match heap w !! l with
    | Some b => (Return b, w)
    | None => (Unmodelled, w)
    end.

(** [bytearray(content)]: a new object. *)
Definition alloc (content : bytes) : M loc :=
  fun w =>
    let l := fresh (dom (heap w)) in
    (Return l, set_heap (<[l := content]> (heap w)) w).

(** The next value of the random source. *)
Definition draw : M N :=
  fun w => (Return (entropy w (drawn w)), set_drawn (S (drawn w)) w).

(** *** The file system *)

Definition is_prefix (p q : path) : bool := bool_decide (take (length p) q = p).

Definition isdir (p : path) : M bool := gets (fun w => bool_decide (p ∈ dirs w)).
Definition isfile (p : path) : M bool :=
  gets (fun w => match files w !! p with Some _ => true | None => false end).

(** [with open(p, "rb") as file: file.read()] *)
Definition read_file (p : path) : M bytes :=
  fun w =>
    match files w !! p with
    | Some b => (Return b, log (EvRead p) w)
    | None => (Raise FileNotFoundError, w)
    end.

(** [with open(p, "wb") as file: file.write(content)]: the file at [p] is
    truncated, or created in an existing directory, and filled. *)
Definition write_file (p : path) (content : bytes) : M unit :=
  fun w =>
    match files w !! p with
    | Some _ => (Return tt, log (EvWrite p content) (set_files (<[p := content]> (files w)) w))
    | None =>
        if bool_decide (removelast p ∈ dirs w) && negb (bool_decide (p ∈ dirs w))
        then (Return tt, log (EvWrite p content) (set_files (<[p := content]> (files w)) w))
        else (Raise FileNotFoundError, w)
    end.

(** [shutil.rmtree(p)]: [p] and everything below it. *)
Definition rmtree (p : path) : M unit :=
  fun w =>
    if bool_decide (p ∈ dirs w) then
      (Return tt,
       log (EvRmtree p)
         (set_dirs (filter (fun q => is_prefix p q = false) (dirs w))
            (set_files (filter (fun qb => is_prefix p (fst qb) = false) (files w)) w)))
    else (Raise FileNotFoundError, w).

(** *** More of the file system *)

(** [os.mkdir(p)].  The new directory needs its parent; a path that exists
    ([FileExistsError]) or whose parent is a regular file
    ([NotADirectoryError]) is outside the model. *)
Definition mkdir (p : path) : M unit :=
  fun w =>
    if bool_decide (p ∈ dirs w) then (Unmodelled, w)
    else
      match files w !! p, files w !! removelast p with
      | Some _, _ => (Unmodelled, w)
      | None, Some _ => (Unmodelled, w)
      | None, None =>
          if bool_decide (removelast p ∈ dirs w)
          then (Return tt, set_dirs ({[ p ]} ∪ dirs w) w)
          else (Raise FileNotFoundError, w)
      end.

(** [os.remove(p)], for a path that is no directory. *)
Definition os_remove (p : path) : M unit :=
  fun w =>
    if bool_decide (p ∈ dirs w) then (Unmodelled, w)
    else
      match files w !! p with
      | Some _ => (Return tt, set_files (delete p (files w)) w)
      | None => (Raise FileNotFoundError, w)
      end.

(** [shutil.copyfile(src, dst)]; an existing file copied onto itself
    ([SameFileError]) is outside the model. *)
Definition copyfile (src dst : path) : M unit :=
  same <- gets (fun w => bool_decide (src = dst)
                         && match files w !! src with Some _ => true | None => false end) ;;
  if same then unmodelled
  else
    content <- read_file src ;;
    write_file dst content.

(** The names [os.listdir(d)] yields, in some order. *)
Definition listdir (d : path) : M (list pystr) :=
  fun w =>
    if bool_decide (d ∈ dirs w) then
      (Return
         (omap (fun q => if bool_decide (removelast q = d) then last q else None)
            (elements (dirs w) ++ map fst (map_to_list (files w)))),
       w)
    else (Raise FileNotFoundError, w).

(** *** Text files

    Text mode as on a POSIX system whose locale encoding is UTF-8: text is
    written as its UTF-8 octets, and read back with every line ending (["\r\n"],
    ["\r"]) turned into ["\n"]. *)

(** [with open(p, "w") as f: f.write(text)]: the file is opened before the
    text is encoded. *)
Definition write_text (p : path) (text : pystr) : M unit :=
  match Utf8.encode text with
  | Some content => write_file p content
  | None =>
      write_file p [] ;;;
      raise UnicodeEncodeError
  end.

Fixpoint universal_newlines (s : pystr) : pystr :=
  match s with
  | [] => []
  | c :: r =>
      if c =? 13 then
        10 :: match r with
              | c' :: r' => if c' =? 10 then universal_newlines r' else universal_newlines r
              | [] => []
              end
      else c :: universal_newlines r
  end.

(** [with open(p, "r") as f: f.read()] *)
Definition read_text (p : path) : M pystr :=
  content <- read_file p ;;
  text <- of_option UnicodeDecodeError (Utf8.decode content) ;;
  ret (universal_newlines text).

(** [str.isspace] on one character. *)
Definition is_space (c : N) : bool :=
  ((0x09 <=? c) && (c <=? 0x0D)) || ((0x1C <=? c) && (c <=? 0x20))
  || (c =? 0x85) || (c =? 0xA0) || (c =? 0x1680)
  || ((0x2000 <=? c) && (c <=? 0x200A))
  || (c =? 0x2028) || (c =? 0x2029) || (c =? 0x202F) || (c =? 0x205F) || (c =? 0x3000).

Fixpoint lstrip (s : pystr) : pystr :=
  match s with
  | c :: r => if is_space c then lstrip r else s
  | [] => []
  end.

(** [s.strip()] *)
Definition strip (s : pystr) : pystr := rev (lstrip (rev (lstrip s))).

(** *** Paths given as strings *)

(** A name that is one path component: [os.path.join(d, name)] is then the
    entry [name] of [d]. *)
Definition is_component (name : pystr) : bool :=
  negb (existsb (N.eqb 47) name) && negb (existsb (N.eqb 0) name)
  && negb (length name =? 0)%nat
  && negb (str_eqb name (str ".")) && negb (str_eqb name (str "..")).

(** The string [s] cut at every ["/"]. *)
Fixpoint split_slash (s : pystr) : list pystr :=
  match s with
  | [] => [[]]
  | c :: r =>
      if c =? 47 then [] :: split_slash r
      else
        match split_slash r with
        | x :: xs => (c :: x) :: xs
        | [] => [[c]]
        end
  end.

(** An absolute path written ["/c1/.../cn"], every [ci] a component; a path
    written otherwise (relative, with ["."], [".."] or an empty component) is
    outside the model. *)
Definition parse_path (s : pystr) : option path :=
  match split_slash s with
  | [] :: (c :: cs) => if forallb is_component (c :: cs) then Some (c :: cs) else None
  | _ => None
  end.

(** ** The collaborators: [encryption] and [base64]

    Both are imported by the program and are no part of it.  They are taken as
    interfaces; what the properties need of them is stated as laws where it is
    needed. *)

(** What the [pin=] calls of [filesmanager] come back with: the triple
    [(is_error, error, result)], and what the call has left in the buffers it
    was handed (they are the caller's own objects, not copies). *)
Record pin_result : Type := PinResult {
  is_error : bool;
  error : Z;
  result : bytes;
  password_after : bytes;
  pin_after : bytes;
  data_after : bytes
}.

Class Engine : Type := {
  (** [data_to_encryptedtext(data, key, iterations=n)], with the randomness the
      call draws (salt, iv) *)
  encrypt : bytes -> bytes -> N -> N -> bytes;
  (** [encryptedtext_to_data(text, key, iterations=n)]; [None] is
      [encryption.WrongKeyError] *)
  decrypt : bytes -> bytes -> N -> option bytes;
  (** [data_to_encryptedtext(data, password, pin=pin)] *)
  encrypt_pin : bytes -> bytes -> bytes -> N -> pin_result;
  (** [encryptedtext_to_data(text, password, pin=pin)] *)
  decrypt_pin : bytes -> bytes -> bytes -> pin_result;
  (** what [delete_bytearray] leaves in a buffer *)
  wiped : bytes -> bytes;
  (** [random_bytearray(n)] *)
  random_bytes : nat -> N -> bytes
}.

Class Base64 : Type := {
  b64encode : bytes -> bytes;
  (** [None] when [base64.b64decode] raises *)
  b64decode : pystr -> option bytes
}.

(** [base64.b64decode(s)] for a [str]: it raises [ValueError] when [s] has a
    character outside ASCII, and [binascii.Error] on any other text it does
    not decode. *)
Definition b64decode_str {B : Base64} (s : pystr) : M bytes :=
  match b64decode s with
  | Some b => ret b
  | None => raise (if forallb (fun c => c <? 128) s then BinasciiError else ValueError)
  end.

Section Collaborators.
Context {E : Engine}.

(** [encryption.delete_bytearray(buffer)] *)
Definition delete_bytearray (l : loc) : M unit :=
  b <- read_buffer l ;;
  modify (fun w => log (EvWipe l) (set_heap (<[l := wiped b]> (heap w)) w)).

(** [encryption.random_bytearray(n)] *)
Definition random_bytearray (n : nat) : M bytes :=
  r <- draw ;;
  ret (random_bytes n r).

(** [encryption.data_to_encryptedtext(data, key, iterations=n)] *)
Definition data_to_encryptedtext (plain key : bytes) (iterations : N) : M bytes :=
  r <- draw ;;
  modify (log (EvEncrypt plain)) ;;;
  ret (encrypt plain key iterations r).

(** [encryption.encryptedtext_to_data(text, key, iterations=n)] *)
Definition encryptedtext_to_data (cipher key : bytes) (iterations : N) : M bytes :=
  modify (log (EvDecrypt cipher)) ;;;
  of_option WrongKeyError (decrypt cipher key iterations).
End Collaborators.

(** ** [binder.py]: class [Binder] *)

Module Binder.
Section Binder.
Context {E : Engine} {B : Base64}.

Definition code_lenght : nat := 10.
Definition encryption_iterations : N := 100000.

(** *** The store as a JSON document, and back *)

Definition json_of_datum (d : datum) : Json.value :=
  Json.JArr [Json.JStr (d_type d); Json.JStr (d_value d)].

Definition json_of_info (i : website_info) : Json.value :=
  Json.JObj [(str "__name__", Json.JStr (name i));
             (str "__encrypted__", Json.JBool (encrypted i));
             (str "__data__", Json.JArr (map json_of_datum (data i)))].

Definition json_of_userdict (d : dict website_info) : Json.value :=
  Json.JObj (map (fun ki => (fst ki, json_of_info (snd ki))) d).

Definition datum_of_json (v : Json.value) : option datum :=
  match v with
  | Json.JArr [Json.JStr t; Json.JStr x] => Some (Datum KList t x)
  | _ => None
  end.

(** An entry as [dump] writes it: the three keys, in the order in which
    [add_website] puts them.  [json.loads] takes any other object as well
    (keys in another order, missing or added); such an entry is no
    [website_info] of this model. *)
Definition info_of_json (v : Json.value) : option website_info :=
  match v with
  | Json.JObj [(k1, Json.JStr n); (k2, Json.JBool e); (k3, Json.JArr ds)] =>
      if str_eqb k1 (str "__name__") && str_eqb k2 (str "__encrypted__")
         && str_eqb k3 (str "__data__")
      then WebsiteInfo n e <$> traverse datum_of_json ds
      else None
  | _ => None
  end.

(** The documents that are record stores; any other one makes a [userdict]
    this model has no type for. *)
Definition userdict_of_json (v : Json.value) : option (dict website_info) :=
  match v with
  | Json.JObj ms => traverse (fun kx => pair (fst kx) <$> info_of_json (snd kx)) ms
  | _ => None
  end.

(** *** Methods *)

Definition load (data : pyobj) : M unit :=
  match data with
  | PyBytearray l =>
      content <- read_buffer l ;;
      if (length content =? 0)%nat then modify (set_userdict [])
      else
        text <- of_option UnicodeDecodeError (Utf8.decode content) ;;
        match Json.loads text with
        | Json.Parsed v =>
            match userdict_of_json v with
            | Some d => modify (set_userdict d)
            | None => unmodelled
            end
        | Json.Malformed => raise JSONDecodeError
        | Json.Unsupported => unmodelled
        | Json.TooDeep => raise RecursionError
        end
  | _ => raise TypeError
  end.

Definition dump : M pyobj :=
  d <- gets userdict ;;
  if (length (dict_keys d) =? 0)%nat then
    b <- of_option UnicodeEncodeError (Utf8.encode (str "")) ;;
    l <- alloc b ;;
    ret (PyBytearray l)
  else
    b <- of_option UnicodeEncodeError (Utf8.encode (Json.dumps (json_of_userdict d))) ;;
    l <- alloc b ;;
    ret (PyBytearray l).

Definition listing_website_codes : M (list pystr) :=
  d <- gets userdict ;;
  private <- gets private_website_code ;;
  ret (List.filter (fun website_code => negb (str_in website_code private)) (dict_keys d)).

Definition is_website_code (website_code : pyobj) : M bool :=
  match website_code with
  | PyStr c =>
      codes <- listing_website_codes ;;
      ret (str_in c codes)
  | _ => raise TypeError
  end.

(** [string.ascii_letters + string.digits] *)
Definition chars : pystr :=
  str "abcdefghijklmnopqrstuvwxyzABCDEFGHIJKLMNOPQRSTUVWXYZ0123456789".

(** [random.choice(seq)] *)
Definition random_choice (seq : pystr) : M N :=
  r <- draw ;;
  ret (nth (N.to_nat (r mod N.of_nat (length seq))) seq 0).

(** [''.join(random.choice(chars) for _ in range(n))] *)
Fixpoint random_code (n : nat) : M pystr :=
  match n with
  | O => ret []
  | S n' =>
      c <- random_choice chars ;;
      s <- random_code n' ;;
      ret (c :: s)
  end.

(** The [while] loop of [generate_website_code]; [None] when [fuel] draws
    were all taken. *)
Fixpoint generate_loop (fuel : nat) (website_codes : list pystr) (website_code : pystr)
  : M (option pystr) :=
  private <- gets private_website_code ;;
  if str_in website_code website_codes || str_in website_code private then
    match fuel with
    | O => ret None
    | S fuel' =>
        website_code' <- random_code code_lenght ;;
        generate_loop fuel' website_codes website_code'
    end
  else ret (Some website_code).

Definition generate_website_code (fuel : nat) : M (option pystr) :=
  website_code <- random_code code_lenght ;;
  website_codes <- listing_website_codes ;;
  generate_loop fuel website_codes website_code.

(** [self.userdict[website_code]] *)
Definition getitem (website_code : pyobj) : M website_info :=
  match website_code with
  | PyStr c =>
      d <- gets userdict ;;
      of_option KeyError (dict_get d c)
  | _ => raise KeyError
  end.

(** [self.userdict[website_code] = info] *)
Definition setitem (website_code : pyobj) (info : website_info) : M unit :=
  match website_code with
  | PyStr c => modify (fun w => set_userdict (dict_set (userdict w) c info) w)
  | _ => raise TypeError
  end.

Definition get_website_name (website_code : pyobj) : M pystr :=
  ok <- is_website_code website_code ;;
  if negb ok then raise ValueError
  else
    info <- getitem website_code ;;
    ret (name info).

Definition set_website_name (website_code website_name : pyobj) : M unit :=
  ok <- is_website_code website_code ;;
  if negb ok then raise ValueError
  else
    match website_name with
    | PyStr n =>
        info <- getitem website_code ;;
        setitem website_code (WebsiteInfo n (encrypted info) (data info))
    | _ => raise TypeError
    end.

Definition get_website_data_number (website_code : pyobj) : M nat :=
  ok <- is_website_code website_code ;;
  if negb ok then raise ValueError
  else
    info <- getitem website_code ;;
    ret (length (data info)).

Definition is_encrypted_website_data (website_code : pyobj) : M bool :=
  ok <- is_website_code website_code ;;
  if negb ok then raise ValueError
  else
    info <- getitem website_code ;;
    ret (encrypted info).

(** The method is declared [def set_website_data_encryption(website_code,
    set_encrypted: bool)], without [self].  [args] are the arguments of a
    call [binder.set_website_data_encryption(...)]; Python puts the receiver
    in front of them and binds the lot to the two parameters.  With one
    argument the binding succeeds ([website_code] is the receiver) and the
    body's first expression, [self.is_website_code(website_code)], names a
    variable that does not exist.  Nothing of the body below that line,
    the assignment to ['__encrypted__'] included, is ever run. *)
Definition set_website_data_encryption (args : list pyobj) : M unit :=
  match args with
  | [set_encrypted] => raise NameError
  | _ => raise TypeError
  end.

(** [website_data[index] = x], where [website_data] is the list object held
    in [self.userdict[website_code]['__data__']]: the store changes. *)
Definition setitem_data (website_code : pyobj) (index : nat) (x : datum) : M unit :=
  info <- getitem website_code ;;
  setitem website_code (WebsiteInfo (name info) (encrypted info) (<[index := x]> (data info))).

(** The body of the [for] loop of [get_website_data], with its [try]. *)
Definition decrypt_datum (website_code : pyobj) (user_key : loc) (index : nat) (d : datum)
  : M unit :=
  try_except
    (encrypted_datum <- b64decode_str (d_value d) ;;
     key_copy <- read_buffer user_key ;;
     decrypted_datum <- encryptedtext_to_data encrypted_datum key_copy encryption_iterations ;;
     text <- of_option UnicodeDecodeError (Utf8.decode decrypted_datum) ;;
     setitem_data website_code index (Datum KTuple (d_type d) text))
    WrongKeyError
    (delete_bytearray user_key ;;;
     raise WrongKeyError).

(** [for index, datum in enumerate(website_data)], from [index] on. *)
Fixpoint decrypt_loop (website_code : pyobj) (user_key : loc) (index : nat)
    (website_data : list datum) : M unit :=
  match website_data with
  | [] => ret tt
  | d :: rest =>
      decrypt_datum website_code user_key index d ;;;
      decrypt_loop website_code user_key (S index) rest
  end.

Definition get_website_data (website_code user_key : pyobj) : M (list datum) :=
  is_encrypted <- is_encrypted_website_data website_code ;;
  if negb is_encrypted then
    info <- getitem website_code ;;
    ret (data info)
  else
    match user_key with
    | PyNone => raise TypeError
    | PyBytearray key =>
        info <- getitem website_code ;;
        decrypt_loop website_code key 0 (data info) ;;;
        delete_bytearray key ;;;
        info' <- getitem website_code ;;
        ret (data info')
    | _ => raise TypeError
    end.

(** The check of [set_website_data] on one element: a tuple of two [str]. *)
Definition as_datum (website_datum : pyobj) : option datum :=
  match website_datum with
  | PyTuple [PyStr t; PyStr v] => Some (Datum KTuple t v)
  | _ => None
  end.

(** The body of the [for] loop of [set_website_data]. *)
Definition encrypt_datum (user_key : loc) (d : datum) : M datum :=
  decrypted_datum <- of_option UnicodeEncodeError (Utf8.encode (d_value d)) ;;
  key_copy <- read_buffer user_key ;;
  encrypted_datum <- data_to_encryptedtext decrypted_datum key_copy encryption_iterations ;;
  text <- of_option UnicodeDecodeError (Utf8.decode (b64encode encrypted_datum)) ;;
  ret (Datum KTuple (d_type d) text).

(** [for index, datum in enumerate(website_data)].  The code rewrites the
    list object the caller passed, element by element; here the list is a
    value, and the loop gives the value the list ends with.  What the
    rewriting does to another holder of that object (the store, when the
    caller passes a list it got from [get_website_data]) is not in this
    model, in which two sites never share their data. *)
Fixpoint encrypt_loop (user_key : loc) (website_data : list datum) : M (list datum) :=
  match website_data with
  | [] => ret []
  | d :: rest =>
      d' <- encrypt_datum user_key d ;;
      rest' <- encrypt_loop user_key rest ;;
      ret (d' :: rest')
  end.

(** Returns [Some] of the list on the path that ends in [return website_data],
    [None] on the one that ends in a bare [return].  The code stores the list
    object it was given; here the store gets the value of that list, so that
    what the caller does to the list later, or what the store does to it, is
    not seen by the other. *)
Definition set_website_data (website_code website_data user_key : pyobj)
  : M (option (list datum)) :=
  match website_data with
  | PyList items =>
      match traverse as_datum items with
      | None => raise ValueError
      | Some website_data =>
          is_encrypted <- is_encrypted_website_data website_code ;;
          if negb is_encrypted then
            info <- getitem website_code ;;
            setitem website_code (WebsiteInfo (name info) (encrypted info) website_data) ;;;
            ret None
          else
            match user_key with
            | PyNone => raise TypeError
            | PyBytearray key =>
                website_data' <- encrypt_loop key website_data ;;
                info <- getitem website_code ;;
                setitem website_code (WebsiteInfo (name info) (encrypted info) website_data') ;;;
                delete_bytearray key ;;;
                ret (Some website_data')
            | _ => raise TypeError
            end
      end
  | _ => raise TypeError
  end.

Definition remove_website (website_code : pyobj) : M unit :=
  ok <- is_website_code website_code ;;
  if negb ok then raise ValueError
  else
    match website_code with
    | PyStr c => modify (fun w => set_userdict (dict_del (userdict w) c) w)
    | _ => raise KeyError
    end.

Definition add_website (website_code website_name : pyobj) : M unit :=
  ok <- is_website_code website_code ;;
  if ok then raise ValueError
  else
    setitem website_code (WebsiteInfo (str "") false []) ;;;
    set_website_name website_code website_name.

End Binder.
End Binder.

(** ** [filesmanager.py]: the account's encrypted blob *)

Module FilesManager.
Section FilesManager.
Context {E : Engine}.

(** [__file__] *)
Variable module_file : path.

(** [os.path.dirname] applied [deep] times. *)
Definition dirname (p : path) (deep : Z) : M path :=
  if (deep <=? 0)%Z then raise ValueError
  else ret (Nat.iter (Z.to_nat deep) (@removelast pystr) p).

Definition name_char (c : N) : bool :=
  ((65 <=? c) && (c <=? 90)) || ((97 <=? c) && (c <=? 122))
  || ((48 <=? c) && (c <=? 57)) || (c =? 95) || (c =? 45).

(** [re.match(r'^[A-Za-z0-9_-]+$', account)], from inside the name on;
    [seen] tells whether a character of the class was read.  [$] matches at
    the end and before a newline that ends the string. *)
Fixpoint match_name (seen : bool) (s : pystr) : bool :=
  match s with
  | [] => seen
  | c :: r =>
      if name_char c then match_name true r
      else seen && (c =? 10) && match r with [] => true | _ :: _ => false end
  end.

Definition is_valid_account_name (account : pyobj) : M bool :=
  match account with
  | PyStr a =>
      if (length a =? 0)%nat then raise ValueError
      else ret (match_name false a)
  | _ => raise TypeError
  end.

(** [os.path.join(dirname(__file__,2), 'files', 'accounts', account)] *)
Definition account_dir (account : pystr) : M path :=
  root <- dirname module_file 2 ;;
  ret (root ++ [str "files"; str "accounts"; account]).

Definition exist_account (account : pyobj) : M bool :=
  ok <- is_valid_account_name account ;;
  if negb ok then raise ValueError
  else
    match account with
    | PyStr a =>
        accountpath <- account_dir a ;;
        isdir accountpath
    | _ => raise TypeError
    end.

Definition get_account_path (account : pyobj) : M path :=
  ok <- exist_account account ;;
  if negb ok then raise ValueError
  else
    match account with
    | PyStr a => account_dir a
    | _ => raise TypeError
    end.

Definition get_encryptedtext_filepath (account : pyobj) : M path :=
  match account with
  | PyStr _ =>
      accountpath <- get_account_path account ;;
      ret (accountpath ++ [str "encryptedtext.bin"])
  | _ => raise TypeError
  end.

Definition delete_account (account : pyobj) : M unit :=
  accountpath <- get_account_path account ;;
  encryptedtextfilepath <- get_encryptedtext_filepath account ;;
  content <- read_file encryptedtextfilepath ;;
  encryptedtext <- alloc content ;;
  noise <- random_bytearray (length content) ;;
  write_file encryptedtextfilepath noise ;;;
  delete_bytearray encryptedtext ;;;
  rmtree accountpath.

(** [buffer[:] = content], what a callee does to a buffer it was handed. *)
Definition overwrite (l : loc) (content : bytes) : M unit :=
  modify (fun w => set_heap (<[l := content]> (heap w)) w).

(** The checks [load_encryptedtext] and [dumps_encryptedtext] share. *)
Definition check_secrets (password pin : pyobj) : M (loc * loc) :=
  match password with
  | PyBytearray pw =>
      match pin with
      | PyBytearray pn =>
          pw_content <- read_buffer pw ;;
          pn_content <- read_buffer pn ;;
          if (length pw_content =? 0)%nat then raise ValueError
          else if (length pn_content =? 0)%nat then raise ValueError
          else ret (pw, pn)
      | _ => raise TypeError
      end
  | _ => raise TypeError
  end.

Definition load_encryptedtext (account password pin : pyobj) : M pyobj :=
  encryptedtextfilepath <- get_encryptedtext_filepath account ;;
  secrets <- check_secrets password pin ;;
  let pw := fst secrets in
  let pn := snd secrets in
  encryptedtext <- read_file encryptedtextfilepath ;;
  pw_content <- read_buffer pw ;;
  pn_content <- read_buffer pn ;;
  let r := decrypt_pin encryptedtext pw_content pn_content in
  modify (log (EvDecrypt encryptedtext)) ;;;
  overwrite pw (password_after r) ;;;
  overwrite pn (pin_after r) ;;;
  if is_error r then
    delete_bytearray pw ;;;
    delete_bytearray pn ;;;
    raise ComputationError
  else
    l <- alloc (result r) ;;
    ret (PyBytearray l).

Definition dumps_encryptedtext (account password pin data : pyobj) : M unit :=
  encryptedtextfilepath <- get_encryptedtext_filepath account ;;
  secrets <- check_secrets password pin ;;
  let pw := fst secrets in
  let pn := snd secrets in
  match data with
  | PyBytearray d =>
      d_content <- read_buffer d ;;
      pw_content <- read_buffer pw ;;
      pn_content <- read_buffer pn ;;
      seed <- draw ;;
      let r := encrypt_pin d_content pw_content pn_content seed in
      modify (log (EvEncrypt d_content)) ;;;
      overwrite d (data_after r) ;;;
      overwrite pw (password_after r) ;;;
      overwrite pn (pin_after r) ;;;
      if is_error r then
        delete_bytearray pw ;;;
        delete_bytearray pn ;;;
        delete_bytearray d ;;;
        raise ComputationError
      else write_file encryptedtextfilepath (result r)
  | _ => unmodelled
  end.

(** [[d for d in names if os.path.isdir(os.path.join(parent, d))]] *)
Fixpoint keep_dirs (parent : path) (names : list pystr) : M (list pystr) :=
  match names with
  | [] => ret []
  | d :: rest =>
      ok <- isdir (parent ++ [d]) ;;
      kept <- keep_dirs parent rest ;;
      ret (if ok then d :: kept else kept)
  end.

Definition get_existing_accounts : M (list pystr) :=
  root <- dirname module_file 2 ;;
  let accounts_dir := root ++ [str "files"; str "accounts"] in
  ok <- isdir accounts_dir ;;
  if negb ok then raise FileNotFoundError
  else
    names <- listdir accounts_dir ;;
    keep_dirs accounts_dir names.

(** A name with a ["/"] in it does not name an entry of the directory it is
    joined to: such a call is outside the model. *)
Definition get_UI_icon (icon_name : pyobj) : M path :=
  match icon_name with
  | PyStr n =>
      root <- dirname module_file 2 ;;
      if is_component (n ++ str ".png") then
        let icon_path := root ++ [str "files"; str "iconbank"; str "iconui"; n ++ str ".png"] in
        ok <- isfile icon_path ;;
        if negb ok then raise FileNotFoundError
        else ret icon_path
      else unmodelled
  | _ => raise TypeError
  end.

Definition get_website_icon (account website_code : pyobj) : M path :=
  match website_code with
  | PyStr c =>
      accountpath <- get_account_path account ;;
      if is_component (c ++ str ".png") then
        let icon_path := accountpath ++ [str "icons"; c ++ str ".png"] in
        ok <- isfile icon_path ;;
        if negb ok then get_UI_icon (PyStr (str "default_website"))
        else ret icon_path
      else unmodelled
  | _ => raise TypeError
  end.

Definition remove_website_icon (account website_code : pyobj) : M unit :=
  match website_code with
  | PyStr c =>
      accountpath <- get_account_path account ;;
      if is_component (c ++ str ".png") then
        let icon_path := accountpath ++ [str "icons"; c ++ str ".png"] in
        ok <- isfile icon_path ;;
        if ok then os_remove icon_path
        else ret tt
      else unmodelled
  | _ => raise TypeError
  end.

Definition set_website_icon (account website_code iconpath : pyobj) : M unit :=
  match website_code with
  | PyStr c =>
      match iconpath with
      | PyStr s =>
          match parse_path s with
          | Some src =>
              ok <- isfile src ;;
              if negb ok then raise FileNotFoundError
              else
                accountpath <- get_account_path account ;;
                if is_component (c ++ str ".png") then
                  let icon_path := accountpath ++ [str "icons"; c ++ str ".png"] in
                  remove_website_icon account website_code ;;;
                  copyfile src icon_path
                else unmodelled
          | None => unmodelled
          end
      | _ => raise TypeError
      end
  | _ => raise TypeError
  end.

Definition get_profile_icon (account : pyobj) : M path :=
  accountpath <- get_account_path account ;;
  let profile_icon_path := accountpath ++ [str "profile.png"] in
  ok <- isfile profile_icon_path ;;
  if negb ok then get_UI_icon (PyStr (str "default_profile"))
  else ret profile_icon_path.

Definition set_profile_icon (account iconpath : pyobj) : M unit :=
  match iconpath with
  | PyStr s =>
      match parse_path s with
      | Some src =>
          ok <- isfile src ;;
          if negb ok then raise FileNotFoundError
          else
            accountpath <- get_account_path account ;;
            copyfile src (accountpath ++ [str "profile.png"])
      | None => unmodelled
      end
  | _ => raise TypeError
  end.

Definition get_account_language (account : pyobj) : M pystr :=
  accountpath <- get_account_path account ;;
  let language_file := accountpath ++ [str "language.txt"] in
  ok <- isfile language_file ;;
  if negb ok then raise ValueError
  else
    text <- read_text language_file ;;
    ret (strip text).

Definition set_account_language (account language : pyobj) : M unit :=
  match language with
  | PyStr lang =>
      accountpath <- get_account_path account ;;
      write_text (accountpath ++ [str "language.txt"]) lang
  | _ => raise TypeError
  end.

Definition create_account (account password pin language : pyobj) : M unit :=
  match account, password, pin, language with
  | PyStr a, PyBytearray pw, PyBytearray pn, PyStr lang =>
      pw_content <- read_buffer pw ;;
      pn_content <- read_buffer pn ;;
      if (length pw_content =? 0)%nat then raise ValueError
      else if (length pn_content =? 0)%nat then raise ValueError
      else if (length a =? 0)%nat then raise ValueError
      else
        valid <- is_valid_account_name account ;;
        if negb valid then raise ValueError
        else
          existing <- exist_account account ;;
          if existing then raise ValueError
          else
            accountpath <- account_dir a ;;
            mkdir accountpath ;;;
            mkdir (accountpath ++ [str "icons"]) ;;;
            d <- alloc [] ;;
            d_content <- read_buffer d ;;
            pw_content <- read_buffer pw ;;
            pn_content <- read_buffer pn ;;
            seed <- draw ;;
            let r := encrypt_pin d_content pw_content pn_content seed in
            modify (log (EvEncrypt d_content)) ;;;
            overwrite d (data_after r) ;;;
            overwrite pw (password_after r) ;;;
            overwrite pn (pin_after r) ;;;
            write_file (accountpath ++ [str "encryptedtext.bin"]) (result r) ;;;
            write_text (accountpath ++ [str "language.txt"]) lang ;;;
            icon <- get_UI_icon (PyStr (str "default_profile")) ;;
            copyfile icon (accountpath ++ [str "profile.png"])
  | _, _, _, _ => raise TypeError
  end.

End FilesManager.
End FilesManager.

(** ** Vocabulary of the properties *)

(** The laws of the collaborators the properties rely on (the Crypto Engine
    contract, the [base64] codec). *)
Definition decrypt_inverts_encrypt (E : Engine) : Prop :=
  forall plain key iterations r,
    decrypt (encrypt plain key iterations r) key iterations = Some plain.



Definition b64decode_inverts_b64encode (B : Base64) : Prop :=
  forall b, exists text, Utf8.decode (b64encode b) = Some text /\ b64decode text = Some b.

(** The site [code] is in the store with entry [info], and is no reserved code. *)
Definition site_at (w : world) (code : pystr) (info : website_info) : Prop :=
  dict_get (userdict w) code = Some info /\ str_in code (private_website_code w) = false.

(** A record store as Python holds it, a [dict] (no code twice) of [str]
    (code points), in which no string has a high surrogate right before a low
    one. *)
Definition datum_ok (d : datum) : Prop :=
  Json.json_text (d_type d) /\ Json.json_text (d_value d).

Definition info_ok (i : website_info) : Prop :=
  Json.json_text (name i) /\ Forall datum_ok (data i).

Definition wf_store (d : dict website_info) : Prop :=
  NoDup (dict_keys d) /\ Forall (fun ki => Json.json_text (fst ki) /\ info_ok (snd ki)) d.

(** What a datum, an entry, a store look like once every 2-sequence is a list. *)
Definition listify (d : datum) : datum := Datum KList (d_type d) (d_value d).

Definition listify_info (i : website_info) : website_info :=
  WebsiteInfo (name i) (encrypted i) (map listify (data i)).

Definition listify_store (d : dict website_info) : dict website_info :=
  map (fun ki => (fst ki, listify_info (snd ki))) d.

(** The content of a store in the terms of the data model: per site code its
    name, its flag and its sequence of (field type, field value). *)
Definition fields (d : datum) : pystr * pystr := (d_type d, d_value d).

Definition view (d : dict website_info) : list (pystr * (pystr * bool * list (pystr * pystr))) :=
  map (fun ki => (fst ki, (name (snd ki), encrypted (snd ki), map fields (data (snd ki))))) d.

(** A list of 2-tuples of strings, as an argument and as stored data. *)
Definition py_data (D : list (pystr * pystr)) : pyobj :=
  PyList (map (fun tv => PyTuple [PyStr (fst tv); PyStr (snd tv)]) D).

Definition tuples (D : list (pystr * pystr)) : list datum :=
  map (fun tv => Datum KTuple (fst tv) (snd tv)) D.

Definition with_data (i : website_info) (l : list datum) : website_info :=
  WebsiteInfo (name i) (encrypted i) l.

(** How often [evs] wipes the buffer at [l]. *)
Definition wipes_of (l : loc) (evs : list event) : nat :=
  length (List.filter (fun e => match e with EvWipe l' => Pos.eqb l' l | _ => false end) evs).

Section Wiping.
Context {E : Engine}.

(** Between [w] and [w'] the buffer at [l], which held [content], was wiped
    once, and no other buffer changed. *)
Definition wiped_once (l : loc) (content : bytes) (w w' : world) : Prop :=
  heap w' = <[l := wiped content]> (heap w)
  /\ exists evs, trace w' = trace w ++ evs /\ wipes_of l evs = 1%nat.

(** Between [w] and [w'] no buffer changed and the one at [l] was not wiped. *)
Definition untouched (l : loc) (w w' : world) : Prop :=
  heap w' = heap w
  /\ exists evs, trace w' = trace w ++ evs /\ wipes_of l evs = 0%nat.
End Wiping.

(** A computation that, however it ends, takes a world to one related to it
    by [R]. *)
Definition preserves {A : Type} (R : world -> world -> Prop) (m : M A) : Prop :=
  forall w r w', m w = (r, w') -> R w w'.

(** The site [code] stays in the store. *)
Definition keeps_site (code : pystr) (w w' : world) : Prop :=
  dict_get (userdict w) code <> None -> dict_get (userdict w') code <> None.


(** The data list after [website_data[index] = x] for the [news], one index
    after the other from [index] on. *)
Fixpoint patch (index : nat) (news : list datum) (l : list datum) : list datum :=
  match news with
  | [] => l
  | x :: news' => patch (S index) news' (<[index := x]> l)
  end.

Section Opening.
Context {E : Engine} {B : Base64}.

(** What one round of the loop of [get_website_data] makes of a stored
    datum under the key content [key]: the cipher text it hands to the
    engine and the tuple it writes back, when nothing fails. *)
Definition opened (key : bytes) (d : datum) : option (bytes * datum) :=
  match b64decode (d_value d) with
  | Some cipher =>
      match decrypt cipher key Binder.encryption_iterations with
      | Some plain =>
          match Utf8.decode plain with
          | Some text => Some (cipher, Datum KTuple (d_type d) text)
          | None => None
          end
      | None => None
      end
  | None => None
  end.

(** The round that raises [WrongKeyError]: the text decodes to [cipher] and
    the engine rejects the key. *)
Definition rejected (key : bytes) (d : datum) (cipher : bytes) : Prop :=
  b64decode (d_value d) = Some cipher
  /\ decrypt cipher key Binder.encryption_iterations = None.

End Opening.



(** The directory of the account [account], and its encrypted blob, for the
    module file [module_file]. *)
Definition account_path (module_file : path) (account : pystr) : path :=
  removelast (removelast module_file) ++ [str "files"; str "accounts"; account].

Definition blob_path (module_file : path) (account : pystr) : path :=
  account_path module_file account ++ [str "encryptedtext.bin"].

(** The account [account] exists and its blob holds [content]. *)
Definition account_with_blob (module_file : path) (w : world) (account : pystr) (content : bytes)
  : Prop :=
  account <> []
  /\ FilesManager.match_name false account = true
  /\ account_path module_file account ∈ dirs w
  /\ files w !! blob_path module_file account = Some content.

Section Wiped.
Context {E : Engine}.

(** The buffer at [l] holds what a wipe leaves. *)
Definition is_wiped (w : world) (l : loc) : Prop :=
  exists content, heap w !! l = Some (wiped content).
End Wiped.

(** The test of the [while] loop of [generate_website_code] in the world [w]:
    the code is listed, or reserved. *)
Definition taken (w : world) (website_code : pystr) : bool :=
  str_in website_code
    (List.filter (fun c => negb (str_in c (private_website_code w))) (dict_keys (userdict w)))
  || str_in website_code (private_website_code w).

(** The [n]-th code [generate_website_code] draws when called in [w] (the
    first one is number 0): what [random_code] yields once [n] codes have been
    drawn. *)
Definition candidate (w : world) (n : nat) : pystr :=
  match Binder.random_code Binder.code_lenght
          (set_drawn (Binder.code_lenght * n + drawn w) w) with
  | (Return website_code, _) => website_code
  | _ => []
  end.

(** [dump] then [load] of what it returned. *)
Definition dump_then_load : M unit :=
  buffer <- Binder.dump ;;
  Binder.load buffer.

(** ** A reference instance of the collaborators

    A key-tagged "cipher" and a unary text codec: enough to run the program on
    examples and to show that the laws above can be met together. *)

Module Toy.

(** The key (with its length) in front, then the drawn value, then the
    plain text. *)
Definition toy_encrypt (plain key : bytes) (iterations r : N) : bytes :=
  N.of_nat (length key) :: key ++ r :: plain.

Definition toy_decrypt (cipher key : bytes) (iterations : N) : option bytes :=
  match Json.starts_with (N.of_nat (length key) :: key) cipher with
  | Some (_ :: plain) => Some plain
  | _ => None
  end.

Definition zeroed (b : bytes) : bytes := repeat 0 (length b).

(** The vault blob is the password, the pin, then the data; encryption fails
    on an odd draw, and no call touches the buffers it is handed. *)
Definition toy_encrypt_pin (data password pin : bytes) (r : N) : pin_result :=
  PinResult (r mod 2 =? 1) (Z.of_N (r mod 2)) (password ++ pin ++ data) password pin data.

Definition toy_decrypt_pin (cipher password pin : bytes) : pin_result :=
  match Json.starts_with (password ++ pin) cipher with
  | Some data => PinResult false 0 data password pin []
  | None => PinResult true 1 [] password pin []
  end.

#[export] Instance engine : Engine := {|
  encrypt := toy_encrypt;
  decrypt := toy_decrypt;
  encrypt_pin := toy_encrypt_pin;
  decrypt_pin := toy_decrypt_pin;
  wiped := zeroed;
  random_bytes := fun n r => repeat (r mod 256) n
|}.

(** Every octet as that many [A]s and a full stop. *)
Definition toy_b64encode (b : bytes) : bytes :=
  flat_map (fun x => repeat 65 (N.to_nat x) ++ [46]) b.

Fixpoint toy_b64decode_from (count : N) (s : pystr) : option bytes :=
  match s with
  | [] => if count =? 0 then Some [] else None
  | c :: r =>
      if c =? 65 then toy_b64decode_from (count + 1) r
      else if c =? 46 then cons count <$> toy_b64decode_from 0 r
      else None
  end.

#[export] Instance base64 : Base64 := {|
  b64encode := toy_b64encode;
  b64decode := toy_b64decode_from 0
|}.

(** A world with nothing in it. *)
Definition empty_world : world :=
  World [] [] ∅ ∅ ∅ (fun _ => 0) 0 [].

(** A store with a plain site ["a"] holding one tuple and an encrypted site
    ["b"] holding none, and two buffers with the same key. *)
Definition example_world : world :=
  World [(str "a", WebsiteInfo (str "shop") false [Datum KTuple (str "login") (str "bob")]);
         (str "b", WebsiteInfo (str "bank") true [])]
        []
        (<[1%positive := [1; 2; 3]]> (<[2%positive := [1; 2; 3]]> (<[3%positive := [9]]> ∅)))
        ∅ ∅ (fun n => N.of_nat n) 0 [].

(** The example world after [set_website_data] has stored two tuples on
    site ["b"] under the key of buffer 1, and what site ["b"] then holds. *)
Definition sealed_world : world :=
  snd (Binder.set_website_data (PyStr (str "b"))
         (py_data [(str "login", str "bob"); (str "pin", str "42")])
         (PyBytearray 1%positive) example_world).

Definition sealed_info : website_info :=
  match dict_get (userdict sealed_world) (str "b") with
  | Some info => info
  | None => WebsiteInfo [] false []
  end.

(** A store with two names made of surrogates: a high one before a low one,
    and the other way round. *)
Definition paired_world : world :=
  set_userdict [(str "a", WebsiteInfo [0xD800; 0xDC00] false []);
                (str "b", WebsiteInfo [0xDC00; 0xD800] false [])] empty_world.

(** A store in which the first code the random source yields, ["abcdefghij"],
    is in use. *)
Definition crowded_world : world :=
  set_userdict [(str "abcdefghij", WebsiteInfo (str "shop") false [])] example_world.

(** An installation with the account ["alice"], whose blob was written
    under the password [1; 2; 3] and the pin [9]; buffers 1 and 3 hold them,
    buffer 2 the password again, and the random source is at an odd value. *)
Definition module_file : path := [str "bipbip"; str "bipbip"; str "filesmanager.py"].

Definition vault_world : world :=
  set_drawn 1
    (set_dirs {[ account_path module_file (str "alice") ]}
       (set_files {[ blob_path module_file (str "alice") := [1; 2; 3; 9; 42] ]} example_world)).

End Toy.

(** ** More vocabulary: the store through its methods *)

(** The codes [listing_website_codes] reports: the keys that are not
    reserved, in the order of the store. *)
Definition visible_codes (w : world) : list pystr :=
  List.filter (fun c => negb (str_in c (private_website_code w))) (dict_keys (userdict w)).

(** The store and the buffers are as they were. *)
Definition same_store (w w' : world) : Prop :=
  userdict w' = userdict w /\ heap w' = heap w.

(** No site of the store is flagged encrypted. *)
Definition plain_store (w : world) : Prop :=
  Forall (fun ki => encrypted (snd ki) = false) (userdict w).

(** A call of a method of [Binder] other than [load], with its arguments
    ([fuel] bounds the loop of [generate_website_code]). *)
Inductive call : Type :=
| CallDump
| CallListing
| CallIsWebsiteCode (website_code : pyobj)
| CallGenerate (fuel : nat)
| CallGetName (website_code : pyobj)
| CallSetName (website_code website_name : pyobj)
| CallDataNumber (website_code : pyobj)
| CallIsEncrypted (website_code : pyobj)
| CallSetEncryption (args : list pyobj)
| CallGetData (website_code user_key : pyobj)
| CallSetData (website_code website_data user_key : pyobj)
| CallRemove (website_code : pyobj)
| CallAdd (website_code website_name : pyobj).

Section Calls.
Context {E : Engine} {B : Base64}.

(** Every method that works on a site raises on [code] and leaves the world
    [w] as it was.  The error is [e], but for [set_website_data] given data
    that is no list of 2-tuples of strings: its check of the data comes
    first, and the error is the one of that check. *)
Definition refuses (code : pyobj) (w : world) (e : exn) : Prop :=
  Binder.get_website_name code w = (Raise e, w)
  /\ (forall website_name, Binder.set_website_name code website_name w = (Raise e, w))
  /\ Binder.get_website_data_number code w = (Raise e, w)
  /\ Binder.is_encrypted_website_data code w = (Raise e, w)
  /\ (forall user_key, Binder.get_website_data code user_key w = (Raise e, w))
  /\ (forall website_data user_key,
        exists e',
          Binder.set_website_data code website_data user_key w = (Raise e', w)
          /\ (forall D, website_data = py_data D -> e' = e))
  /\ Binder.remove_website code w = (Raise e, w).

(** The call, its result dropped. *)
Definition run (c : call) : M unit :=
  match c with
  | CallDump => Binder.dump ;;; ret tt
  | CallListing => Binder.listing_website_codes ;;; ret tt
  | CallIsWebsiteCode c => Binder.is_website_code c ;;; ret tt
  | CallGenerate fuel => Binder.generate_website_code fuel ;;; ret tt
  | CallGetName c => Binder.get_website_name c ;;; ret tt
  | CallSetName c n => Binder.set_website_name c n
  | CallDataNumber c => Binder.get_website_data_number c ;;; ret tt
  | CallIsEncrypted c => Binder.is_encrypted_website_data c ;;; ret tt
  | CallSetEncryption args => Binder.set_website_data_encryption args
  | CallGetData c k => Binder.get_website_data c k ;;; ret tt
  | CallSetData c d k => Binder.set_website_data c d k ;;; ret tt
  | CallRemove c => Binder.remove_website c
  | CallAdd c n => Binder.add_website c n
  end.

(** The world after the calls, one after the other, whether a call returns
    or raises (a caller may catch what it raises and go on); [None] when a
    call leaves the model. *)
Fixpoint after_calls (cs : list call) (w : world) : option world :=
  match cs with
  | [] => Some w
  | c :: cs' =>
      match run c w with
      | (Unmodelled, _) => None
      | (_, w') => after_calls cs' w'
      end
  end.
End Calls.

(** A tuple of two [str]: what [set_website_data] accepts as an element. *)
Definition is_pair_of_str (x : pyobj) : Prop :=
  exists t v, x = PyTuple [PyStr t; PyStr v].

(** ** More vocabulary: the installation *)

(** What [decrypt_pin] owes to [encrypt_pin]: a blob made without error opens
    without error under the same password and pin, and gives the data back. *)
Definition decrypt_pin_inverts_encrypt_pin (E : Engine) : Prop :=
  forall data password pin r,
    is_error (encrypt_pin data password pin r) = false ->
    is_error (decrypt_pin (result (encrypt_pin data password pin r)) password pin) = false
    /\ result (decrypt_pin (result (encrypt_pin data password pin r)) password pin) = data.

(** The directory that holds the accounts, and the default icons. *)
Definition accounts_path (module_file : path) : path :=
  removelast (removelast module_file) ++ [str "files"; str "accounts"].

Definition ui_icon_path (module_file : path) (icon_name : pystr) : path :=
  removelast (removelast module_file)
  ++ [str "files"; str "iconbank"; str "iconui"; icon_name ++ str ".png"].

(** The files of an account. *)
Definition language_path (module_file : path) (account : pystr) : path :=
  account_path module_file account ++ [str "language.txt"].

Definition profile_path (module_file : path) (account : pystr) : path :=
  account_path module_file account ++ [str "profile.png"].

Definition icons_path (module_file : path) (account : pystr) : path :=
  account_path module_file account ++ [str "icons"].

Definition website_icon_path (module_file : path) (account website_code : pystr) : path :=
  account_path module_file account ++ [str "icons"; website_code ++ str ".png"].

(** A file system: what is in a directory is in no regular file, and no path
    is both a directory and a regular file. *)
Definition fs_wf (w : world) : Prop :=
  (forall p, p ∈ dirs w -> p <> [] -> removelast p ∈ dirs w)
  /\ (forall p, is_Some (files w !! p) -> (removelast p ∈ dirs w) /\ (p ∉ dirs w)).

(** [fs_wf], decided. *)
Definition fs_wf_check (w : world) : bool :=
  forallb (fun p => match p with
                    | [] => true
                    | _ :: _ => bool_decide (removelast p ∈ dirs w)
                    end) (elements (dirs w))
  && forallb (fun pc => bool_decide (removelast (fst pc) ∈ dirs w)
                        && negb (bool_decide (fst pc ∈ dirs w)))
       (map_to_list (files w)).

(** The account [account] exists: the name is valid and its directory is
    there. *)
Definition account_present (module_file : path) (w : world) (account : pystr) : Prop :=
  FilesManager.match_name false account = true
  /\ (account_path module_file account ∈ dirs w).

(** What the three look-ups of an account end in, the world unchanged. *)
Definition looks_up (module_file : path) (w : world) (account : pyobj)
    (existing : outcome bool) (directory blob : outcome path) : Prop :=
  FilesManager.exist_account module_file account w = (existing, w)
  /\ FilesManager.get_account_path module_file account w = (directory, w)
  /\ FilesManager.get_encryptedtext_filepath module_file account w = (blob, w).

(** The password and pin that [load_encryptedtext] and [dumps_encryptedtext]
    refuse with the error [e]: one that is no [bytearray] ([TypeError]), or,
    both being [bytearray]s, one that is empty ([ValueError]). *)
Definition bad_secrets (w : world) (password pin : pyobj) (e : exn) : Prop :=
  (e = TypeError
   /\ ((forall l, password <> PyBytearray l) \/ (forall l, pin <> PyBytearray l)))
  \/ (e = ValueError
      /\ exists pw pn (pwc pnc : bytes),
           password = PyBytearray pw /\ pin = PyBytearray pn
           /\ heap w !! pw = Some pwc /\ heap w !! pn = Some pnc
           /\ (pwc = [] \/ pnc = [])).

(** A valid account name that is not in use. *)
Definition new_account (module_file : path) (w : world) (account : pystr) : Prop :=
  account <> []
  /\ FilesManager.match_name false account = true
  /\ (account_path module_file account ∉ dirs w)
  /\ (accounts_path module_file ∈ dirs w).

(** An installation with its default icons, no account, and buffers 1 and 3
    holding a password and a pin. *)
Module ToyInstall.
Import Toy.

Definition install_world : world :=
  set_dirs {[ [] ; [str "bipbip"]; [str "bipbip"; str "files"];
              accounts_path module_file;
              [str "bipbip"; str "files"; str "iconbank"];
              [str "bipbip"; str "files"; str "iconbank"; str "iconui"] ]}
    (set_files {[ ui_icon_path module_file (str "default_profile") := [80; 78; 71; 1];
                  ui_icon_path module_file (str "default_website") := [80; 78; 71; 2] ]}
       example_world).

(** The installation with the account ["bob"], which has no icon yet. *)
Definition bob_world : world :=
  set_dirs ({[ account_path module_file (str "bob"); icons_path module_file (str "bob") ]}
            ∪ dirs install_world) install_world.

End ToyInstall.
(* ===================================================================== *)
(** * Part II. Verification                                               *)
(* ===================================================================== *)

Lemma str_eqb_eq (a b : pystr) : str_eqb a b = true <-> a = b.
Proof.
  revert b; induction a as [|x a IH]; intros [|y b]; simpl; try (split; congruence).
  rewrite andb_true_iff, N.eqb_eq, IH. split; [intros [-> ->]|intros [= -> ->]]; auto.
Qed.

Lemma str_eqb_refl (a : pystr) : str_eqb a a = true.
Proof. now apply str_eqb_eq. Qed.

Lemma str_eqb_neq (a b : pystr) : str_eqb a b = false <-> a <> b.
Proof.
  destruct (str_eqb a b) eqn:E.
  - apply str_eqb_eq in E. split; [discriminate | congruence].
  - split; [|reflexivity]. intros _ ->. rewrite str_eqb_refl in E. discriminate.
Qed.

Lemma str_in_In (x : pystr) (l : list pystr) : str_in x l = true <-> In x l.
Proof.
  unfold str_in. rewrite existsb_exists. split.
  - intros (y & Hy & E). apply str_eqb_eq in E. now subst.
  - intros H. exists x. split; [assumption | apply str_eqb_refl].
Qed.

Module Utf8Facts.
Import Utf8.

Lemma decode_encode_char (c : N) (rest : bytes) :
  is_scalar c = true ->
  exists b, encode_char c = Some b /\ decode (b ++ rest) = cons c <$> decode rest.
Proof.
  unfold encode_char, is_scalar. unfold is_surrogate at 1 2. intros H.
  apply andb_true_iff in H as [Hlt Hs]. apply N.ltb_lt in Hlt.
  destruct (c <? 0x80) eqn:E1.
  { eexists; split; [reflexivity|]. simpl. now rewrite E1. }
  apply N.ltb_ge in E1.
  destruct (c <? 0x800) eqn:E2.
  { apply N.ltb_lt in E2. eexists; split; [reflexivity|].
    cbn [app decode].
    replace (0xC0 + c / 64 <? 0x80) with false by (symmetry; apply N.ltb_ge; dlia).
    replace (0xC0 + c / 64 <? 0xC2) with false by (symmetry; apply N.ltb_ge; dlia).
    replace (0xC0 + c / 64 <? 0xE0) with true by (symmetry; apply N.ltb_lt; dlia).
    unfold is_cont.
    replace (0x80 <=? 0x80 + c mod 64) with true by (symmetry; apply N.leb_le; dlia).
    replace (0x80 + c mod 64 <=? 0xBF) with true by (symmetry; apply N.leb_le; dlia).
    cbn [andb]. f_equal. f_equal. dlia. }
  apply N.ltb_ge in E2.
  destruct (c <? 0x10000) eqn:E3.
  { apply N.ltb_lt in E3.
    destruct ((0xD800 <=? c) && (c <=? 0xDFFF)) eqn:E4; [discriminate|].
    eexists; split; [reflexivity|].
    cbn [app decode].
    replace (0xE0 + c / 4096 <? 0x80) with false by (symmetry; apply N.ltb_ge; dlia).
    replace (0xE0 + c / 4096 <? 0xC2) with false by (symmetry; apply N.ltb_ge; dlia).
    replace (0xE0 + c / 4096 <? 0xE0) with false by (symmetry; apply N.ltb_ge; dlia).
    replace (0xE0 + c / 4096 <? 0xF0) with true by (symmetry; apply N.ltb_lt; dlia).
    unfold is_cont.
    replace (0x80 <=? 0x80 + (c / 64) mod 64) with true by (symmetry; apply N.leb_le; dlia).
    replace (0x80 + (c / 64) mod 64 <=? 0xBF) with true by (symmetry; apply N.leb_le; dlia).
    replace (0x80 <=? 0x80 + c mod 64) with true by (symmetry; apply N.leb_le; dlia).
    replace (0x80 + c mod 64 <=? 0xBF) with true by (symmetry; apply N.leb_le; dlia).
    replace ((0xE0 + c / 4096 - 0xE0) * 4096 + (0x80 + (c / 64) mod 64 - 0x80) * 64
             + (0x80 + c mod 64 - 0x80)) with c by dlia.
    replace (0x800 <=? c) with true by (symmetry; apply N.leb_le; lia).
    unfold is_surrogate. rewrite E4. reflexivity. }
  apply N.ltb_ge in E3.
  replace (c <? 0x110000) with true by (symmetry; apply N.ltb_lt; lia).
  eexists; split; [reflexivity|].
  cbn [app decode].
  replace (0xF0 + c / 262144 <? 0x80) with false by (symmetry; apply N.ltb_ge; dlia).
  replace (0xF0 + c / 262144 <? 0xC2) with false by (symmetry; apply N.ltb_ge; dlia).
  replace (0xF0 + c / 262144 <? 0xE0) with false by (symmetry; apply N.ltb_ge; dlia).
  replace (0xF0 + c / 262144 <? 0xF0) with false by (symmetry; apply N.ltb_ge; dlia).
  replace (0xF0 + c / 262144 <? 0xF5) with true by (symmetry; apply N.ltb_lt; dlia).
  unfold is_cont.
  replace (0x80 <=? 0x80 + (c / 4096) mod 64) with true by (symmetry; apply N.leb_le; dlia).
  replace (0x80 + (c / 4096) mod 64 <=? 0xBF) with true by (symmetry; apply N.leb_le; dlia).
  replace (0x80 <=? 0x80 + (c / 64) mod 64) with true by (symmetry; apply N.leb_le; dlia).
  replace (0x80 + (c / 64) mod 64 <=? 0xBF) with true by (symmetry; apply N.leb_le; dlia).
  replace (0x80 <=? 0x80 + c mod 64) with true by (symmetry; apply N.leb_le; dlia).
  replace (0x80 + c mod 64 <=? 0xBF) with true by (symmetry; apply N.leb_le; dlia).
  replace ((0xF0 + c / 262144 - 0xF0) * 262144 + (0x80 + (c / 4096) mod 64 - 0x80) * 4096
           + (0x80 + (c / 64) mod 64 - 0x80) * 64 + (0x80 + c mod 64 - 0x80)) with c by dlia.
  replace (0x10000 <=? c) with true by (symmetry; apply N.leb_le; lia).
  replace (c <? 0x110000) with true by (symmetry; apply N.ltb_lt; lia).
  reflexivity.
Qed.

(** Well-formed text survives [encode] then [decode]. *)
Lemma decode_encode (s : pystr) :
  text_ok s -> exists bs, encode s = Some bs /\ decode bs = Some s.
Proof.
  induction 1 as [|c s Hc _ (bs & Hbs & Hd)].
  - exists []. split; reflexivity.
  - destruct (decode_encode_char c bs Hc) as (b & Hb & Hdb).
    exists (b ++ bs). split.
    + simpl. now rewrite Hb, Hbs.
    + now rewrite Hdb, Hd.
Qed.

(** ASCII text is its own UTF-8 form. *)
Lemma encode_ascii (s : pystr) :
  Forall (fun c => c < 0x80) s -> encode s = Some s.
Proof.
  induction 1 as [|c s Hc _ IH]; [reflexivity|].
  simpl. unfold encode_char.
  replace (c <? 0x80) with true by (symmetry; now apply N.ltb_lt).
  now rewrite IH.
Qed.

Lemma decode_ascii (s : bytes) :
  Forall (fun c => c < 0x80) s -> decode s = Some s.
Proof.
  induction 1 as [|c s Hc _ IH]; [reflexivity|].
  simpl. replace (c <? 0x80) with true by (symmetry; now apply N.ltb_lt).
  now rewrite IH.
Qed.

End Utf8Facts.


(** ** The JSON text format *)

(** Decide the comparisons of the goal from the arithmetic hypotheses. *)
Ltac cmp1 t :=
  first
    [ replace t with true
        by (symmetry; first [apply N.ltb_lt | apply N.leb_le | apply N.eqb_eq]; dlia)
    | replace t with false
        by (symmetry; first [apply N.ltb_ge | apply N.leb_gt | apply N.eqb_neq]; dlia) ].

Ltac cmps :=
  repeat match goal with
    | |- context [N.ltb ?a ?b] => cmp1 (N.ltb a b)
    | |- context [N.leb ?a ?b] => cmp1 (N.leb a b)
    | |- context [N.eqb ?a ?b] => cmp1 (N.eqb a b)
    end;
  cbn [andb orb negb].

Module JsonFacts.
Import Json.

Lemma value_ind' (P : value -> Prop) :
  P JNull ->
  (forall b, P (JBool b)) ->
  (forall s, P (JStr s)) ->
  (forall items, Forall P items -> P (JArr items)) ->
  (forall members, Forall (fun kx => P (snd kx)) members -> P (JObj members)) ->
  forall v, P v.
Proof.
  intros Hn Hb Hs Ha Ho.
  fix IH 1. intros [| b | s | items | members].
  - exact Hn.
  - apply Hb.
  - apply Hs.
  - apply Ha. induction items as [|x items IHl]; constructor; [apply IH | exact IHl].
  - apply Ho. induction members as [|[k x] members IHl]; constructor; [apply IH | exact IHl].
Qed.

Lemma hex_value_digit (d : N) : d < 16 -> hex_value (hex_digit d) = Some d.
Proof.
  intros H. unfold hex_value, hex_digit.
  destruct (d <? 10) eqn:E; [apply N.ltb_lt in E | apply N.ltb_ge in E]; cmps; f_equal; lia.
Qed.

Lemma hex4_value_hex4 (n : N) :
  n < 65536 ->
  hex4_value (hex_digit (n / 4096 mod 16)) (hex_digit (n / 256 mod 16))
             (hex_digit (n / 16 mod 16)) (hex_digit (n mod 16)) = Some n.
Proof.
  intros H. unfold hex4_value.
  rewrite !hex_value_digit by dlia. f_equal. dlia.
Qed.

Lemma scan_string_u (h1 h2 h3 h4 : N) (r2 : pystr) :
  scan_string (92 :: 117 :: h1 :: h2 :: h3 :: h4 :: r2)
  = match hex4_value h1 h2 h3 h4 with
    | None => None
    | Some uni =>
        if is_high uni then
          match r2 with
          | b :: u :: g1 :: g2 :: g3 :: g4 :: r3 =>
              if (b =? 92) && (u =? 117) then
                match hex4_value g1 g2 g3 g4 with
                | None => None
                | Some uni2 =>
                    if is_low uni2
                    then push (0x10000 + ((uni - 0xD800) * 1024 + (uni2 - 0xDC00)))
                              (scan_string r3)
                    else push uni (scan_string r2)
                end
              else push uni (scan_string r2)
          | _ => push uni (scan_string r2)
          end
        else push uni (scan_string r2)
    end.
Proof. reflexivity. Qed.

Lemma scan_string_plain (c : N) (r : pystr) :
  c <> 34 -> 32 <= c -> c <> 92 ->
  scan_string (c :: r) = push c (scan_string r).
Proof.
  intros H1 H2 H3. change (scan_string (c :: r)) with
    (if c =? 34 then Some ([], r)
     else if c <? 32 then None
     else if c =? 92 then
       match r with
       | [] => None
       | e :: r1 =>
           if e =? 117 then scan_string (92 :: 117 :: r1)
           else match unescape e with
                | Some ch => push ch (scan_string r1)
                | None => None
                end
       end
     else push c (scan_string r)).
  now cmps.
Qed.

Lemma scan_string_short (e ch : N) (r : pystr) :
  e <> 117 -> unescape e = Some ch ->
  scan_string (92 :: e :: r) = push ch (scan_string r).
Proof.
  intros H1 H2.
  change (scan_string (92 :: e :: r)) with
    (if e =? 117 then scan_string (92 :: 117 :: r)
     else match unescape e with
          | Some ch => push ch (scan_string r)
          | None => None
          end).
  cmps. now rewrite H2.
Qed.

Lemma scan_escape_u (uni : N) (tail : pystr) :
  uni < 65536 -> is_high uni = false ->
  scan_string (escape_u uni ++ tail) = push uni (scan_string tail).
Proof.
  intros H Hh. unfold escape_u, hex4. cbn [app].
  rewrite scan_string_u, hex4_value_hex4 by assumption. now rewrite Hh.
Qed.

Lemma scan_escape_pair (hi lo : N) (tail : pystr) :
  is_high hi = true -> is_low lo = true ->
  scan_string (escape_u hi ++ escape_u lo ++ tail)
  = push (0x10000 + ((hi - 0xD800) * 1024 + (lo - 0xDC00))) (scan_string tail).
Proof.
  intros Hh Hl.
  assert (hi < 65536 /\ lo < 65536) as [? ?].
  { unfold is_high, is_low in *. apply andb_true_iff in Hh as [_ Hh], Hl as [_ Hl].
    apply N.leb_le in Hh, Hl. lia. }
  unfold escape_u, hex4. cbn [app].
  rewrite scan_string_u, hex4_value_hex4 by assumption. rewrite Hh.
  cbn [N.eqb Pos.eqb andb].
  rewrite hex4_value_hex4 by assumption. now rewrite Hl.
Qed.
Lemma scan_escape_char (c : N) (tail : pystr) :
  is_scalar c = true ->
  scan_string (escape_char c ++ tail) = push c (scan_string tail).
Proof.
  intros Hc. unfold is_scalar, is_surrogate in Hc.
  apply andb_true_iff in Hc as [Hlt Hs]. apply N.ltb_lt in Hlt.
  apply negb_true_iff, andb_false_iff in Hs.
  assert (c < 0xD800 \/ 0xDFFF < c) as Hns.
  { destruct Hs as [Hs|Hs]; [apply N.leb_gt in Hs | apply N.leb_gt in Hs]; lia. }
  clear Hs. unfold escape_char.
  destruct (c =? 34) eqn:E1; [apply N.eqb_eq in E1; subst; reflexivity|].
  destruct (c =? 92) eqn:E2; [apply N.eqb_eq in E2; subst; reflexivity|].
  destruct (c =? 10) eqn:E3; [apply N.eqb_eq in E3; subst; reflexivity|].
  destruct (c =? 13) eqn:E4; [apply N.eqb_eq in E4; subst; reflexivity|].
  destruct (c =? 9) eqn:E5; [apply N.eqb_eq in E5; subst; reflexivity|].
  destruct (c =? 12) eqn:E6; [apply N.eqb_eq in E6; subst; reflexivity|].
  destruct (c =? 8) eqn:E7; [apply N.eqb_eq in E7; subst; reflexivity|].
  apply N.eqb_neq in E1, E2.
  destruct ((32 <=? c) && (c <=? 126)) eqn:E8.
  { apply andb_true_iff in E8 as [Ha Hb]. apply N.leb_le in Ha, Hb.
    cbn [app]. apply scan_string_plain; lia. }
  destruct (c <? 0x10000) eqn:E9.
  { apply N.ltb_lt in E9. apply scan_escape_u; [assumption|].
    unfold is_high. apply andb_false_iff.
    destruct Hns; [left; apply N.leb_gt | right; apply N.leb_gt]; lia. }
  apply N.ltb_ge in E9. cbv zeta. rewrite <- app_assoc.
  rewrite scan_escape_pair.
  - f_equal. dlia.
  - unfold is_high. apply andb_true_iff; split; apply N.leb_le; dlia.
  - unfold is_low. apply andb_true_iff; split; apply N.leb_le; dlia.
Qed.

Lemma text_ok_json_text (s : pystr) : text_ok s -> json_text s.
Proof.
  intros H. split.
  - eapply Forall_impl; [exact H|]. intros c Hc. unfold is_scalar in Hc.
    apply andb_true_iff in Hc as [Hc _]. now apply N.ltb_lt in Hc.
  - induction H as [|c s Hc _ IH]; [reflexivity|]. cbn [unpaired]. rewrite IH.
    replace (is_high c) with false; [reflexivity|]. symmetry.
    unfold is_scalar, is_surrogate in Hc. apply andb_true_iff in Hc as [_ Hc].
    apply negb_true_iff, andb_false_iff in Hc. unfold is_high. apply andb_false_iff.
    destruct Hc as [Hc|Hc]; apply N.leb_gt in Hc; [left | right]; apply N.leb_gt; lia.
Qed.

(** A high surrogate that no low one follows is read as it is. *)
Lemma scan_escape_high (uni : N) (tail : pystr) :
  is_high uni = true -> low_ahead tail = false ->
  scan_string (escape_u uni ++ tail) = push uni (scan_string tail).
Proof.
  intros Hh Hl.
  assert (uni < 65536).
  { unfold is_high in Hh. apply andb_true_iff in Hh as [_ Hh]. apply N.leb_le in Hh. lia. }
  unfold escape_u, hex4. cbn [app].
  rewrite scan_string_u, hex4_value_hex4 by assumption. rewrite Hh.
  destruct tail as [|b [|u [|g1 [|g2 [|g3 [|g4 r3]]]]]]; try reflexivity.
  unfold low_ahead in Hl.
  destruct (b =? 92); [|reflexivity]. destruct (u =? 117); [|reflexivity]. cbn [andb].
  destruct (hex4_value g1 g2 g3 g4) as [uni2|]; [|discriminate]. now rewrite Hl.
Qed.

(** What [dumps] writes of a string that does not start with a low
    surrogate is no escape of a low surrogate. *)
Lemma low_ahead_escape (s rest : pystr) :
  match s with c :: _ => is_low c = false | [] => True end ->
  low_ahead (flat_map escape_char s ++ 34 :: rest) = false.
Proof.
  destruct s as [|c s]; [reflexivity|]. intros Hc. cbn [flat_map]. rewrite <- app_assoc.
  set (tail := flat_map escape_char s ++ 34 :: rest). unfold escape_char.
  destruct (c =? 34) eqn:E1; [reflexivity|].
  destruct (c =? 92) eqn:E2; [reflexivity|].
  destruct (c =? 10) eqn:E3; [reflexivity|].
  destruct (c =? 13) eqn:E4; [reflexivity|].
  destruct (c =? 9) eqn:E5; [reflexivity|].
  destruct (c =? 12) eqn:E6; [reflexivity|].
  destruct (c =? 8) eqn:E7; [reflexivity|].
  destruct ((32 <=? c) && (c <=? 126)) eqn:E8.
  { cbn [app low_ahead]. now rewrite E2. }
  destruct (c <? 0x10000) eqn:E9.
  { apply N.ltb_lt in E9. unfold escape_u, hex4. cbn [app low_ahead N.eqb Pos.eqb].
    now rewrite hex4_value_hex4 by assumption. }
  cbv zeta. rewrite <- app_assoc. unfold escape_u at 1, hex4. cbn [app low_ahead N.eqb Pos.eqb].
  rewrite hex4_value_hex4 by dlia.
  unfold is_low. apply andb_false_iff. left. apply N.leb_gt. dlia.
Qed.

Lemma scan_escape_code_point (c : N) (tail : pystr) :
  c < 0x110000 -> (is_high c = true -> low_ahead tail = false) ->
  scan_string (escape_char c ++ tail) = push c (scan_string tail).
Proof.
  intros Hc Hl. destruct (is_scalar c) eqn:Hs; [now apply scan_escape_char|].
  assert (0xD800 <= c <= 0xDFFF) as Hsur.
  { unfold is_scalar, is_surrogate in Hs. apply andb_false_iff in Hs as [Hs|Hs].
    - apply N.ltb_ge in Hs. lia.
    - apply negb_false_iff, andb_true_iff in Hs as [H1 H2].
      apply N.leb_le in H1, H2. lia. }
  replace (escape_char c) with (escape_u c) by (unfold escape_char; now cmps).
  destruct (is_high c) eqn:Hh.
  - apply scan_escape_high; [exact Hh | now apply Hl].
  - apply scan_escape_u; [lia | exact Hh].
Qed.

(** A written string is read back. *)
Lemma scan_string_escape (s rest : pystr) :
  json_text s ->
  scan_string (flat_map escape_char s ++ 34 :: rest) = Some (s, rest).
Proof.
  intros [Hall Hun]. induction Hall as [|c s Hc _ IH]; [reflexivity|].
  cbn [unpaired] in Hun. apply andb_true_iff in Hun as [Hpair Hun].
  cbn [flat_map]. rewrite <- app_assoc, scan_escape_code_point, IH; [reflexivity | exact Hun | exact Hc |].
  intros Hh. apply low_ahead_escape. rewrite Hh in Hpair. cbn [andb] in Hpair.
  destruct s as [|c' s']; [exact I|]. now apply negb_true_iff in Hpair.
Qed.


Lemma dumps_arr (x : value) (xs : list value) :
  dumps (JArr (x :: xs)) = 91 :: dumps x ++ dumps_items xs.
Proof. reflexivity. Qed.

Lemma dumps_obj (k : pystr) (x : value) (ms : list (pystr * value)) :
  dumps (JObj ((k, x) :: ms)) = 123 :: dump_string k ++ 58 :: 32 :: dumps x ++ dumps_members ms.
Proof. reflexivity. Qed.

Lemma dumps_head (v : value) :
  exists c t, dumps v = c :: t /\ opens_value c = true.
Proof.
  destruct v as [| [|] | s | [|x xs] | [|[k x] ms]];
    do 2 eexists; split; reflexivity.
Qed.

Lemma opens_not_ws (c : N) : opens_value c = true -> is_ws c = false.
Proof.
  unfold opens_value, is_ws. intros H.
  repeat (apply orb_true_iff in H as [H|H]); apply N.eqb_eq in H; subst; reflexivity.
Qed.

Lemma skip_ws_space (r : pystr) : skip_ws (32 :: r) = skip_ws r.
Proof. reflexivity. Qed.

Lemma skip_ws_keep (c : N) (r : pystr) : is_ws c = false -> skip_ws (c :: r) = c :: r.
Proof. intros H. cbn [skip_ws]. now rewrite H. Qed.

Lemma skip_ws_dumps (v : value) (r : pystr) : skip_ws (dumps v ++ r) = dumps v ++ r.
Proof.
  destruct (dumps_head v) as (c & t & -> & Hc). cbn [app skip_ws].
  now rewrite (opens_not_ws c Hc).
Qed.

Lemma parse_value_eq (d : nat) (s : pystr) :
  parse_value d s =
  match s with
  | [] => Malformed
  | c :: r =>
      if c =? 34 then
        parse_bind (parse_string r) (fun '(x, r') => Parsed (JStr x, r'))
      else if c =? 123 then
        match d with
        | O => TooDeep
        | S d' =>
            match skip_ws r with
            | c' :: r' =>
                if c' =? 125 then Parsed (JObj [], r')
                else
                  parse_bind (parse_members (parse_value d') (length r) (skip_ws r))
                    (fun '(ms, r'') => Parsed (JObj (dict_of_pairs ms), r''))
            | [] => Malformed
            end
        end
      else if c =? 91 then
        match d with
        | O => TooDeep
        | S d' =>
            match skip_ws r with
            | c' :: r' =>
                if c' =? 93 then Parsed (JArr [], r')
                else
                  parse_bind (parse_items (parse_value d') (length r) (skip_ws r))
                    (fun '(vs, r'') => Parsed (JArr vs, r''))
            | [] => Malformed
            end
        end
      else
        match starts_with (str "null") s with
        | Some r' => Parsed (JNull, r')
        | None =>
        match starts_with (str "true") s with
        | Some r' => Parsed (JBool true, r')
        | None =>
        match starts_with (str "false") s with
        | Some r' => Parsed (JBool false, r')
        | None => if number_ahead s then Unsupported else Malformed
        end end end
  end.
Proof. destruct d; reflexivity. Qed.

Lemma parse_string_dump (k rest : pystr) :
  json_text k -> parse_string (flat_map escape_char k ++ 34 :: rest) = Parsed (k, rest).
Proof. intros H. unfold parse_string. now rewrite scan_string_escape. Qed.

Section Loops.
Variable pe : pystr -> parse (value * pystr).

Lemma parse_items_dumps (xs : list value) :
  forall (x : value) (rest : pystr) (n : nat),
  reads_back pe x -> Forall (reads_back pe) xs -> (length xs < n)%nat ->
  parse_items pe n (dumps x ++ dumps_items xs ++ rest) = Parsed (x :: xs, rest).
Proof.
  induction xs as [|y l IH]; intros x rest n Hx Hxs Hn;
    (destruct n as [|n]; [lia|]); cbn [parse_items]; rewrite Hx; cbn [parse_bind].
  - reflexivity.
  - cbn [dumps_items app]. rewrite skip_ws_keep by reflexivity.
    change (44 =? 93) with false. change (44 =? 44) with true. cbv iota.
    rewrite skip_ws_space, <- app_assoc, skip_ws_dumps. inversion Hxs; subst.
    rewrite IH; [reflexivity|assumption|assumption|cbn in Hn; lia].
Qed.
End Loops.

Lemma dump_string_app (k r : pystr) :
  dump_string k ++ r = 34 :: flat_map escape_char k ++ 34 :: r.
Proof. unfold dump_string. cbn [app]. now rewrite <- app_assoc. Qed.

Lemma dumps_items_cons (y : value) (l : list value) (rest : pystr) :
  dumps_items (y :: l) ++ rest = 44 :: 32 :: dumps y ++ dumps_items l ++ rest.
Proof. cbn [dumps_items app]. now rewrite <- app_assoc. Qed.

Lemma dumps_members_cons (k : pystr) (y : value) (l : list (pystr * value)) (rest : pystr) :
  dumps_members ((k, y) :: l) ++ rest
  = 44 :: 32 :: 34 :: flat_map escape_char k ++ 34 :: 58 :: 32 :: dumps y ++ dumps_members l ++ rest.
Proof.
  cbn [dumps_members app]. rewrite <- app_assoc, dump_string_app. cbn [app].
  now rewrite <- app_assoc.
Qed.

Section Members.
Variable pe : pystr -> parse (value * pystr).

Lemma parse_members_dumps (ms : list (pystr * value)) :
  forall (k : pystr) (x : value) (rest : pystr) (n : nat),
  json_text k -> reads_back pe x ->
  Forall (fun kx => json_text (fst kx) /\ reads_back pe (snd kx)) ms ->
  (length ms < n)%nat ->
  parse_members pe n
    (34 :: flat_map escape_char k ++ 34 :: 58 :: 32 :: dumps x ++ dumps_members ms ++ rest)
  = Parsed ((k, x) :: ms, rest).
Proof.
  induction ms as [|[k' y] l IH]; intros k x rest n Hk Hx Hms Hn;
    (destruct n as [|n]; [lia|]); cbn [parse_members];
    change (34 =? 34) with true; cbv iota;
    rewrite parse_string_dump by assumption;
    cbn [parse_bind]; rewrite skip_ws_keep by reflexivity;
    change (58 =? 58) with true; cbv iota;
    rewrite skip_ws_space, skip_ws_dumps, Hx; cbn [parse_bind].
  - reflexivity.
  - rewrite dumps_members_cons, skip_ws_keep by reflexivity.
    change (44 =? 125) with false. change (44 =? 44) with true. cbv iota.
    rewrite skip_ws_space, skip_ws_keep by reflexivity.
    inversion Hms as [|? ? [Hk' Hy] Hl]; subst. cbn [fst snd] in *.
    rewrite IH; [reflexivity|assumption|assumption|assumption|cbn in Hn; lia].
Qed.
End Members.

Lemma dict_set_fresh {V : Type} (d : dict V) (k : pystr) (v : V) :
  k ∉ map fst d -> dict_set d k v = d ++ [(k, v)].
Proof.
  induction d as [|[k' v'] d IH]; intros Hk; [reflexivity|].
  cbn [dict_set]. cbn [map fst] in Hk. apply not_elem_of_cons in Hk as [Hne Hk].
  destruct (str_eqb k' k) eqn:E.
  - apply str_eqb_eq in E. congruence.
  - cbn [app]. now rewrite IH.
Qed.

Lemma dict_of_pairs_nodup {V : Type} (ms : list (pystr * V)) :
  NoDup (map fst ms) -> dict_of_pairs ms = ms.
Proof.
  unfold dict_of_pairs.
  enough (forall acc, NoDup (map fst (acc ++ ms)) ->
    fold_left (fun d kv => dict_set d (fst kv) (snd kv)) ms acc = acc ++ ms) as G
    by (intros H; apply (G [] H)).
  induction ms as [|[k v] ms IH]; intros acc Hnd; cbn [fold_left].
  - now rewrite app_nil_r.
  - cbn [fst snd]. rewrite dict_set_fresh.
    + rewrite IH; rewrite <- app_assoc; [reflexivity | exact Hnd].
    + rewrite map_app in Hnd. cbn [map fst] in Hnd.
      apply NoDup_app in Hnd as (_ & Hnd & _). intros H. apply (Hnd k H). now left.
Qed.

Lemma length_dumps_items (l : list value) : (length l < length (dumps_items l))%nat.
Proof.
  induction l as [|y l IH]; cbn [dumps_items length]; [lia|].
  rewrite length_app. lia.
Qed.

Lemma length_dumps_members (l : list (pystr * value)) :
  (length l < length (dumps_members l))%nat.
Proof.
  induction l as [|[k y] l IH]; cbn [dumps_members length]; [lia|].
  rewrite !length_app. cbn [length]. rewrite length_app. lia.
Qed.

Lemma items_read_back (d : nat) (xs : list value) :
  Forall reads_back_at xs ->
  fold_right (fun x P => wf x /\ P) True xs ->
  (fold_right (fun x m => Nat.max (depth x) m) O xs <= d)%nat ->
  Forall (reads_back (parse_value d)) xs.
Proof.
  induction 1 as [|y l Hy _ IHl]; cbn [fold_right]; intros Hwf Hd; constructor.
  - intros r. apply Hy; [tauto | lia].
  - apply IHl; [tauto | lia].
Qed.

Lemma members_read_back (d : nat) (ms : list (pystr * value)) :
  Forall (fun kx => reads_back_at (snd kx)) ms ->
  fold_right (fun kx P => json_text (fst kx) /\ wf (snd kx) /\ P) True ms ->
  (fold_right (fun kx m => Nat.max (depth (snd kx)) m) O ms <= d)%nat ->
  Forall (fun kx => json_text (fst kx) /\ reads_back (parse_value d) (snd kx)) ms.
Proof.
  induction 1 as [|y l Hy _ IHl]; cbn [fold_right]; intros Hwf Hd; constructor.
  - split; [tauto|]. intros r. apply Hy; [tauto | lia].
  - apply IHl; [tauto | lia].
Qed.

(** [parse_value] reads back what [dumps] wrote, whatever follows. *)
Lemma parse_value_dumps (v : value) : reads_back_at v.
Proof.
  induction v as [| b | s | items IH | members IH] using value_ind';
    intros Hwf d rest Hd; rewrite parse_value_eq.
  - reflexivity.
  - destruct b; reflexivity.
  - cbn [dumps]. rewrite dump_string_app. change (34 =? 34) with true. cbv iota.
    rewrite parse_string_dump by exact Hwf. reflexivity.
  - destruct d as [|d]; [cbn in Hd; lia|].
    destruct items as [|x xs]; [reflexivity|].
    rewrite dumps_arr. cbn [app]. change (91 =? 34) with false.
    change (91 =? 123) with false. change (91 =? 91) with true. cbv iota.
    rewrite <- app_assoc, skip_ws_dumps.
    destruct (dumps_head x) as (c & t & Hx & Hc).
    rewrite Hx at 1. cbn [app].
    replace (c =? 93) with false.
    2:{ symmetry. apply N.eqb_neq. intros ->. discriminate Hc. }
    cbn [depth] in Hd. apply le_S_n in Hd.
    pose proof (items_read_back d (x :: xs) IH Hwf Hd) as Hall.
    inversion Hall; subst.
    rewrite parse_items_dumps; [reflexivity|assumption|assumption|].
    rewrite !length_app. pose proof (length_dumps_items xs). lia.
  - destruct d as [|d]; [cbn in Hd; lia|].
    destruct members as [|[k x] ms]; [reflexivity|].
    rewrite dumps_obj. cbn [app]. change (123 =? 34) with false.
    change (123 =? 123) with true. cbv iota.
    rewrite <- !app_assoc. rewrite dump_string_app. cbn [app].
    rewrite skip_ws_keep by reflexivity.
    change (34 =? 125) with false. cbv iota.
    cbn [depth] in Hd. apply le_S_n in Hd.
    destruct Hwf as [Hnd Hwf].
    pose proof (members_read_back d ((k, x) :: ms) IH Hwf Hd) as Hall.
    inversion Hall as [|? ? [Hk Hx] Hms]; subst. cbn [fst snd] in *.
    rewrite <- !app_assoc.
    rewrite parse_members_dumps; [cbn [parse_bind]| assumption | assumption | assumption |].
    + rewrite dict_of_pairs_nodup; [reflexivity | exact Hnd].
    + cbn [length]. rewrite !length_app. cbn [length]. rewrite !length_app.
      pose proof (length_dumps_members ms). lia.
Qed.

Lemma loads_dumps (v : value) :
  wf v -> (depth v <= recursion_limit)%nat -> loads (dumps v) = Parsed v.
Proof.
  intros Hwf Hd. unfold loads.
  destruct (dumps_head v) as (c & t & Hx & Hc).
  replace (starts_with [0xFEFF] (dumps v)) with (@None pystr).
  2:{ rewrite Hx. cbn [starts_with]. replace (0xFEFF =? c) with false; [reflexivity|].
      symmetry. apply N.eqb_neq. intros <-. discriminate Hc. }
  rewrite <- (app_nil_r (dumps v)), skip_ws_dumps.
  rewrite parse_value_dumps by assumption. reflexivity.
Qed.

End JsonFacts.

(** ** Dictionaries *)

Lemma dict_get_set_eq {V : Type} (d : dict V) (k : pystr) (v : V) :
  dict_get (dict_set d k v) k = Some v.
Proof.
  induction d as [|[k' v'] d IH]; cbn [dict_set dict_get].
  - now rewrite str_eqb_refl.
  - destruct (str_eqb k' k) eqn:E; cbn [dict_get]; [now rewrite str_eqb_refl | now rewrite E].
Qed.

Lemma dict_get_set_ne {V : Type} (d : dict V) (k k0 : pystr) (v : V) :
  k <> k0 -> dict_get (dict_set d k v) k0 = dict_get d k0.
Proof.
  intros Hne. induction d as [|[k' v'] d IH]; cbn [dict_set dict_get].
  - now apply str_eqb_neq in Hne as ->.
  - destruct (str_eqb k' k) eqn:E; cbn [dict_get].
    + apply str_eqb_eq in E. subst k'. now apply str_eqb_neq in Hne as ->.
    + now rewrite IH.
Qed.

Lemma dict_set_set {V : Type} (d : dict V) (k : pystr) (v v' : V) :
  dict_set (dict_set d k v) k v' = dict_set d k v'.
Proof.
  induction d as [|[k' v0] d IH]; cbn [dict_set].
  - now rewrite str_eqb_refl.
  - destruct (str_eqb k' k) eqn:E; cbn [dict_set]; [now rewrite str_eqb_refl | now rewrite E, IH].
Qed.

Lemma dict_set_same {V : Type} (d : dict V) (k : pystr) (v : V) :
  dict_get d k = Some v -> dict_set d k v = d.
Proof.
  induction d as [|[k' v'] d IH]; cbn [dict_set dict_get]; [discriminate|].
  destruct (str_eqb k' k) eqn:E.
  - apply str_eqb_eq in E. now intros [= ->]; subst.
  - intros H. now rewrite IH.
Qed.

Lemma dict_keys_set {V : Type} (d : dict V) (k : pystr) (v v' : V) :
  dict_get d k = Some v -> dict_keys (dict_set d k v') = dict_keys d.
Proof.
  unfold dict_keys.
  induction d as [|[k' v0] d IH]; cbn [dict_set dict_get map fst]; [discriminate|].
  destruct (str_eqb k' k) eqn:E; cbn [map fst].
  - apply str_eqb_eq in E. now subst.
  - intros H. now rewrite IH.
Qed.

Lemma dict_get_keys {V : Type} (d : dict V) (k : pystr) (v : V) :
  dict_get d k = Some v -> In k (dict_keys d).
Proof.
  unfold dict_keys.
  induction d as [|[k' v'] d IH]; cbn [dict_get map fst]; [discriminate|].
  destruct (str_eqb k' k) eqn:E.
  - apply str_eqb_eq in E. now left.
  - intros H. right. now apply IH.
Qed.

Lemma dict_keys_get {V : Type} (d : dict V) (k : pystr) :
  In k (dict_keys d) -> exists v, dict_get d k = Some v.
Proof.
  unfold dict_keys.
  induction d as [|[k' v'] d IH]; cbn [dict_get map fst]; [contradiction|].
  destruct (str_eqb k' k) eqn:E; [eauto|].
  intros [->|H]; [now rewrite str_eqb_refl in E | now apply IH].
Qed.

(** ** The data list under item assignment *)

Lemma patch_spec (news l : list datum) (index : nat) :
  (index + length news <= length l)%nat ->
  patch index news l = take index l ++ news ++ drop (index + length news) l.
Proof.
  revert l index. induction news as [|x news IH]; intros l index H; cbn [patch length] in *.
  - rewrite Nat.add_0_r. cbn [app]. now rewrite take_drop.
  - rewrite IH by (rewrite length_insert; lia).
    rewrite (take_S_r _ _ x) by (apply list_lookup_insert_eq; lia).
    rewrite take_insert_ge by lia.
    rewrite drop_insert_lt by lia.
    replace (S index + length news)%nat with (index + S (length news))%nat by lia.
    now rewrite <- app_assoc.
Qed.

Lemma patch_all (news l : list datum) :
  length news = length l -> patch 0 news l = news.
Proof.
  intros H. rewrite patch_spec by lia. cbn [take app Nat.add].
  rewrite H, drop_all. apply app_nil_r.
Qed.

(** ** Running computations *)

(** Bring a world built by the setters to its constructor form. *)
Ltac wsimpl :=
  unfold log, set_heap, set_userdict, set_files, set_dirs, set_drawn;
  cbn [userdict private_website_code heap files dirs entropy drawn trace fst snd].


Lemma bind_assoc {A B C : Type} (m : M A) (f : A -> M B) (g : B -> M C) (w : world) :
  bind (bind m f) g w = bind m (fun x => bind (f x) g) w.
Proof. unfold bind. destruct (m w) as [[a | e |] w']; reflexivity. Qed.

Lemma bind_return {A B : Type} (m : M A) (k : A -> M B) (w w' : world) (a : A) :
  m w = (Return a, w') -> bind m k w = k a w'.
Proof. unfold bind. now intros ->. Qed.

Lemma bind_raise {A B : Type} (m : M A) (k : A -> M B) (w w' : world) (e : exn) :
  m w = (Raise e, w') -> bind m k w = (Raise e, w').
Proof. unfold bind. now intros ->. Qed.

(** ** [Binder] *)

Module BinderFacts.
Import Json JsonFacts Binder.


(** *** What [dumps] writes is ASCII *)

Lemma hex_digit_ascii (d : N) : d < 16 -> hex_digit d < 0x80.
Proof. unfold hex_digit. destruct (d <? 10); lia. Qed.

Lemma escape_u_ascii (n : N) : Forall (fun c => c < 0x80) (escape_u n).
Proof.
  unfold escape_u, hex4.
  repeat constructor; try lia; apply hex_digit_ascii; dlia.
Qed.

Lemma escape_char_ascii (c : N) : Forall (fun c => c < 0x80) (escape_char c).
Proof.
  unfold escape_char.
  repeat match goal with
         | |- context [if ?b then _ else _] => destruct b eqn:?
         end;
    try (repeat constructor; lia).
  - match goal with
    | Hb : (_ && (c <=? _))%bool = true |- _ =>
        apply andb_true_iff in Hb as [_ H]; apply N.leb_le in H
    end.
    repeat constructor. lia.
  - apply escape_u_ascii.
  - apply Forall_app; split; apply escape_u_ascii.
Qed.

Lemma dump_string_ascii (s : pystr) : Forall (fun c => c < 0x80) (dump_string s).
Proof.
  unfold dump_string. constructor; [lia|]. apply Forall_app; split; [|repeat constructor; lia].
  induction s as [|c s IH]; cbn [flat_map]; [constructor|].
  apply Forall_app; split; [apply escape_char_ascii | exact IH].
Qed.

Lemma dumps_ascii (v : value) : Forall (fun c => c < 0x80) (dumps v).
Proof.
  induction v as [| b | s | items IH | members IH] using value_ind'.
  - repeat constructor; lia.
  - destruct b; repeat constructor; lia.
  - apply dump_string_ascii.
  - destruct items as [|x xs]; [repeat constructor; lia|].
    rewrite dumps_arr. inversion IH as [|? ? Hx Hxs]; subst.
    constructor; [lia|]. apply Forall_app; split; [exact Hx|].
    clear Hx IH. induction Hxs as [|y l Hy _ IHl]; cbn [dumps_items].
    + repeat constructor; lia.
    + constructor; [lia|]. constructor; [lia|]. apply Forall_app; split; assumption.
  - destruct members as [|[k x] ms]; [repeat constructor; lia|].
    rewrite dumps_obj. inversion IH as [|? ? Hx Hms]; subst. cbn [snd] in Hx.
    constructor; [lia|]. apply Forall_app; split; [apply dump_string_ascii|].
    constructor; [lia|]. constructor; [lia|]. apply Forall_app; split; [exact Hx|].
    clear Hx IH. induction Hms as [|[k' y] l Hy _ IHl]; cbn [dumps_members].
    + repeat constructor; lia.
    + constructor; [lia|]. constructor; [lia|].
      apply Forall_app; split; [apply dump_string_ascii|].
      constructor; [lia|]. constructor; [lia|]. apply Forall_app; split; assumption.
Qed.

(** *** The store as a document *)

Lemma traverse_datum_of_json (l : list datum) :
  traverse datum_of_json (map json_of_datum l) = Some (map listify l).
Proof.
  induction l as [|d l IH]; [reflexivity|].
  cbn [map traverse]. rewrite IH. reflexivity.
Qed.

Lemma info_of_json_of_info (i : website_info) :
  info_of_json (json_of_info i) = Some (listify_info i).
Proof.
  unfold info_of_json, json_of_info. rewrite !str_eqb_refl. cbn [andb].
  now rewrite traverse_datum_of_json.
Qed.

Lemma userdict_of_json_of_userdict (d : dict website_info) :
  userdict_of_json (json_of_userdict d) = Some (listify_store d).
Proof.
  unfold userdict_of_json, json_of_userdict, listify_store.
  induction d as [|[k i] d IH]; [reflexivity|].
  cbn [map traverse fst snd]. rewrite info_of_json_of_info, IH. reflexivity.
Qed.

Lemma json_text_info_keys : json_text (str "__name__") /\ json_text (str "__encrypted__")
                         /\ json_text (str "__data__").
Proof. repeat split; try reflexivity; repeat constructor. Qed.

Lemma nodup_info_keys : NoDup [str "__name__"; str "__encrypted__"; str "__data__"].
Proof. apply (bool_decide_unpack _). vm_compute. exact I. Qed.

Lemma wf_json_of_info (i : website_info) : info_ok i -> wf (json_of_info i).
Proof.
  intros [Hn Hd]. unfold json_of_info. cbn [wf map fst snd fold_right].
  destruct json_text_info_keys as (H1 & H2 & H3).
  refine (conj nodup_info_keys (conj H1 (conj Hn (conj H2 (conj I (conj H3 (conj _ I))))))).
  induction Hd as [|d l [Ht Hv] _ IH]; cbn [map fold_right]; [exact I|].
  split; [|exact IH]. cbn [json_of_datum wf fold_right]. tauto.
Qed.

Lemma depth_json_of_info (i : website_info) : (depth (json_of_info i) <= 3)%nat.
Proof.
  unfold json_of_info. cbn [depth fold_right snd].
  induction (data i) as [|d l IH]; cbn [map fold_right depth json_of_datum] in *; lia.
Qed.

Lemma wf_json_of_userdict (d : dict website_info) :
  wf_store d -> wf (json_of_userdict d).
Proof.
  intros [Hnd Hall]. unfold json_of_userdict. cbn [wf]. split.
  - rewrite map_map. cbn [fst]. exact Hnd.
  - clear Hnd. induction Hall as [|[k i] l [Hk Hi] _ IH]; cbn [map fold_right fst snd]; [exact I|].
    exact (conj Hk (conj (wf_json_of_info _ Hi) IH)).
Qed.

Lemma depth_json_of_userdict (d : dict website_info) :
  (depth (json_of_userdict d) <= recursion_limit)%nat.
Proof.
  unfold json_of_userdict. cbn [depth].
  assert (fold_right (fun kx m => Nat.max (depth (snd kx)) m) O
            (map (fun ki => (fst ki, json_of_info (snd ki))) d) <= 3)%nat as H.
  { induction d as [|[k i] l IH]; cbn [map fold_right fst snd]; [lia|].
    pose proof (depth_json_of_info i). lia. }
  unfold recursion_limit. lia.
Qed.

Lemma loads_dumps_userdict (d : dict website_info) :
  wf_store d -> loads (dumps (json_of_userdict d)) = Parsed (json_of_userdict d).
Proof.
  intros H. apply loads_dumps; [now apply wf_json_of_userdict | apply depth_json_of_userdict].
Qed.

Section WithCollaborators.
Context {E : Engine} {B : Base64}.

Lemma listed (w : world) (c : pystr) (info : website_info) :
  site_at w c info ->
  str_in c (List.filter (fun x => negb (str_in x (private_website_code w)))
              (dict_keys (userdict w))) = true.
Proof.
  intros [Hget Hpriv]. apply str_in_In, filter_In. split.
  - eapply dict_get_keys, Hget.
  - now rewrite Hpriv.
Qed.

Lemma is_website_code_at (w : world) (c : pystr) (info : website_info) :
  site_at w c info -> is_website_code (PyStr c) w = (Return true, w).
Proof.
  intros H. unfold is_website_code, listing_website_codes, bind, gets, ret.
  now rewrite (listed w c info H).
Qed.

Lemma getitem_get (w : world) (c : pystr) (info : website_info) :
  dict_get (userdict w) c = Some info -> getitem (PyStr c) w = (Return info, w).
Proof. intros Hget. unfold getitem, bind, gets, of_option. now rewrite Hget. Qed.

Lemma getitem_at (w : world) (c : pystr) (info : website_info) :
  site_at w c info -> getitem (PyStr c) w = (Return info, w).
Proof. intros [Hget _]. now apply getitem_get. Qed.

Lemma is_encrypted_at (w : world) (c : pystr) (info : website_info) :
  site_at w c info ->
  is_encrypted_website_data (PyStr c) w = (Return (encrypted info), w).
Proof.
  intros H. unfold is_encrypted_website_data.
  rewrite (bind_return _ _ _ _ _ (is_website_code_at w c info H)). cbn [negb].
  now rewrite (bind_return _ _ _ _ _ (getitem_at w c info H)).
Qed.

(** An absent or reserved code, or one that is no string, is refused before
    anything else happens. *)
Lemma is_website_code_absent (w : world) (c : pystr) :
  dict_get (userdict w) c = None -> is_website_code (PyStr c) w = (Return false, w).
Proof.
  intros H. unfold is_website_code, listing_website_codes, bind, gets, ret.
  destruct (str_in c _) eqn:Hin; [|reflexivity].
  apply str_in_In, filter_In in Hin as [Hin _]. apply dict_keys_get in Hin as [v Hv]. congruence.
Qed.


(** One round of the loop of [get_website_data] that succeeds. *)
Lemma decrypt_datum_opened ud pv hp fl dr en dn tr c info k key index d cipher x :
  dict_get ud c = Some info -> hp !! k = Some key ->
  opened key d = Some (cipher, x) ->
  decrypt_datum (PyStr c) k index d (World ud pv hp fl dr en dn tr)
  = (Return tt,
     World (dict_set ud c (with_data info (<[index := x]> (data info)))) pv hp fl dr en dn
           (tr ++ [EvDecrypt cipher])).
Proof.
  intros Hget Hk Hop. unfold opened in Hop.
  destruct (b64decode (d_value d)) as [ct|] eqn:H1; [|discriminate].
  destruct (decrypt ct key encryption_iterations) as [pt|] eqn:H2; [|discriminate].
  destruct (Utf8.decode pt) as [text|] eqn:H3; [|discriminate].
  injection Hop as <- <-.
  unfold decrypt_datum, try_except, b64decode_str, bind, of_option, read_buffer,
    encryptedtext_to_data, setitem_data, getitem, setitem, modify, gets, ret, bind, of_option.
  rewrite H1. cbn. rewrite Hk. cbn. rewrite H2. cbn. rewrite H3. cbn. rewrite Hget. cbn.
  reflexivity.
Qed.

(** The round on which the engine rejects the key. *)
Lemma decrypt_datum_rejected ud pv hp fl dr en dn tr c k key index d cipher :
  hp !! k = Some key ->
  rejected key d cipher ->
  decrypt_datum (PyStr c) k index d (World ud pv hp fl dr en dn tr)
  = (Raise WrongKeyError,
     World ud pv (<[k := wiped key]> hp) fl dr en dn (tr ++ [EvDecrypt cipher; EvWipe k])).
Proof.
  intros Hk [H1 H2].
  unfold decrypt_datum, try_except, b64decode_str, bind, of_option, read_buffer,
    encryptedtext_to_data, delete_bytearray, modify, gets, ret, raise, bind, read_buffer.
  rewrite H1. cbn. rewrite Hk. cbn. rewrite H2. cbn. rewrite Hk. wsimpl.
  now rewrite <- app_assoc.
Qed.


Lemma delete_bytearray_at ud pv hp fl dr en dn tr k key :
  hp !! k = Some key ->
  delete_bytearray k (World ud pv hp fl dr en dn tr)
  = (Return tt, World ud pv (<[k := wiped key]> hp) fl dr en dn (tr ++ [EvWipe k])).
Proof.
  intros Hk. unfold delete_bytearray, bind, read_buffer, modify. wsimpl. now rewrite Hk.
Qed.

Lemma with_data_data (info : website_info) : with_data info (data info) = info.
Proof. now destruct info. Qed.

(** The loop of [get_website_data] when every round succeeds. *)
Lemma decrypt_loop_opened pv hp fl dr en dn c k key items cxs :
  hp !! k = Some key ->
  Forall2 (fun d cx => opened key d = Some cx) items cxs ->
  forall index ud info tr,
  dict_get ud c = Some info ->
  decrypt_loop (PyStr c) k index items (World ud pv hp fl dr en dn tr)
  = (Return tt,
     World (dict_set ud c (with_data info (patch index (map snd cxs) (data info))))
           pv hp fl dr en dn (tr ++ map EvDecrypt (map fst cxs))).
Proof.
  intros Hk. induction 1 as [|d [cipher x] items cxs Hd _ IH]; intros index ud info tr Hget.
  - cbn [decrypt_loop map patch]. unfold ret.
    now rewrite with_data_data, dict_set_same, app_nil_r.
  - cbn [decrypt_loop].
    rewrite (bind_return _ _ _ _ _
               (decrypt_datum_opened ud pv hp fl dr en dn tr c info k key index d cipher x
                  Hget Hk Hd)).
    rewrite (IH (S index) _ _ _ (dict_get_set_eq _ _ _)).
    rewrite dict_set_set. cbn [map fst snd patch]. unfold with_data at 1 2. cbn [name encrypted data].
    now rewrite <- app_assoc.
Qed.

(** The loop of [get_website_data] when the engine rejects the key on some
    round, the rounds before it having succeeded. *)
Lemma decrypt_loop_rejected pv hp fl dr en dn c k key pre cxs d cipher post :
  hp !! k = Some key ->
  Forall2 (fun d cx => opened key d = Some cx) pre cxs ->
  rejected key d cipher ->
  forall index ud info tr,
  dict_get ud c = Some info ->
  decrypt_loop (PyStr c) k index (pre ++ d :: post) (World ud pv hp fl dr en dn tr)
  = (Raise WrongKeyError,
     World (dict_set ud c (with_data info (patch index (map snd cxs) (data info))))
           pv (<[k := wiped key]> hp) fl dr en dn
           (tr ++ map EvDecrypt (map fst cxs) ++ [EvDecrypt cipher; EvWipe k])).
Proof.
  intros Hk Hpre Hrej.
  induction Hpre as [|d' [cipher' x] pre cxs Hd _ IH]; intros index ud info tr Hget.
  - cbn [app decrypt_loop map patch].
    rewrite (bind_raise _ _ _ _ _
               (decrypt_datum_rejected ud pv hp fl dr en dn tr c k key index d cipher Hk Hrej)).
    now rewrite with_data_data, dict_set_same.
  - cbn [app decrypt_loop].
    rewrite (bind_return _ _ _ _ _
               (decrypt_datum_opened ud pv hp fl dr en dn tr c info k key index d' cipher' x
                  Hget Hk Hd)).
    rewrite (IH (S index) _ _ _ (dict_get_set_eq _ _ _)).
    rewrite dict_set_set. cbn [map fst snd patch]. unfold with_data at 1 2. cbn [name encrypted data].
    now rewrite <- app_assoc.
Qed.

(** [get_website_data] on an encrypted site, every datum opening. *)
Lemma get_website_data_opened ud pv hp fl dr en dn tr c info k key cxs :
  site_at (World ud pv hp fl dr en dn tr) c info ->
  encrypted info = true ->
  hp !! k = Some key ->
  Forall2 (fun d cx => opened key d = Some cx) (data info) cxs ->
  get_website_data (PyStr c) (PyBytearray k) (World ud pv hp fl dr en dn tr)
  = (Return (map snd cxs),
     World (dict_set ud c (with_data info (map snd cxs))) pv (<[k := wiped key]> hp)
           fl dr en dn (tr ++ map EvDecrypt (map fst cxs) ++ [EvWipe k])).
Proof.
  intros Hsite Henc Hk Hall. pose proof Hsite as [Hget Hpv]. cbn in Hget, Hpv.
  unfold get_website_data.
  rewrite (bind_return _ _ _ _ _ (is_encrypted_at _ c info Hsite)). rewrite Henc. cbn [negb].
  rewrite (bind_return _ _ _ _ _ (getitem_at _ c info Hsite)).
  rewrite (bind_return _ _ _ _ _
             (decrypt_loop_opened pv hp fl dr en dn c k key _ cxs Hk Hall 0 ud info tr Hget)).
  rewrite patch_all by (rewrite length_map; symmetry; eapply Forall2_length, Hall).
  rewrite (bind_return _ _ _ _ _ (delete_bytearray_at _ _ _ _ _ _ _ _ k key Hk)).
  erewrite bind_return by (apply getitem_get; apply dict_get_set_eq).
  unfold ret. cbn [data with_data]. now rewrite <- app_assoc.
Qed.

(** [get_website_data] on an encrypted site, the key rejected on the datum
    after [pre]. *)
Lemma get_website_data_rejected ud pv hp fl dr en dn tr c info k key pre cxs d cipher post :
  site_at (World ud pv hp fl dr en dn tr) c info ->
  encrypted info = true ->
  hp !! k = Some key ->
  data info = pre ++ d :: post ->
  Forall2 (fun d cx => opened key d = Some cx) pre cxs ->
  rejected key d cipher ->
  get_website_data (PyStr c) (PyBytearray k) (World ud pv hp fl dr en dn tr)
  = (Raise WrongKeyError,
     World (dict_set ud c (with_data info (map snd cxs ++ d :: post)))
           pv (<[k := wiped key]> hp) fl dr en dn
           (tr ++ map EvDecrypt (map fst cxs) ++ [EvDecrypt cipher; EvWipe k])).
Proof.
  intros Hsite Henc Hk Hdata Hpre Hrej. pose proof Hsite as [Hget Hpv]. cbn in Hget, Hpv.
  unfold get_website_data.
  rewrite (bind_return _ _ _ _ _ (is_encrypted_at _ c info Hsite)). rewrite Henc. cbn [negb].
  rewrite (bind_return _ _ _ _ _ (getitem_at _ c info Hsite)).
  rewrite Hdata at 1.
  rewrite (bind_raise _ _ _ _ _
             (decrypt_loop_rejected pv hp fl dr en dn c k key pre cxs d cipher post
                Hk Hpre Hrej 0 ud info tr Hget)).
  do 4 f_equal. rewrite patch_spec.
  - cbn [take app Nat.add]. rewrite length_map, Hdata.
    rewrite <- (Forall2_length _ _ _ Hpre), drop_app_length. reflexivity.
  - rewrite length_map, Hdata, length_app, <- (Forall2_length _ _ _ Hpre). cbn; lia.
Qed.


(** *** [set_website_data] *)

Lemma traverse_as_datum (D : list (pystr * pystr)) :
  traverse as_datum (map (fun tv => PyTuple [PyStr (fst tv); PyStr (snd tv)]) D)
  = Some (tuples D).
Proof.
  induction D as [|[t v] D IH]; [reflexivity|].
  cbn [map traverse as_datum fst snd]. unfold tuples in *. now rewrite IH.
Qed.

(** One round of the loop of [set_website_data]: what it stores opens again
    under the same key. *)
Lemma encrypt_datum_sealed ud pv hp fl dr en dn tr k key d :
  decrypt_inverts_encrypt E -> b64decode_inverts_b64encode B ->
  hp !! k = Some key -> text_ok (d_value d) ->
  exists d' cipher plain,
    encrypt_datum k d (World ud pv hp fl dr en dn tr)
    = (Return d', World ud pv hp fl dr en (S dn) (tr ++ [EvEncrypt plain]))
    /\ opened key d' = Some (cipher, Datum KTuple (d_type d) (d_value d)).
Proof.
  intros Hde Hb64 Hk Htext.
  destruct (Utf8Facts.decode_encode _ Htext) as (plain & Henc & Hdec).
  set (cipher := encrypt plain key encryption_iterations (en dn)).
  destruct (Hb64 cipher) as (text & Htxt & Hback).
  exists (Datum KTuple (d_type d) text), cipher, plain. split.
  - unfold encrypt_datum, bind, of_option, read_buffer, data_to_encryptedtext, draw, modify,
      ret, bind. rewrite Henc. wsimpl. rewrite Hk. wsimpl. fold cipher. rewrite Htxt. reflexivity.
  - unfold opened. cbn [d_value d_type]. rewrite Hback. unfold cipher. rewrite Hde, Hdec.
    reflexivity.
Qed.

Lemma encrypt_loop_sealed ud pv hp fl dr en k key items :
  decrypt_inverts_encrypt E -> b64decode_inverts_b64encode B ->
  hp !! k = Some key -> Forall (fun d => text_ok (d_value d)) items ->
  forall dn tr,
  exists stored cxs plains,
    encrypt_loop k items (World ud pv hp fl dr en dn tr)
    = (Return stored,
       World ud pv hp fl dr en (length items + dn) (tr ++ map EvEncrypt plains))
    /\ Forall2 (fun d cx => opened key d = Some cx) stored cxs
    /\ map snd cxs = map (fun d => Datum KTuple (d_type d) (d_value d)) items.
Proof.
  intros Hde Hb64 Hk. induction 1 as [|d items Hd _ IH]; intros dn tr.
  - exists [], [], []. cbn [encrypt_loop map length]. unfold ret.
    rewrite app_nil_r. repeat split. constructor.
  - destruct (encrypt_datum_sealed ud pv hp fl dr en dn tr k key d Hde Hb64 Hk Hd)
      as (d' & cipher & plain & Hrun & Hop).
    destruct (IH (S dn) (tr ++ [EvEncrypt plain])) as (stored & cxs & plains & Hloop & Hall & Hmap).
    exists (d' :: stored), ((cipher, Datum KTuple (d_type d) (d_value d)) :: cxs), (plain :: plains).
    split; [|split].
    + cbn [encrypt_loop]. rewrite (bind_return _ _ _ _ _ Hrun).
      rewrite (bind_return _ _ _ _ _ Hloop). unfold ret. cbn [length map].
      rewrite <- app_assoc. cbn [app].
      replace (length items + S dn)%nat with (S (length items) + dn)%nat by lia.
      reflexivity.
    + now constructor.
    + cbn [map snd]. now rewrite Hmap.
Qed.

Lemma tuples_are_tuples (D : list (pystr * pystr)) :
  map (fun d => Datum KTuple (d_type d) (d_value d)) (tuples D) = tuples D.
Proof. unfold tuples. rewrite map_map. reflexivity. Qed.

(** [set_website_data] on an encrypted site with a key. *)
Lemma set_website_data_sealed ud pv hp fl dr en dn tr c info k key D :
  decrypt_inverts_encrypt E -> b64decode_inverts_b64encode B ->
  site_at (World ud pv hp fl dr en dn tr) c info ->
  encrypted info = true ->
  hp !! k = Some key ->
  Forall (fun tv => text_ok (snd tv)) D ->
  exists stored cxs plains,
    set_website_data (PyStr c) (py_data D) (PyBytearray k) (World ud pv hp fl dr en dn tr)
    = (Return (Some stored),
       World (dict_set ud c (with_data info stored)) pv (<[k := wiped key]> hp) fl dr en
             (length D + dn) (tr ++ map EvEncrypt plains ++ [EvWipe k]))
    /\ Forall2 (fun d cx => opened key d = Some cx) stored cxs
    /\ map snd cxs = tuples D.
Proof.
  intros Hde Hb64 Hsite Henc Hk Htext. pose proof Hsite as [Hget Hpv]. cbn in Hget, Hpv.
  assert (Forall (fun d => text_ok (d_value d)) (tuples D)) as Htext'.
  { unfold tuples. apply Forall_map. eapply Forall_impl; [exact Htext|]. now intros [t v]. }
  destruct (encrypt_loop_sealed ud pv hp fl dr en k key (tuples D) Hde Hb64 Hk Htext' dn tr)
    as (stored & cxs & plains & Hloop & Hall & Hmap).
  exists stored, cxs, plains. split; [|split; [exact Hall | now rewrite Hmap, tuples_are_tuples]].
  unfold set_website_data, py_data. rewrite traverse_as_datum.
  erewrite bind_return by (eapply is_encrypted_at; eassumption).
  rewrite Henc. cbn [negb].
  rewrite (bind_return _ _ _ _ _ Hloop).
  erewrite bind_return by (apply getitem_get; exact Hget).
  unfold setitem. unfold bind at 1. unfold modify at 1. wsimpl.
  erewrite bind_return by (apply delete_bytearray_at; exact Hk).
  unfold ret. unfold tuples. rewrite length_map, <- app_assoc. reflexivity.
Qed.

End WithCollaborators.

End BinderFacts.

(** ** The reference collaborators meet the laws *)

Module ToyFacts.
Import Json Toy.

Lemma starts_with_app (p rest : pystr) : starts_with p (p ++ rest) = Some rest.
Proof. induction p as [|a p IH]; cbn [starts_with app]; [reflexivity|]. now rewrite N.eqb_refl. Qed.


Lemma toy_decrypt_inverts_encrypt : decrypt_inverts_encrypt engine.
Proof.
  intros plain key iterations r. cbn [decrypt encrypt engine].
  unfold toy_decrypt, toy_encrypt.
  change (N.of_nat (length key) :: key ++ r :: plain)
    with ((N.of_nat (length key) :: key) ++ r :: plain).
  now rewrite starts_with_app.
Qed.



Lemma toy_b64decode_run (n : nat) (count : N) (rest : pystr) :
  toy_b64decode_from count (repeat 65 n ++ 46 :: rest)
  = cons (count + N.of_nat n) <$> toy_b64decode_from 0 rest.
Proof.
  revert count. induction n as [|n IH]; intros count.
  - cbn [repeat app toy_b64decode_from]. change (46 =? 65) with false.
    change (46 =? 46) with true. cbv iota. now rewrite N.add_0_r.
  - cbn [repeat app toy_b64decode_from]. change (65 =? 65) with true. cbv iota.
    rewrite IH. do 2 f_equal. lia.
Qed.

Lemma toy_b64decode_encode (b : bytes) : toy_b64decode_from 0 (toy_b64encode b) = Some b.
Proof.
  induction b as [|x b IH]; [reflexivity|].
  unfold toy_b64encode in *. cbn [flat_map]. rewrite <- app_assoc. cbn [app].
  rewrite toy_b64decode_run, IH. cbn. now rewrite N2Nat.id.
Qed.

Lemma toy_b64encode_ascii (b : bytes) : Forall (fun c => c < 0x80) (toy_b64encode b).
Proof.
  induction b as [|x b IH]; [constructor|].
  unfold toy_b64encode in *. cbn [flat_map]. apply Forall_app; split; [|exact IH].
  apply Forall_app; split; [|repeat constructor; lia].
  induction (N.to_nat x); cbn [repeat]; constructor; [lia | assumption].
Qed.

Lemma toy_b64decode_inverts_b64encode : b64decode_inverts_b64encode base64.
Proof.
  intros b. exists (toy_b64encode b). cbn [b64encode b64decode base64]. split.
  - apply Utf8Facts.decode_ascii, toy_b64encode_ascii.
  - apply toy_b64decode_encode.
Qed.

End ToyFacts.


Module KeyFacts.
Import Json JsonFacts Binder BinderFacts.

(** ** What happens to the key buffer *)

Lemma wipes_of_app (l : loc) (a b : list event) :
  wipes_of l (a ++ b) = (wipes_of l a + wipes_of l b)%nat.
Proof. unfold wipes_of. now rewrite List.filter_app, length_app. Qed.

Lemma wipes_of_wipe (l : loc) : wipes_of l [EvWipe l] = 1%nat.
Proof. unfold wipes_of. cbn [List.filter]. now rewrite Pos.eqb_refl. Qed.


Lemma wipes_of_encrypts (l : loc) (cs : list bytes) : wipes_of l (map EvEncrypt cs) = 0%nat.
Proof. induction cs as [|c cs IH]; [reflexivity | exact IH]. Qed.

Section KeyBuffer.
Context {E : Engine} {B : Base64}.

Lemma untouched_refl (l : loc) (w : world) : untouched l w w.
Proof. split; [reflexivity|]. exists []. now rewrite app_nil_r. Qed.

Lemma untouched_trans (l : loc) (w1 w2 w3 : world) :
  untouched l w1 w2 -> untouched l w2 w3 -> untouched l w1 w3.
Proof.
  intros [Hh1 (e1 & Ht1 & Hw1)] [Hh2 (e2 & Ht2 & Hw2)]. split; [congruence|].
  exists (e1 ++ e2). rewrite Ht2, Ht1, <- app_assoc, wipes_of_app, Hw1, Hw2. now split.
Qed.

Lemma untouched_then_wiped (l : loc) (content : bytes) (w1 w2 w3 : world) :
  untouched l w1 w2 -> wiped_once l content w2 w3 -> wiped_once l content w1 w3.
Proof.
  intros [Hh1 (e1 & Ht1 & Hw1)] [Hh2 (e2 & Ht2 & Hw2)]. split; [congruence|].
  exists (e1 ++ e2). rewrite Ht2, Ht1, <- app_assoc, wipes_of_app, Hw1, Hw2. now split.
Qed.

Lemma wiped_then_untouched (l : loc) (content : bytes) (w1 w2 w3 : world) :
  wiped_once l content w1 w2 -> untouched l w2 w3 -> wiped_once l content w1 w3.
Proof.
  intros [Hh1 (e1 & Ht1 & Hw1)] [Hh2 (e2 & Ht2 & Hw2)]. split; [congruence|].
  exists (e1 ++ e2). rewrite Ht2, Ht1, <- app_assoc, wipes_of_app, Hw1, Hw2. now split.
Qed.

(** *** Relations every step of a computation preserves *)

Section Preserved.
Variable R : world -> world -> Prop.
Hypothesis R_refl : forall w, R w w.
Hypothesis R_trans : forall w1 w2 w3, R w1 w2 -> R w2 w3 -> R w1 w3.

Lemma preserves_bind {A C : Type} (m : M A) (k : A -> M C) :
  preserves R m -> (forall a, preserves R (k a)) -> preserves R (bind m k).
Proof.
  intros Hm Hk w r w' Hrun. unfold bind in Hrun.
  destruct (m w) as [[a | e |] w1] eqn:Hmw.
  - eapply R_trans; [eapply Hm, Hmw | eapply Hk, Hrun].
  - injection Hrun as <- <-. eapply Hm, Hmw.
  - injection Hrun as <- <-. eapply Hm, Hmw.
Qed.

Lemma preserves_ret {A : Type} (a : A) : preserves R (ret a).
Proof. intros w r w' [= <- <-]. apply R_refl. Qed.

Lemma preserves_raise {A : Type} (e : exn) : preserves R (@raise A e).
Proof. intros w r w' [= <- <-]. apply R_refl. Qed.

Lemma preserves_gets {A : Type} (f : world -> A) : preserves R (gets f).
Proof. intros w r w' [= <- <-]. apply R_refl. Qed.

Lemma preserves_of_option {A : Type} (e : exn) (o : option A) : preserves R (of_option e o).
Proof. destruct o; [apply preserves_ret | apply preserves_raise]. Qed.

Lemma preserves_read_buffer (k : loc) : preserves R (read_buffer k).
Proof.
  intros w r w' Hrun. unfold read_buffer in Hrun.
  destruct (heap w !! k); injection Hrun as <- <-; apply R_refl.
Qed.

Lemma preserves_try_except {A : Type} (body : M A) (e : exn) (handler : M A) :
  preserves R body -> preserves R handler -> preserves R (try_except body e handler).
Proof.
  intros Hb Hh w r w' Hrun. unfold try_except in Hrun.
  destruct (body w) as [[a | e' |] w1] eqn:Hbw.
  - injection Hrun as <- <-. eapply Hb, Hbw.
  - destruct (exn_eqb e' e).
    + eapply R_trans; [eapply Hb, Hbw | eapply Hh, Hrun].
    + injection Hrun as <- <-. eapply Hb, Hbw.
  - injection Hrun as <- <-. eapply Hb, Hbw.
Qed.

(** The steps of [Binder] that change the world. *)
Hypothesis R_draw : preserves R draw.
Hypothesis R_log : forall e, (forall l, e <> EvWipe l) -> preserves R (modify (log e)).
Hypothesis R_store : forall f, preserves R (modify (fun w => set_userdict (f w) w)).

Lemma preserves_getitem (c : pyobj) : preserves R (getitem c).
Proof.
  destruct c; try apply preserves_raise. unfold getitem.
  apply preserves_bind; [apply preserves_gets | intros; apply preserves_of_option].
Qed.

Lemma preserves_listing : preserves R listing_website_codes.
Proof.
  unfold listing_website_codes.
  repeat (apply preserves_bind; [apply preserves_gets | intros]). apply preserves_ret.
Qed.

Lemma preserves_is_website_code (c : pyobj) : preserves R (is_website_code c).
Proof.
  destruct c; try apply preserves_raise. unfold is_website_code.
  apply preserves_bind; [apply preserves_listing | intros; apply preserves_ret].
Qed.

Lemma preserves_is_encrypted (c : pyobj) : preserves R (is_encrypted_website_data c).
Proof.
  unfold is_encrypted_website_data.
  apply preserves_bind; [apply preserves_is_website_code | intros ok].
  destruct ok; cbn [negb]; [|apply preserves_raise].
  apply preserves_bind; [apply preserves_getitem | intros; apply preserves_ret].
Qed.

Lemma preserves_encrypt_datum (k : loc) (d : datum) : preserves R (encrypt_datum k d).
Proof.
  unfold encrypt_datum, data_to_encryptedtext.
  apply preserves_bind; [apply preserves_of_option | intros].
  apply preserves_bind; [apply preserves_read_buffer | intros].
  apply preserves_bind.
  { apply preserves_bind; [apply R_draw | intros].
    apply preserves_bind; [apply R_log; discriminate | intros; apply preserves_ret]. }
  intros. apply preserves_bind; [apply preserves_of_option | intros; apply preserves_ret].
Qed.

Lemma preserves_encrypt_loop (k : loc) (items : list datum) :
  preserves R (encrypt_loop k items).
Proof.
  induction items as [|d items IH]; cbn [encrypt_loop]; [apply preserves_ret|].
  apply preserves_bind; [apply preserves_encrypt_datum | intros].
  apply preserves_bind; [exact IH | intros; apply preserves_ret].
Qed.

Hypothesis R_setitem : forall c i, preserves R (setitem c i).

Lemma preserves_setitem_data (c : pyobj) (index : nat) (x : datum) :
  preserves R (setitem_data c index x).
Proof.
  unfold setitem_data.
  apply preserves_bind; [apply preserves_getitem | intros; apply R_setitem].
Qed.

(** The [try] block of the loop of [get_website_data]. *)
Lemma preserves_decrypt_body (c : pyobj) (k : loc) (index : nat) (d : datum) :
  preserves R
    (encrypted_datum <- b64decode_str (d_value d) ;;
     key_copy <- read_buffer k ;;
     decrypted_datum <- encryptedtext_to_data encrypted_datum key_copy encryption_iterations ;;
     text <- of_option UnicodeDecodeError (Utf8.decode decrypted_datum) ;;
     setitem_data c index (Datum KTuple (d_type d) text)).
Proof.
  apply preserves_bind.
  { unfold b64decode_str. destruct (b64decode _); [apply preserves_ret | apply preserves_raise]. }
  intros. apply preserves_bind; [apply preserves_read_buffer | intros].
  apply preserves_bind.
  { unfold encryptedtext_to_data.
    apply preserves_bind; [apply R_log; discriminate | intros; apply preserves_of_option]. }
  intros. apply preserves_bind; [apply preserves_of_option | intros].
  apply preserves_setitem_data.
Qed.
End Preserved.

(** *** Steps that leave the buffers alone *)

Lemma untouched_draw (l : loc) : preserves (untouched l) draw.
Proof.
  intros w r w' [= <- <-]. split; [reflexivity|]. exists []. cbn. now rewrite app_nil_r.
Qed.

Lemma untouched_log (l : loc) (e : event) :
  (forall l', e <> EvWipe l') -> preserves (untouched l) (modify (log e)).
Proof.
  intros He w r w' [= <- <-]. split; [reflexivity|]. exists [e]. split; [reflexivity|].
  destruct e; try reflexivity. now destruct (He l0).
Qed.

Lemma untouched_store (l : loc) (f : world -> dict website_info) :
  preserves (untouched l) (modify (fun w => set_userdict (f w) w)).
Proof.
  intros w r w' [= <- <-]. split; [reflexivity|]. exists []. cbn. now rewrite app_nil_r.
Qed.

Lemma untouched_setitem (l : loc) (c : pyobj) (i : website_info) :
  preserves (untouched l) (setitem c i).
Proof.
  destruct c; try (apply preserves_raise; apply untouched_refl). unfold setitem.
  apply (untouched_store l (fun w => dict_set (userdict w) s i)).
Qed.

(** *** Steps that keep a site in the store *)

Lemma keeps_site_refl (c : pystr) (w : world) : keeps_site c w w.
Proof. now intros H. Qed.

Lemma keeps_site_trans (c : pystr) (w1 w2 w3 : world) :
  keeps_site c w1 w2 -> keeps_site c w2 w3 -> keeps_site c w1 w3.
Proof. unfold keeps_site. auto. Qed.

Lemma keeps_site_same_store (c : pystr) (w w' : world) :
  userdict w' = userdict w -> keeps_site c w w'.
Proof. unfold keeps_site. now intros ->. Qed.

Lemma keeps_site_setitem (c : pystr) (c' : pyobj) (i : website_info) :
  preserves (keeps_site c) (setitem c' i).
Proof.
  destruct c'; try (apply preserves_raise; apply keeps_site_refl).
  intros w r w' [= <- <-] H. cbn [userdict set_userdict].
  destruct (str_eqb s c) eqn:Hs.
  - apply str_eqb_eq in Hs. subst. now rewrite dict_get_set_eq.
  - apply str_eqb_neq in Hs. now rewrite dict_get_set_ne.
Qed.

Lemma keeps_site_delete_bytearray (c : pystr) (k : loc) :
  preserves (keeps_site c) (delete_bytearray k).
Proof.
  intros w r w' Hrun. unfold delete_bytearray, bind, read_buffer, modify in Hrun.
  destruct (heap w !! k); injection Hrun as <- <-;
    now apply keeps_site_same_store.
Qed.

Lemma keeps_site_log (c : pystr) (e : event) : preserves (keeps_site c) (modify (log e)).
Proof. intros w r w' [= <- <-]. now apply keeps_site_same_store. Qed.

Lemma keeps_site_decrypt_loop (c0 : pystr) (c : pyobj) (k : loc) (items : list datum) :
  forall index, preserves (keeps_site c0) (decrypt_loop c k index items).
Proof.
  induction items as [|d items IH]; intros index; cbn [decrypt_loop].
  - apply preserves_ret, keeps_site_refl.
  - apply preserves_bind; [apply keeps_site_trans| |intros; apply IH].
    apply preserves_try_except; [apply keeps_site_trans| |].
    + apply preserves_decrypt_body;
        [apply keeps_site_refl | apply keeps_site_trans
        | intros; apply keeps_site_log | apply keeps_site_setitem].
    + apply preserves_bind;
        [apply keeps_site_trans | apply keeps_site_delete_bytearray
        | intros; apply preserves_raise, keeps_site_refl].
Qed.

(** *** The key buffer of [get_website_data] and [set_website_data] *)

Lemma delete_bytearray_post (k : loc) (key : bytes) (w : world) :
  heap w !! k = Some key ->
  exists w', delete_bytearray k w = (Return tt, w') /\ wiped_once k key w w'.
Proof.
  destruct w as [ud pv hp fl dr en dn tr]. cbn [heap]. intros Hk.
  eexists. split; [exact (delete_bytearray_at _ _ _ _ _ _ _ _ _ _ Hk)|].
  split; [reflexivity|]. exists [EvWipe k]. split; [reflexivity | apply wipes_of_wipe].
Qed.

(** How a round of the loop of [get_website_data] leaves the key buffer:
    wiped once when it raises [WrongKeyError], as it was otherwise. *)
Lemma decrypt_datum_post (c : pyobj) (k : loc) (key : bytes) (index : nat) (d : datum)
    (w : world) (r : outcome unit) (w' : world) :
  heap w !! k = Some key ->
  decrypt_datum c k index d w = (r, w') ->
  (r = Raise WrongKeyError /\ wiped_once k key w w')
  \/ (r <> Raise WrongKeyError /\ untouched k w w').
Proof.
  intros Hk Hrun. unfold decrypt_datum, try_except in Hrun.
  match type of Hrun with
  | context [match ?body w with _ => _ end] => destruct (body w) as [r1 w1] eqn:Hb
  end.
  assert (untouched k w w1) as Hq.
  { revert Hb. apply preserves_decrypt_body;
      [apply untouched_refl | apply untouched_trans
      | intros; now apply untouched_log | apply untouched_setitem]. }
  destruct r1 as [[] | e |].
  - injection Hrun as <- <-. right. split; [discriminate | exact Hq].
  - destruct (exn_eqb e WrongKeyError) eqn:He.
    + unfold bind in Hrun.
      destruct (delete_bytearray_post k key w1) as (w2 & Hdel & Hw).
      { destruct Hq as [-> _]. exact Hk. }
      rewrite Hdel in Hrun. injection Hrun as <- <-.
      left. split; [reflexivity|]. eapply untouched_then_wiped; eassumption.
    + injection Hrun as <- <-. right. split; [|exact Hq].
      intros [= ->]. discriminate He.
  - injection Hrun as <- <-. right. split; [discriminate | exact Hq].
Qed.

Lemma decrypt_loop_post (c : pyobj) (k : loc) (key : bytes) (items : list datum) :
  forall (index : nat) (w : world) (r : outcome unit) (w' : world),
  heap w !! k = Some key ->
  decrypt_loop c k index items w = (r, w') ->
  (r = Raise WrongKeyError /\ wiped_once k key w w')
  \/ (r <> Raise WrongKeyError /\ untouched k w w').
Proof.
  induction items as [|d items IH]; intros index w r w' Hk Hrun; cbn [decrypt_loop] in Hrun.
  - injection Hrun as <- <-. right. split; [discriminate | apply untouched_refl].
  - unfold bind in Hrun.
    destruct (decrypt_datum c k index d w) as [r1 w1] eqn:Hd.
    destruct (decrypt_datum_post c k key index d w r1 w1 Hk Hd) as [[-> Hw] | [Hne Hu]].
    + injection Hrun as <- <-. now left.
    + destruct r1 as [[] | e |].
      * assert (heap w1 !! k = Some key) as Hk1 by (destruct Hu as [-> _]; exact Hk).
        destruct (IH _ _ _ _ Hk1 Hrun) as [[-> Hw] | [Hne' Hu']].
        -- left. split; [reflexivity|]. eapply untouched_then_wiped; eassumption.
        -- right. split; [exact Hne'|]. eapply untouched_trans; eassumption.
      * injection Hrun as <- <-. right. now split.
      * injection Hrun as <- <-. right. now split.
Qed.

(** [get_website_data] with a key buffer on an encrypted site: the buffer is
    wiped once when the call returns or raises [WrongKeyError]; no other
    exit touches it. *)
Lemma get_website_data_post (w : world) (c : pystr) (info : website_info) (k : loc)
    (key : bytes) (r : outcome (list datum)) (w' : world) :
  site_at w c info -> encrypted info = true -> heap w !! k = Some key ->
  get_website_data (PyStr c) (PyBytearray k) w = (r, w') ->
  match r with
  | Return _ | Raise WrongKeyError => wiped_once k key w w'
  | _ => untouched k w w'
  end.
Proof.
  intros Hsite Henc Hk Hrun. unfold get_website_data in Hrun.
  erewrite bind_return in Hrun by (eapply is_encrypted_at; eassumption).
  rewrite Henc in Hrun. cbn [negb] in Hrun.
  erewrite bind_return in Hrun by (eapply getitem_at; eassumption).
  unfold bind at 1 in Hrun.
  destruct (decrypt_loop (PyStr c) k 0 (data info) w) as [r1 w1] eqn:Hloop.
  destruct (decrypt_loop_post _ _ _ _ _ _ _ _ Hk Hloop) as [[-> Hw] | [Hne Hu]].
  - injection Hrun as <- <-. exact Hw.
  - destruct r1 as [[] | e |].
    + unfold bind at 1 in Hrun.
      destruct (delete_bytearray_post k key w1) as (w2 & Hdel & Hw).
      { destruct Hu as [-> _]. exact Hk. }
      rewrite Hdel in Hrun.
      assert (dict_get (userdict w2) c <> None) as Hkept.
      { eapply keeps_site_delete_bytearray; [exact Hdel|].
        eapply keeps_site_decrypt_loop; [exact Hloop|].
        destruct Hsite as [-> _]. discriminate. }
      destruct (dict_get (userdict w2) c) as [info2|] eqn:Hget2; [|congruence].
      erewrite bind_return in Hrun by (apply getitem_get; exact Hget2).
      injection Hrun as <- <-. eapply untouched_then_wiped; eassumption.
    + injection Hrun as <- <-. destruct e; try exact Hu. congruence.
    + injection Hrun as <- <-. exact Hu.
Qed.

(** On a site that is not flagged encrypted [get_website_data] returns the
    stored data and changes nothing, whatever it is given as a key. *)
Lemma get_website_data_plain (w : world) (c : pystr) (info : website_info) (user_key : pyobj) :
  site_at w c info -> encrypted info = false ->
  get_website_data (PyStr c) user_key w = (Return (data info), w).
Proof.
  intros Hsite Henc. unfold get_website_data.
  erewrite bind_return by (eapply is_encrypted_at; eassumption).
  rewrite Henc. cbn [negb].
  erewrite bind_return by (eapply getitem_at; eassumption). reflexivity.
Qed.

(** [set_website_data] with a key buffer on an encrypted site: the buffer is
    wiped once when the call returns; no other exit touches it. *)
Lemma set_website_data_post (w : world) (c : pystr) (info : website_info) (website_data : pyobj)
    (k : loc) (key : bytes) (r : outcome (option (list datum))) (w' : world) :
  site_at w c info -> encrypted info = true -> heap w !! k = Some key ->
  set_website_data (PyStr c) website_data (PyBytearray k) w = (r, w') ->
  match r with
  | Return _ => wiped_once k key w w'
  | _ => untouched k w w'
  end.
Proof.
  intros Hsite Henc Hk Hrun. unfold set_website_data in Hrun.
  destruct website_data as [| | | | | |items|];
    try (injection Hrun as <- <-; apply untouched_refl).
  destruct (traverse as_datum items) as [news|];
    [|injection Hrun as <- <-; apply untouched_refl].
  erewrite bind_return in Hrun by (eapply is_encrypted_at; eassumption).
  rewrite Henc in Hrun. cbn [negb] in Hrun.
  unfold bind at 1 in Hrun.
  destruct (encrypt_loop k news w) as [r1 w1] eqn:Hloop.
  assert (untouched k w w1) as Hu.
  { revert Hloop. apply preserves_encrypt_loop;
      [apply untouched_refl | apply untouched_trans | apply untouched_draw
      | intros; now apply untouched_log]. }
  assert (userdict w1 = userdict w /\ private_website_code w1 = private_website_code w)
    as [Hud Hpv].
  { assert (preserves (fun a b => userdict b = userdict a
                                  /\ private_website_code b = private_website_code a)
              (encrypt_loop k news)) as Hp.
    { apply preserves_encrypt_loop.
      - now intros.
      - intros a b c0 [-> ->] [-> ->]. now split.
      - now intros a r0 b [= <- <-].
      - now intros e _ a r0 b [= <- <-]. }
    exact (Hp _ _ _ Hloop). }
  destruct r1 as [stored | e |]; try (injection Hrun as <- <-; exact Hu).
  assert (site_at w1 c info) as Hsite1.
  { destruct Hsite as [Hg Hp]. split; [now rewrite Hud | now rewrite Hpv]. }
  erewrite bind_return in Hrun by (eapply getitem_at; exact Hsite1).
  unfold bind at 1 in Hrun. unfold setitem, modify in Hrun.
  unfold bind at 1 in Hrun.
  match type of Hrun with
  | context [delete_bytearray k ?w2] =>
      destruct (delete_bytearray_post k key w2) as (w3 & Hdel & Hw)
  end.
  { cbn [heap set_userdict]. destruct Hu as [-> _]. exact Hk. }
  rewrite Hdel in Hrun. injection Hrun as <- <-.
  eapply untouched_then_wiped; [|exact Hw].
  eapply untouched_trans; [exact Hu|]. split; [reflexivity|]. exists []. cbn.
  now rewrite app_nil_r.
Qed.

(** On a site that is not flagged encrypted [set_website_data] touches no
    buffer, whatever it is given as a key. *)
Lemma set_website_data_plain (w : world) (c : pystr) (info : website_info)
    (website_data user_key : pyobj) (l : loc) (r : outcome (option (list datum))) (w' : world) :
  site_at w c info -> encrypted info = false ->
  set_website_data (PyStr c) website_data user_key w = (r, w') ->
  untouched l w w'.
Proof.
  intros Hsite Henc Hrun. unfold set_website_data in Hrun.
  destruct website_data as [| | | | | |items|];
    try (injection Hrun as <- <-; apply untouched_refl).
  destruct (traverse as_datum items) as [news|];
    [|injection Hrun as <- <-; apply untouched_refl].
  erewrite bind_return in Hrun by (eapply is_encrypted_at; eassumption).
  rewrite Henc in Hrun. cbn [negb] in Hrun.
  erewrite bind_return in Hrun by (eapply getitem_at; eassumption).
  revert Hrun. apply preserves_bind;
    [apply untouched_trans | apply untouched_setitem
    | intros; apply preserves_ret, untouched_refl].
Qed.

End KeyBuffer.

End KeyFacts.

(** ** [generate_website_code] *)

Module CodeFacts.
Import Json JsonFacts Binder BinderFacts.

Lemma random_code_spec (n : nat) ud pv hp fl dr en tr :
  forall dn,
  exists s,
    random_code n (World ud pv hp fl dr en dn tr)
    = (Return s, World ud pv hp fl dr en (n + dn) tr)
    /\ length s = n /\ Forall (fun x => In x chars) s.
Proof.
  induction n as [|n IH]; intros dn.
  - exists []. repeat split. constructor.
  - destruct (IH (S dn)) as (s & Hrun & Hlen & Hall).
    eexists (_ :: s). split; [|split].
    + cbn [random_code]. unfold random_choice, bind at 1 2, draw, ret at 1. wsimpl.
      rewrite (bind_return _ _ _ _ _ Hrun). unfold ret.
      replace (n + S dn)%nat with (S n + dn)%nat by lia. reflexivity.
    + cbn [length]. now rewrite Hlen.
    + constructor; [|exact Hall]. apply nth_In.
      change (length chars) with 62%nat.
      pose proof (N.mod_upper_bound (en dn) (N.of_nat 62)). lia.
Qed.

Lemma random_code_candidate ud pv hp fl dr en dn tr (n : nat) :
  random_code code_lenght (World ud pv hp fl dr en (code_lenght * n + dn) tr)
  = (Return (candidate (World ud pv hp fl dr en dn tr) n),
     World ud pv hp fl dr en (code_lenght * S n + dn) tr).
Proof.
  unfold candidate. wsimpl.
  destruct (random_code_spec code_lenght ud pv hp fl dr en tr (code_lenght * n + dn))
    as (s & -> & _ & _).
  do 2 f_equal. lia.
Qed.

Lemma candidate_shape (w : world) (n : nat) :
  length (candidate w n) = code_lenght /\ Forall (fun x => In x chars) (candidate w n).
Proof.
  destruct w as [ud pv hp fl dr en dn tr]. unfold candidate. wsimpl.
  destruct (random_code_spec code_lenght ud pv hp fl dr en tr (code_lenght * n + dn))
    as (s & -> & Hlen & Hall).
  now split.
Qed.

Lemma taken_false (w : world) (c : pystr) :
  taken w c = false <->
  ~ In c (dict_keys (userdict w)) /\ ~ In c (private_website_code w).
Proof.
  unfold taken. rewrite orb_false_iff. split.
  - intros [Hl Hp]. split.
    + intros Hin. apply not_true_iff_false in Hl. apply Hl, str_in_In, filter_In.
      split; [exact Hin | now rewrite Hp].
    + intros Hin. apply str_in_In in Hin. congruence.
  - intros [Hk Hp]. split; apply not_true_iff_false; intros H; apply str_in_In in H.
    + apply filter_In in H as [H _]. contradiction.
    + contradiction.
Qed.

(** The loop of [generate_website_code], entered with candidate number [i]. *)
Lemma generate_loop_step ud pv hp fl dr en dn tr (fuel i : nat) :
  let w := World ud pv hp fl dr en dn tr in
  generate_loop fuel
    (List.filter (fun c => negb (str_in c pv)) (dict_keys ud))
    (candidate w i) (World ud pv hp fl dr en (code_lenght * S i + dn) tr)
  = if taken w (candidate w i) then
      match fuel with
      | O => (Return None, World ud pv hp fl dr en (code_lenght * S i + dn) tr)
      | S fuel' =>
          generate_loop fuel'
            (List.filter (fun c => negb (str_in c pv)) (dict_keys ud))
            (candidate w (S i)) (World ud pv hp fl dr en (code_lenght * S (S i) + dn) tr)
      end
    else (Return (Some (candidate w i)), World ud pv hp fl dr en (code_lenght * S i + dn) tr).
Proof.
  intros w. unfold taken. subst w. wsimpl.
  destruct fuel as [|fuel]; cbn [generate_loop]; unfold bind at 1, gets at 1; wsimpl;
    match goal with |- context [if ?b then _ else _] => destruct b end; try reflexivity.
  now rewrite (bind_return _ _ _ _ _ (random_code_candidate ud pv hp fl dr en dn tr (S i))).
Qed.

Lemma generate_website_code_start ud pv hp fl dr en dn tr (fuel : nat) :
  let w := World ud pv hp fl dr en dn tr in
  generate_website_code fuel w
  = generate_loop fuel
      (List.filter (fun c => negb (str_in c pv)) (dict_keys ud))
      (candidate w 0) (World ud pv hp fl dr en (code_lenght * 1 + dn) tr).
Proof.
  intros w. subst w. unfold generate_website_code.
  pose proof (random_code_candidate ud pv hp fl dr en dn tr 0) as H.
  replace (code_lenght * 0 + dn)%nat with dn in H by (unfold code_lenght; lia).
  rewrite (bind_return _ _ _ _ _ H).
  unfold listing_website_codes, bind at 1 2, gets, ret. wsimpl. reflexivity.
Qed.

(** What the loop returns is a candidate that is not taken. *)
Lemma generate_loop_sound ud pv hp fl dr en dn tr (fuel : nat) :
  let w := World ud pv hp fl dr en dn tr in
  forall i c w',
  generate_loop fuel
    (List.filter (fun c => negb (str_in c pv)) (dict_keys ud))
    (candidate w i) (World ud pv hp fl dr en (code_lenght * S i + dn) tr)
  = (Return (Some c), w') ->
  exists j, c = candidate w j /\ taken w c = false
            /\ w' = World ud pv hp fl dr en (code_lenght * S j + dn) tr.
Proof.
  intros w. induction fuel as [|fuel IH]; intros i c w' Hrun;
    rewrite (generate_loop_step ud pv hp fl dr en dn tr) in Hrun; fold w in Hrun;
    destruct (taken w (candidate w i)) eqn:Ht.
  - discriminate Hrun.
  - injection Hrun as <- <-. now exists i.
  - now apply IH in Hrun.
  - injection Hrun as <- <-. now exists i.
Qed.

(** The loop reaches the first candidate that is not taken. *)
Lemma generate_loop_complete ud pv hp fl dr en dn tr (n : nat) :
  let w := World ud pv hp fl dr en dn tr in
  forall fuel i,
  (n <= fuel)%nat ->
  (forall j, (j < n)%nat -> taken w (candidate w (i + j)) = true) ->
  taken w (candidate w (i + n)) = false ->
  generate_loop fuel
    (List.filter (fun c => negb (str_in c pv)) (dict_keys ud))
    (candidate w i) (World ud pv hp fl dr en (code_lenght * S i + dn) tr)
  = (Return (Some (candidate w (i + n))),
     World ud pv hp fl dr en (code_lenght * S (i + n) + dn) tr).
Proof.
  intros w. induction n as [|n IH]; intros fuel i Hfuel Hbefore Hfresh;
    rewrite (generate_loop_step ud pv hp fl dr en dn tr); fold w.
  - rewrite Nat.add_0_r in *. now rewrite Hfresh.
  - pose proof (Hbefore 0%nat ltac:(lia)) as H0. rewrite Nat.add_0_r in H0. rewrite H0.
    destruct fuel as [|fuel]; [lia|].
    replace (i + S n)%nat with (S i + n)%nat in * by lia.
    apply IH; [lia | | exact Hfresh].
    intros j Hj. replace (S i + j)%nat with (i + S j)%nat by lia. apply Hbefore. lia.
Qed.

End CodeFacts.
(** ** [filesmanager.py] *)

Module FilesFacts.
Import FilesManager.

Section WithEngine.
Context {E : Engine}.
Variable module_file : path.

Lemma is_prefix_refl (p : path) : is_prefix p p = true.
Proof.
  unfold is_prefix. apply bool_decide_eq_true. apply firstn_all.
Qed.

Lemma is_prefix_app (p q : path) : is_prefix p (p ++ q) = true.
Proof.
  unfold is_prefix. apply bool_decide_eq_true. now rewrite take_app_length.
Qed.

Lemma get_account_path_at (w : world) (a : pystr) (content : bytes) :
  account_with_blob module_file w a content ->
  get_account_path module_file (PyStr a) w = (Return (account_path module_file a), w).
Proof.
  intros (Hne & Hname & Hdir & _).
  unfold get_account_path, exist_account, is_valid_account_name, account_dir, dirname,
    isdir, gets, bind, ret.
  destruct a as [|c a]; [congruence|]. cbn [length Nat.eqb].
  rewrite Hname. cbn [negb Z.leb Z.compare].
  fold (account_path module_file (c :: a)).
  rewrite (bool_decide_eq_true_2 _ Hdir). reflexivity.
Qed.

Lemma get_encryptedtext_filepath_at (w : world) (a : pystr) (content : bytes) :
  account_with_blob module_file w a content ->
  get_encryptedtext_filepath module_file (PyStr a) w
  = (Return (blob_path module_file a), w).
Proof.
  intros H. unfold get_encryptedtext_filepath.
  erewrite bind_return by (eapply get_account_path_at; exact H). reflexivity.
Qed.

(** What a wipe leaves wiped stays wiped through another wipe. *)
Lemma delete_bytearray_wipes (l : loc) (content : bytes) (w : world) :
  heap w !! l = Some content ->
  exists w',
    delete_bytearray l w = (Return tt, w')
    /\ is_wiped w' l
    /\ (forall l', is_wiped w l' -> is_wiped w' l')
    /\ (forall l', is_Some (heap w !! l') -> is_Some (heap w' !! l'))
    /\ trace w' = trace w ++ [EvWipe l]
    /\ files w' = files w /\ dirs w' = dirs w.
Proof.
  destruct w as [ud pv hp fl dr en dn tr]. cbn [heap]. intros Hl.
  eexists. split; [exact (BinderFacts.delete_bytearray_at _ _ _ _ _ _ _ _ _ _ Hl)|].
  unfold is_wiped. cbn [heap trace files dirs].
  split; [exists content; apply lookup_insert_eq|].
  split.
  - intros l' [x Hx]. destruct (decide (l = l')) as [<-|Hn].
    + exists content. apply lookup_insert_eq.
    + exists x. now rewrite lookup_insert_ne.
  - split; [|auto]. intros l' Hs. destruct (decide (l = l')) as [<-|Hn].
    + rewrite lookup_insert_eq. eauto.
    + now rewrite lookup_insert_ne.
Qed.

(** [delete_account] on an existing account, step by step. *)
Lemma delete_account_run ud pv hp fl dr en dn tr (a : pystr) (content : bytes) :
  let w := World ud pv hp fl dr en dn tr in
  let buffer := fresh (dom hp) in
  let noise := random_bytes (length content) (en dn) in
  account_with_blob module_file w a content ->
  delete_account module_file (PyStr a) w
  = (Return tt,
     World ud pv (<[buffer := wiped content]> (<[buffer := content]> hp))
       (filter (fun qb => is_prefix (account_path module_file a) (fst qb) = false)
          (<[blob_path module_file a := noise]> fl))
       (filter (fun q => is_prefix (account_path module_file a) q = false) dr)
       en (S dn)
       (tr ++ [EvRead (blob_path module_file a)] ++ [EvWrite (blob_path module_file a) noise]
           ++ [EvWipe buffer] ++ [EvRmtree (account_path module_file a)])).
Proof.
  intros w buffer noise H. unfold delete_account.
  erewrite bind_return by (eapply get_account_path_at; exact H).
  erewrite bind_return by (eapply get_encryptedtext_filepath_at; exact H).
  destruct H as (_ & _ & Hdir & Hblob). subst w. cbn [dirs files] in Hdir, Hblob.
  unfold bind at 1. unfold read_file. cbn [files]. rewrite Hblob. wsimpl.
  unfold bind at 1. unfold alloc. wsimpl.
  unfold bind at 1. unfold random_bytearray, bind, draw, ret. wsimpl.
  unfold write_file. wsimpl. rewrite Hblob. wsimpl.
  rewrite (BinderFacts.delete_bytearray_at _ _ _ _ _ _ _ _ _ content)
    by apply lookup_insert_eq.
  unfold rmtree. wsimpl. rewrite (bool_decide_eq_true_2 _ Hdir).
  rewrite <- !app_assoc. reflexivity.
Qed.

Lemma check_secrets_at (w : world) (pw pn : loc) (pwc pnc : bytes) :
  heap w !! pw = Some pwc -> heap w !! pn = Some pnc -> pwc <> [] -> pnc <> [] ->
  check_secrets (PyBytearray pw) (PyBytearray pn) w = (Return (pw, pn), w).
Proof.
  intros Hpw Hpn Hpwc Hpnc. unfold check_secrets, bind, read_buffer.
  rewrite Hpw, Hpn. destruct pwc; [congruence|]. destruct pnc; [congruence|]. reflexivity.
Qed.

Lemma read_buffer_at (w : world) (l : loc) (content : bytes) :
  heap w !! l = Some content -> read_buffer l w = (Return content, w).
Proof. intros H. unfold read_buffer. now rewrite H. Qed.

Lemma lookup_overwritten (h : gmap loc bytes) (l l' : loc) (x : bytes) :
  is_Some (h !! l') -> is_Some (<[l := x]> h !! l').
Proof.
  intros H. destruct (decide (l = l')) as [<-|Hn].
  - rewrite lookup_insert_eq. eauto.
  - now rewrite lookup_insert_ne.
Qed.

(** [load_encryptedtext] when the engine reports an error. *)
Lemma load_encryptedtext_failure (w : world) (a : pystr) (content : bytes)
    (pw pn : loc) (pwc pnc : bytes) :
  account_with_blob module_file w a content ->
  heap w !! pw = Some pwc -> heap w !! pn = Some pnc -> pwc <> [] -> pnc <> [] ->
  is_error (decrypt_pin content pwc pnc) = true ->
  exists w',
    load_encryptedtext module_file (PyStr a) (PyBytearray pw) (PyBytearray pn) w
    = (Raise ComputationError, w')
    /\ is_wiped w' pw /\ is_wiped w' pn
    /\ trace w'
       = trace w ++ [EvRead (blob_path module_file a); EvDecrypt content; EvWipe pw; EvWipe pn]
    /\ files w' = files w.
Proof.
  intros H Hpw Hpn Hpwc Hpnc Herr. unfold load_encryptedtext.
  erewrite bind_return by (eapply get_encryptedtext_filepath_at; exact H).
  erewrite bind_return by (eapply check_secrets_at; eassumption).
  cbn [fst snd].
  destruct H as (_ & _ & _ & Hblob).
  destruct w as [ud pv hp fl dr en dn tr]. cbn [heap files trace] in *.
  unfold bind at 1. unfold read_file. cbn [files]. rewrite Hblob. wsimpl.
  erewrite bind_return by (apply read_buffer_at; exact Hpw).
  erewrite bind_return by (apply read_buffer_at; exact Hpn).
  rewrite Herr.
  unfold bind at 1 2 3. unfold overwrite, modify. wsimpl.
  set (r := decrypt_pin content pwc pnc).
  assert (Hs : is_Some (<[pn := pin_after r]> (<[pw := password_after r]> hp) !! pw)).
  { apply lookup_overwritten. rewrite lookup_insert_eq. eauto. }
  destruct Hs as [x Hx].
  destruct (delete_bytearray_wipes pw x
              (World ud pv (<[pn := pin_after r]> (<[pw := password_after r]> hp)) fl dr en dn
                 ((tr ++ [EvRead (blob_path module_file a)]) ++ [EvDecrypt content])) Hx)
    as (w1 & Hrun1 & Hw1 & Hkeep1 & Hsome1 & Htr1 & Hfl1 & _).
  erewrite bind_return by exact Hrun1.
  assert (Hs : is_Some (heap w1 !! pn)).
  { apply Hsome1. cbn [heap]. rewrite lookup_insert_eq. eauto. }
  destruct Hs as [y Hy].
  destruct (delete_bytearray_wipes pn y w1 Hy)
    as (w2 & Hrun2 & Hw2 & Hkeep2 & _ & Htr2 & Hfl2 & _).
  erewrite bind_return by exact Hrun2.
  exists w2. split; [reflexivity|].
  split; [apply Hkeep2, Hw1|]. split; [exact Hw2|].
  split.
  - rewrite Htr2, Htr1. cbn [trace]. now rewrite <- !app_assoc.
  - now rewrite Hfl2, Hfl1.
Qed.

(** [dumps_encryptedtext] when the engine reports an error. *)
Lemma dumps_encryptedtext_failure (w : world) (a : pystr) (content : bytes)
    (pw pn d : loc) (pwc pnc dc : bytes) :
  account_with_blob module_file w a content ->
  heap w !! pw = Some pwc -> heap w !! pn = Some pnc -> heap w !! d = Some dc ->
  pwc <> [] -> pnc <> [] ->
  is_error (encrypt_pin dc pwc pnc (entropy w (drawn w))) = true ->
  exists w',
    dumps_encryptedtext module_file (PyStr a) (PyBytearray pw) (PyBytearray pn)
      (PyBytearray d) w
    = (Raise ComputationError, w')
    /\ is_wiped w' pw /\ is_wiped w' pn /\ is_wiped w' d
    /\ trace w' = trace w ++ [EvEncrypt dc; EvWipe pw; EvWipe pn; EvWipe d]
    /\ files w' = files w.
Proof.
  intros H Hpw Hpn Hd Hpwc Hpnc Herr. unfold dumps_encryptedtext.
  erewrite bind_return by (eapply get_encryptedtext_filepath_at; exact H).
  erewrite bind_return by (eapply check_secrets_at; eassumption).
  cbn [fst snd].
  erewrite bind_return by (apply read_buffer_at; exact Hd).
  erewrite bind_return by (apply read_buffer_at; exact Hpw).
  erewrite bind_return by (apply read_buffer_at; exact Hpn).
  destruct w as [ud pv hp fl dr en dn tr]. cbn [heap files trace entropy drawn] in *.
  unfold bind at 1. unfold draw. wsimpl. rewrite Herr.
  unfold bind at 1 2 3 4. unfold overwrite, modify. wsimpl.
  set (r := encrypt_pin dc pwc pnc (en dn)).
  set (h := <[pn := pin_after r]> (<[pw := password_after r]> (<[d := data_after r]> hp))).
  assert (Hall : forall l, is_Some (hp !! l) -> is_Some (h !! l)).
  { intros l Hl. subst h. now do 3 apply lookup_overwritten. }
  destruct (Hall pw) as [x Hx]; [eauto|].
  destruct (delete_bytearray_wipes pw x
              (World ud pv h fl dr en (S dn) (tr ++ [EvEncrypt dc])) Hx)
    as (w1 & Hrun1 & Hw1 & Hkeep1 & Hsome1 & Htr1 & Hfl1 & _).
  erewrite bind_return by exact Hrun1.
  destruct (Hsome1 pn) as [y Hy]; [cbn [heap]; apply Hall; eauto|].
  destruct (delete_bytearray_wipes pn y w1 Hy)
    as (w2 & Hrun2 & Hw2 & Hkeep2 & Hsome2 & Htr2 & Hfl2 & _).
  erewrite bind_return by exact Hrun2.
  destruct (Hsome2 d) as [z Hz]; [apply Hsome1; cbn [heap]; apply Hall; eauto|].
  destruct (delete_bytearray_wipes d z w2 Hz)
    as (w3 & Hrun3 & Hw3 & Hkeep3 & _ & Htr3 & Hfl3 & _).
  erewrite bind_return by exact Hrun3.
  exists w3. split; [reflexivity|].
  split; [apply Hkeep3, Hkeep2, Hw1|]. split; [apply Hkeep3, Hw2|]. split; [exact Hw3|].
  split.
  - rewrite Htr3, Htr2, Htr1. cbn [trace]. now rewrite <- !app_assoc.
  - now rewrite Hfl3, Hfl2, Hfl1.
Qed.

End WithEngine.
End FilesFacts.

(** ** The properties of the specification *)

Import Json JsonFacts Binder BinderFacts KeyFacts CodeFacts FilesManager FilesFacts Toy ToyFacts.


Lemma view_listify_store (d : dict website_info) : view (listify_store d) = view d.
Proof.
  unfold view, listify_store. rewrite map_map. apply map_ext. intros [k i].
  cbn [fst snd listify_info name encrypted data]. rewrite map_map. reflexivity.
Qed.

Lemma dumps_nonempty (v : value) : (length (dumps v) =? 0)%nat = false.
Proof. destruct (dumps_head v) as (c & t & -> & _). reflexivity. Qed.

Lemma dict_get_listify_store (d : dict website_info) (c : pystr) :
  dict_get (listify_store d) c = option_map listify_info (dict_get d c).
Proof.
  induction d as [|[k i] d IH]; [reflexivity|].
  cbn [listify_store map dict_get fst snd]. destruct (str_eqb k c); [reflexivity | exact IH].
Qed.

Lemma listify_changes_tuple (l : list datum) (d : datum) :
  In d l -> d_kind d = KTuple -> map listify l <> l.
Proof.
  induction l as [|x l IH]; intros Hin Hk Heq; [contradiction|].
  cbn [map] in Heq. injection Heq as Hx Hl. destruct Hin as [-> | Hin].
  - rewrite <- Hx in Hk. discriminate Hk.
  - exact (IH Hin Hk Hl).
Qed.

(** C1 fails on the code.  From the buffer [dump] returns for a store [S],
    [load] rebuilds [S] with every datum turned into a 2-element list: the
    site codes, names, encrypted flags and (field type, field value) strings
    are those of [S], but a site that held a tuple, as every site written by
    [set_website_data] does, no longer holds what it held.  [S] is any store
    of Python (a [dict] of [str]) without a string in which a high surrogate
    stands right before a low one.  An empty store is dumped as a zero-length
    buffer, and [load] of a zero-length buffer makes the store empty. *)
Theorem dump_load_round_trip (w : world) :
  wf_store (userdict w) ->
  (exists l w1 w2,
      dump w = (Return (PyBytearray l), w1)
      /\ load (PyBytearray l) w1 = (Return tt, w2)
      /\ dump_then_load w = (Return tt, w2)
      /\ userdict w2 = listify_store (userdict w)
      /\ view (userdict w2) = view (userdict w)
      /\ (forall c info d,
            dict_get (userdict w) c = Some info -> In d (data info) -> d_kind d = KTuple ->
            dict_get (userdict w2) c = Some (listify_info info)
            /\ listify_info info <> info)
      /\ (userdict w = [] -> heap w1 !! l = Some ([] : bytes)))
  /\ (forall w' l', heap w' !! l' = Some ([] : bytes) ->
        load (PyBytearray l') w' = (Return tt, set_userdict [] w')).
Proof.
  intros Hwf. split.
  - destruct w as [ud pv hp fl dr en dn tr]. cbn [userdict] in *.
    set (l := fresh (dom hp)).
    destruct ud as [|[k0 i0] ud'].
    + exists l, (World [] pv (<[l := []]> hp) fl dr en dn tr),
             (World [] pv (<[l := []]> hp) fl dr en dn tr).
      assert (dump (World [] pv hp fl dr en dn tr)
              = (Return (PyBytearray l), World [] pv (<[l := []]> hp) fl dr en dn tr)) as Hd
        by reflexivity.
      assert (load (PyBytearray l) (World [] pv (<[l := []]> hp) fl dr en dn tr)
              = (Return tt, World [] pv (<[l := []]> hp) fl dr en dn tr)) as Hl.
      { unfold load, bind, read_buffer. wsimpl. rewrite lookup_insert_eq. reflexivity. }
      refine (conj Hd (conj Hl (conj _ (conj eq_refl (conj eq_refl (conj _ _)))))).
      * unfold dump_then_load. now rewrite (bind_return _ _ _ _ _ Hd).
      * intros c info d Hget. discriminate Hget.
      * intros _. cbn [heap]. apply lookup_insert_eq.
    + set (ud := (k0, i0) :: ud') in *.
      set (text := dumps (json_of_userdict ud)).
      exists l, (World ud pv (<[l := text]> hp) fl dr en dn tr),
             (World (listify_store ud) pv (<[l := text]> hp) fl dr en dn tr).
      assert (dump (World ud pv hp fl dr en dn tr)
              = (Return (PyBytearray l), World ud pv (<[l := text]> hp) fl dr en dn tr)) as Hd.
      { unfold dump, bind, gets, of_option, alloc, ret. wsimpl.
        change (length (dict_keys ud) =? 0)%nat with false. cbv iota.
        rewrite (Utf8Facts.encode_ascii _ (dumps_ascii _)). reflexivity. }
      assert (load (PyBytearray l) (World ud pv (<[l := text]> hp) fl dr en dn tr)
              = (Return tt, World (listify_store ud) pv (<[l := text]> hp) fl dr en dn tr)) as Hl.
      { unfold load, bind, read_buffer, of_option, modify. wsimpl. rewrite lookup_insert_eq.
        unfold text. rewrite dumps_nonempty.
        rewrite (Utf8Facts.decode_ascii _ (dumps_ascii _)). unfold ret.
        rewrite loads_dumps_userdict by exact Hwf.
        rewrite userdict_of_json_of_userdict. reflexivity. }
      refine (conj Hd (conj Hl (conj _ (conj eq_refl (conj _ (conj _ _)))))).
      * unfold dump_then_load. now rewrite (bind_return _ _ _ _ _ Hd).
      * apply view_listify_store.
      * intros c info d Hget Hin Hkind. cbn [userdict]. split.
        -- now rewrite dict_get_listify_store, Hget.
        -- intros Heq. apply (listify_changes_tuple (data info) d Hin Hkind).
           exact (f_equal data Heq).
      * discriminate.
  - intros w' l' H. cbv [load bind read_buffer]. now rewrite H.
Qed.

Lemma example_store_wf : wf_store (userdict Toy.example_world).
Proof.
  split.
  - apply (bool_decide_unpack _). vm_compute. exact I.
  - repeat constructor.
Qed.

(** C1, witness: the example store goes through [dump] and [load]; its site
    ["a"] comes back with a list for the tuple it held. *)
Lemma dump_load_round_trip_witness :
  wf_store (userdict Toy.example_world)
  /\ exists w2, dump_then_load Toy.example_world = (Return tt, w2)
                /\ view (userdict w2) = view (userdict Toy.example_world)
                /\ dict_get (userdict w2) (str "a")
                   = Some (WebsiteInfo (str "shop") false [Datum KList (str "login") (str "bob")]).
Proof.
  split; [exact example_store_wf|].
  destruct (dump_load_round_trip Toy.example_world example_store_wf)
    as [(l & w1 & w2 & _ & _ & H & _ & Hv & Hd & _) _].
  exists w2. split; [exact H|]. split; [exact Hv|].
  exact (proj1 (Hd (str "a")
                  (WebsiteInfo (str "shop") false [Datum KTuple (str "login") (str "bob")])
                  (Datum KTuple (str "login") (str "bob"))
                  eq_refl (or_introl eq_refl) eq_refl)).
Defined.

(** C1, the failing input: site ["a"] holds the tuple [("login", "bob")];
    after [dump] and [load] the same call of [get_website_data] returns the
    list [["login", "bob"]], which Python does not hold equal to the tuple,
    and which [set_website_data] refuses as malformed when it is handed
    back. *)
Lemma round_trip_turns_tuples_into_lists :
  exists w',
    dump_then_load Toy.example_world = (Return tt, w')
    /\ fst (get_website_data (PyStr (str "a")) PyNone Toy.example_world)
       = Return [Datum KTuple (str "login") (str "bob")]
    /\ fst (get_website_data (PyStr (str "a")) PyNone w')
       = Return [Datum KList (str "login") (str "bob")]
    /\ fst (get_website_data (PyStr (str "a")) PyNone w')
       <> fst (get_website_data (PyStr (str "a")) PyNone Toy.example_world)
    /\ fst (set_website_data (PyStr (str "a"))
              (PyList [PyTuple [PyStr (str "login"); PyStr (str "bob")]]) PyNone w')
       = Return None
    /\ fst (set_website_data (PyStr (str "a"))
              (PyList [PyList [PyStr (str "login"); PyStr (str "bob")]]) PyNone w')
       = Raise ValueError.
Proof.
  eexists. split; [vm_compute; reflexivity|].
  split; [vm_compute; reflexivity|]. split; [vm_compute; reflexivity|].
  split; [vm_compute; discriminate|]. split; vm_compute; reflexivity.
Qed.

(** C1, a second way to fail: a name made of a high and a low surrogate is
    dumped as two [\uXXXX] escapes, which [load] reads as one code point; a
    surrogate on its own comes back as it was. *)
Lemma round_trip_joins_surrogates :
  (exists w',
      dump_then_load Toy.paired_world = (Return tt, w')
      /\ fst (get_website_name (PyStr (str "a")) Toy.paired_world) = Return [0xD800; 0xDC00]
      /\ fst (get_website_name (PyStr (str "a")) w') = Return [0x10000])
  /\ (exists w',
         dump_then_load Toy.paired_world = (Return tt, w')
         /\ fst (get_website_name (PyStr (str "b")) Toy.paired_world) = Return [0xDC00; 0xD800]
         /\ fst (get_website_name (PyStr (str "b")) w') = Return [0xDC00; 0xD800]).
Proof.
  split; eexists; (split; [vm_compute; reflexivity|]); split; vm_compute; reflexivity.
Qed.

(** C2.  On a site flagged encrypted, [set_website_data] with a list [D] of
    2-tuples of strings (the values text) and a key buffer, followed by
    [get_website_data] with another buffer holding the same key, returns a
    list equal to [D]. *)
Theorem set_then_get_returns_data {E : Engine} {B : Base64}
    (w : world) (c : pystr) (info : website_info)
    (D : list (pystr * pystr)) (k k' : loc) (key : bytes) :
  decrypt_inverts_encrypt E -> b64decode_inverts_b64encode B ->
  site_at w c info -> encrypted info = true ->
  Forall (fun tv => text_ok (snd tv)) D ->
  heap w !! k = Some key -> heap w !! k' = Some key -> k <> k' ->
  exists stored w1 w2,
    set_website_data (PyStr c) (py_data D) (PyBytearray k) w = (Return (Some stored), w1)
    /\ get_website_data (PyStr c) (PyBytearray k') w1 = (Return (tuples D), w2).
Proof.
  intros Hde Hb64 Hsite Henc Htext Hk Hk' Hne.
  destruct w as [ud pv hp fl dr en dn tr]. cbn [heap] in Hk, Hk'.
  destruct (set_website_data_sealed ud pv hp fl dr en dn tr c info k key D
              Hde Hb64 Hsite Henc Hk Htext) as (stored & cxs & plains & Hset & Hall & Hmap).
  destruct Hsite as [Hget Hpv]. cbn [userdict private_website_code] in Hget, Hpv.
  eexists stored, _, _. split; [exact Hset|].
  rewrite <- Hmap.
  apply (get_website_data_opened _ pv (<[k := wiped key]> hp) fl dr en _ _ c
           (with_data info stored) k' key cxs).
  - split; [apply dict_get_set_eq | exact Hpv].
  - exact Henc.
  - now rewrite lookup_insert_ne.
  - exact Hall.
Qed.

(** C2, witness: the encrypted site ["b"] of the example world, the key in
    buffers 1 and 2. *)
Lemma set_then_get_returns_data_witness :
  exists stored w1 w2,
    set_website_data (PyStr (str "b")) (py_data [(str "login", str "bob")]) (PyBytearray 1%positive)
      example_world = (Return (Some stored), w1)
    /\ get_website_data (PyStr (str "b")) (PyBytearray 2%positive) w1
       = (Return (tuples [(str "login", str "bob")]), w2).
Proof.
  apply (set_then_get_returns_data example_world (str "b") (WebsiteInfo (str "bank") true [])
           [(str "login", str "bob")] 1%positive 2%positive [1; 2; 3]).
  - exact toy_decrypt_inverts_encrypt.
  - exact toy_b64decode_inverts_b64encode.
  - split; reflexivity.
  - reflexivity.
  - repeat constructor.
  - reflexivity.
  - reflexivity.
  - discriminate.
Defined.



Lemma sealed_world_site : site_at sealed_world (str "b") sealed_info.
Proof. split; vm_compute; reflexivity. Qed.




(** C4 fails on the code: the key is consumed on some exits only.  When
    [get_website_data] or [set_website_data] is given a key buffer for a site
    whose encrypted flag is true, the buffer is wiped, once, by the time the
    call returns, and by the time [get_website_data] raises [WrongKeyError];
    a call that raises anything else leaves the buffer as it was, the key
    still in it.  When the flag is false, [get_website_data] returns the
    stored data and changes nothing, and [set_website_data] leaves every
    buffer as it was: the key is not consumed either. *)
Theorem key_buffer_consumed {E : Engine} {B : Base64}
    (w : world) (c : pystr) (info : website_info) (k : loc) (key : bytes) :
  site_at w c info -> heap w !! k = Some key ->
  (encrypted info = true ->
     (forall r w',
         get_website_data (PyStr c) (PyBytearray k) w = (r, w') ->
         match r with
         | Return _ | Raise WrongKeyError => wiped_once k key w w'
         | Raise _ => untouched k w w'
         | Unmodelled => True
         end)
     /\ (forall website_data r w',
           set_website_data (PyStr c) website_data (PyBytearray k) w = (r, w') ->
           match r with
           | Return _ => wiped_once k key w w'
           | Raise _ => untouched k w w'
           | Unmodelled => True
           end))
  /\ (encrypted info = false ->
        get_website_data (PyStr c) (PyBytearray k) w = (Return (data info), w)
        /\ (forall website_data r w',
              set_website_data (PyStr c) website_data (PyBytearray k) w = (r, w') ->
              untouched k w w')).
Proof.
  intros Hsite Hk. split; intros Henc; split.
  - intros r w' Hrun.
    pose proof (get_website_data_post w c info k key r w' Hsite Henc Hk Hrun) as H.
    destruct r as [x | e |]; [exact H | | exact I]. destruct e; exact H.
  - intros website_data r w' Hrun.
    pose proof (set_website_data_post w c info website_data k key r w' Hsite Henc Hk Hrun) as H.
    destruct r; [exact H | exact H | exact I].
  - now apply get_website_data_plain.
  - intros website_data r w' Hrun. eapply set_website_data_plain; eassumption.
Qed.

(** C4, witness: buffer 2 of [sealed_world] holds the key of the encrypted
    site ["b"]; [get_website_data] returns and has wiped it. *)
Lemma key_buffer_consumed_witness :
  site_at sealed_world (str "b") sealed_info
  /\ heap sealed_world !! 2%positive = Some [1; 2; 3]
  /\ wiped_once 2%positive [1; 2; 3] sealed_world
       (snd (get_website_data (PyStr (str "b")) (PyBytearray 2%positive) sealed_world)).
Proof.
  split; [exact sealed_world_site|]. split; [reflexivity|].
  destruct (key_buffer_consumed sealed_world (str "b") sealed_info 2%positive [1; 2; 3]
              sealed_world_site eq_refl) as [H _].
  destruct (H eq_refl) as [Hget _].
  destruct (get_website_data (PyStr (str "b")) (PyBytearray 2%positive) sealed_world)
    as [r w'] eqn:Hrun.
  specialize (Hget r w' eq_refl).
  assert (exists x, r = Return x) as [x ->].
  { assert (fst (get_website_data (PyStr (str "b")) (PyBytearray 2%positive) sealed_world)
            = Return (tuples [(str "login", str "bob"); (str "pin", str "42")])) as Hv
      by (vm_compute; reflexivity).
    rewrite Hrun in Hv. cbn [fst] in Hv. eauto. }
  exact Hget.
Defined.

(** C4, a failing input on a site that is not flagged encrypted: after
    [get_website_data] on site ["a"] with the key buffer 1 the buffer still
    holds the key and no wipe has taken place. *)
Lemma key_survives_on_plain_site :
  exists w',
    get_website_data (PyStr (str "a")) (PyBytearray 1%positive) example_world
    = (Return [Datum KTuple (str "login") (str "bob")], w')
    /\ heap example_world !! 1%positive = Some [1; 2; 3]
    /\ heap w' !! 1%positive = Some [1; 2; 3]
    /\ wiped [1; 2; 3] <> [1; 2; 3]
    /\ wipes_of 1%positive (trace w') = 0%nat.
Proof.
  eexists. split; [vm_compute; reflexivity|].
  split; [reflexivity|]. split; [reflexivity|]. split; [discriminate | reflexivity].
Qed.

(** C4, failing inputs on a site flagged encrypted, the key left in its
    buffer each time.  Site ["b"] of [sealed_world], once read with its key
    (buffer 2), holds plain text: [get_website_data] with the key buffer 3
    raises the error of [base64].  [set_website_data] with the key buffer 2
    raises [UnicodeEncodeError] on a value that has no UTF-8 encoding, and
    [ValueError] on a list that holds a 3-tuple. *)
Lemma key_survives_failed_calls :
  (exists w1 w2,
      get_website_data (PyStr (str "b")) (PyBytearray 2%positive) sealed_world
      = (Return (tuples [(str "login", str "bob"); (str "pin", str "42")]), w1)
      /\ heap w1 !! 3%positive = Some [9]
      /\ get_website_data (PyStr (str "b")) (PyBytearray 3%positive) w1
         = (Raise BinasciiError, w2)
      /\ heap w2 !! 3%positive = Some [9]
      /\ wipes_of 3%positive (trace w2) = 0%nat)
  /\ heap sealed_world !! 2%positive = Some [1; 2; 3]
  /\ (exists w',
         set_website_data (PyStr (str "b")) (py_data [(str "pin", [0xD800])])
           (PyBytearray 2%positive) sealed_world
         = (Raise UnicodeEncodeError, w')
         /\ heap w' !! 2%positive = Some [1; 2; 3]
         /\ wipes_of 2%positive (trace w') = 0%nat)
  /\ (exists w',
         set_website_data (PyStr (str "b"))
           (PyList [PyTuple [PyStr (str "a"); PyStr (str "b"); PyStr (str "c")]])
           (PyBytearray 2%positive) sealed_world
         = (Raise ValueError, w')
         /\ heap w' !! 2%positive = Some [1; 2; 3]
         /\ wipes_of 2%positive (trace w') = 0%nat).
Proof.
  split.
  - do 2 eexists. split; [vm_compute; reflexivity|]. split; [vm_compute; reflexivity|].
    split; [vm_compute; reflexivity|]. split; vm_compute; reflexivity.
  - split; [vm_compute; reflexivity|].
    split; eexists; (split; [vm_compute; reflexivity|]); split; vm_compute; reflexivity.
Qed.

(** C5 fails on the code.  [load] reads the buffer it is given and never
    writes to it: whatever the call ends in, every buffer holds what it held
    and no wipe has taken place. *)
Theorem load_changes_no_buffer (data : pyobj) (w : world) (r : outcome unit) (w' : world) :
  load data w = (r, w') -> heap w' = heap w /\ trace w' = trace w.
Proof.
  intros Hrun.
  assert (preserves (fun a b => heap b = heap a /\ trace b = trace a) (load data)) as Hp.
  { unfold load. destruct data; try (apply preserves_raise; now intros).
    apply preserves_bind; [intros a b c0 [-> ->] [-> ->]; now split | |].
    - apply preserves_read_buffer. now intros.
    - intros content. destruct (length content =? 0)%nat.
      + now intros a r0 b [= <- <-].
      + apply preserves_bind; [intros a b c0 [-> ->] [-> ->]; now split | |].
        * apply preserves_of_option. now intros.
        * intros text. destruct (loads text) as [v | | |];
            try (now intros a r0 b [= <- <-]).
          destruct (userdict_of_json v); now intros a r0 b [= <- <-]. }
  exact (Hp _ _ _ Hrun).
Qed.

(** C5, witness: the buffer [load] has parsed still holds the document. *)
Lemma load_changes_no_buffer_witness :
  fst (load (PyBytearray 4%positive) (snd (dump example_world))) = Return tt
  /\ heap (snd (dump example_world)) !! 4%positive
     = Some (dumps (json_of_userdict (userdict example_world)))
  /\ heap (snd (load (PyBytearray 4%positive) (snd (dump example_world))))
     = heap (snd (dump example_world))
  /\ trace (snd (load (PyBytearray 4%positive) (snd (dump example_world))))
     = trace (snd (dump example_world)).
Proof.
  split; [vm_compute; reflexivity|]. split; [vm_compute; reflexivity|].
  apply (load_changes_no_buffer (PyBytearray 4%positive) (snd (dump example_world))
           (fst (load (PyBytearray 4%positive) (snd (dump example_world))))).
  now destruct (load (PyBytearray 4%positive) (snd (dump example_world))).
Defined.

(** C6 fails on the code.  [set_website_data_encryption] is declared without
    [self]: a call with a site code and a boolean raises [TypeError], whether
    the code is in the store or not, and the store is left as it was; no
    call of it ever raises [ValueError] or changes a flag. *)
Theorem set_encryption_flag_never_runs (args : list pyobj) (w : world) :
  (forall c b, set_website_data_encryption [PyStr c; PyBool b] w = (Raise TypeError, w))
  /\ exists e, set_website_data_encryption args w = (Raise e, w) /\ e <> ValueError.
Proof.
  split; [reflexivity|].
  destruct args as [|a [|b args]]; eexists; (split; [reflexivity | discriminate]).
Qed.

(** C10.  On a site flagged encrypted [get_website_data] writes into the
    store: when every tuple opens, the stored data list is afterwards the list
    of decrypted tuples it returns; when the engine rejects the key on some
    tuple, the tuples before it are stored decrypted and the rest as they
    were.  The encrypted flag (and the name) stay as they are, so the store
    then holds plain text under a true flag: the data [D] that
    [set_website_data] had stored encrypted is, after one [get_website_data],
    stored as [D] itself. *)
Theorem get_data_rewrites_the_store {E : Engine} {B : Base64}
    (w : world) (c : pystr) (info : website_info) (k : loc) (key : bytes) :
  site_at w c info -> encrypted info = true -> heap w !! k = Some key ->
  (forall cxs,
      Forall2 (fun d cx => opened key d = Some cx) (data info) cxs ->
      exists w',
        get_website_data (PyStr c) (PyBytearray k) w = (Return (map snd cxs), w')
        /\ site_at w' c (WebsiteInfo (name info) true (map snd cxs)))
  /\ (forall pre cxs d cipher post,
        data info = pre ++ d :: post ->
        Forall2 (fun d cx => opened key d = Some cx) pre cxs ->
        rejected key d cipher ->
        exists w',
          get_website_data (PyStr c) (PyBytearray k) w = (Raise WrongKeyError, w')
          /\ site_at w' c (WebsiteInfo (name info) true (map snd cxs ++ d :: post)))
  /\ (decrypt_inverts_encrypt E -> b64decode_inverts_b64encode B ->
      forall D k2,
        Forall (fun tv => text_ok (snd tv)) D -> heap w !! k2 = Some key -> k <> k2 ->
        exists stored w1 w2,
          set_website_data (PyStr c) (py_data D) (PyBytearray k) w = (Return (Some stored), w1)
          /\ site_at w1 c (WebsiteInfo (name info) true stored)
          /\ get_website_data (PyStr c) (PyBytearray k2) w1 = (Return (tuples D), w2)
          /\ site_at w2 c (WebsiteInfo (name info) true (tuples D))).
Proof.
  intros Hsite Henc Hk.
  destruct w as [ud pv hp fl dr en dn tr]. cbn [heap] in *.
  pose proof Hsite as [Hget Hpv]. cbn [userdict private_website_code] in Hget, Hpv.
  assert (forall l, with_data info l = WebsiteInfo (name info) true l) as Hwd
    by (intros l; unfold with_data; now rewrite Henc).
  split; [|split].
  - intros cxs Hall. eexists. split.
    + eapply get_website_data_opened; eassumption.
    + rewrite <- Hwd. split; [apply dict_get_set_eq | exact Hpv].
  - intros pre cxs d cipher post Hdata Hpre Hrej. eexists. split.
    + eapply get_website_data_rejected; eassumption.
    + rewrite <- Hwd. split; [apply dict_get_set_eq | exact Hpv].
  - intros Hde Hb64 D k2 Htext Hk2 Hne.
    destruct (set_website_data_sealed ud pv hp fl dr en dn tr c info k key D
                Hde Hb64 Hsite Henc Hk Htext) as (stored & cxs & plains & Hset & Hall & Hmap).
    eexists stored, _, _. split; [exact Hset|].
    assert (site_at (World (dict_set ud c (with_data info stored)) pv (<[k := wiped key]> hp)
                       fl dr en (length D + dn) (tr ++ map EvEncrypt plains ++ [EvWipe k]))
              c (with_data info stored)) as Hsite1
      by (split; [apply dict_get_set_eq | exact Hpv]).
    split; [now rewrite <- Hwd|]. rewrite <- Hmap. split.
    + apply (get_website_data_opened _ pv (<[k := wiped key]> hp) fl dr en _ _ c
               (with_data info stored) k2 key cxs Hsite1 Henc);
        [now rewrite lookup_insert_ne | exact Hall].
    + rewrite <- Hwd. split; [|exact Hpv]. cbn [userdict].
      rewrite dict_set_set. apply dict_get_set_eq.
Qed.

(** C10, witness: after [get_website_data] on site ["b"] of [sealed_world]
    with the key in buffer 2, the store holds the two tuples in plain text
    and the flag of ["b"] is true. *)
Lemma get_data_rewrites_the_store_witness :
  exists w',
    get_website_data (PyStr (str "b")) (PyBytearray 2%positive) sealed_world
    = (Return (tuples [(str "login", str "bob"); (str "pin", str "42")]), w')
    /\ site_at w' (str "b")
         (WebsiteInfo (str "bank") true (tuples [(str "login", str "bob"); (str "pin", str "42")])).
Proof.
  destruct (get_data_rewrites_the_store sealed_world (str "b") sealed_info 2%positive [1; 2; 3]
              sealed_world_site eq_refl eq_refl) as [H _].
  apply (H [([3; 1; 2; 3; 0; 98; 111; 98], Datum KTuple (str "login") (str "bob"));
            ([3; 1; 2; 3; 1; 52; 50], Datum KTuple (str "pin") (str "42"))]).
  repeat constructor.
Defined.

Lemma add_website_adds (c : pystr) (website_name : pyobj) (w w1 : world) :
  add_website (PyStr c) website_name w = (Return tt, w1) ->
  In c (dict_keys (userdict w1)).
Proof.
  intros Hrun. unfold add_website, is_website_code at 1 in Hrun.
  unfold bind at 1 2, listing_website_codes, bind at 1 2, gets, ret in Hrun.
  cbv beta iota in Hrun.
  match type of Hrun with context [if ?b then _ else _] => destruct b end;
    [discriminate Hrun|].
  unfold bind at 1, setitem, modify in Hrun.
  unfold set_website_name, bind at 1 in Hrun.
  match type of Hrun with
  | context [is_website_code (PyStr c) ?w2] =>
      destruct (is_website_code (PyStr c) w2) as [[[|] | e |] w3] eqn:Hok;
      try discriminate Hrun
  end.
  cbn [negb] in Hrun. destruct website_name; try discriminate Hrun.
  unfold bind at 1 in Hrun.
  destruct (getitem (PyStr c) w3) as [[info | e |] w4]; try discriminate Hrun.
  unfold setitem, modify in Hrun. injection Hrun as <-.
  cbn [userdict set_userdict]. eapply dict_get_keys, dict_get_set_eq.
Qed.

(** C7.  Whatever [generate_website_code] returns is a string of
    [code_lenght] characters of [chars] (letters and digits) that is neither a
    key of the store, listed or not, nor in the reserved list; it returns as
    soon as the random source yields such a code; and once a returned code has
    been added with [add_website], no later call returns it. *)
Theorem generated_code_is_fresh (w : world) :
  (forall fuel c w',
      generate_website_code fuel w = (Return (Some c), w') ->
      length c = code_lenght
      /\ Forall (fun x => In x chars) c
      /\ ~ In c (dict_keys (userdict w))
      /\ ~ In c (private_website_code w)
      /\ userdict w' = userdict w
      /\ private_website_code w' = private_website_code w)
  /\ (forall n fuel,
        (n <= fuel)%nat ->
        (forall j, (j < n)%nat -> taken w (candidate w j) = true) ->
        taken w (candidate w n) = false ->
        exists w', generate_website_code fuel w = (Return (Some (candidate w n)), w'))
  /\ (forall fuel c w' website_name w1,
        generate_website_code fuel w = (Return (Some c), w') ->
        add_website (PyStr c) website_name w' = (Return tt, w1) ->
        forall fuel2 c2 w2,
          generate_website_code fuel2 w1 = (Return (Some c2), w2) -> c2 <> c).
Proof.
  assert (forall w0 fuel c w',
      generate_website_code fuel w0 = (Return (Some c), w') ->
      length c = code_lenght
      /\ Forall (fun x => In x chars) c
      /\ ~ In c (dict_keys (userdict w0))
      /\ ~ In c (private_website_code w0)
      /\ userdict w' = userdict w0
      /\ private_website_code w' = private_website_code w0) as Hsound.
  { intros [ud pv hp fl dr en dn tr] fuel c w' Hrun.
    rewrite generate_website_code_start in Hrun.
    apply generate_loop_sound in Hrun as (j & -> & Ht & ->).
    apply taken_false in Ht as [Hk Hp].
    destruct (candidate_shape (World ud pv hp fl dr en dn tr) j) as [Hlen Hall].
    repeat split; assumption. }
  split; [apply Hsound | split].
  - intros n fuel Hfuel Hbefore Hfresh. destruct w as [ud pv hp fl dr en dn tr].
    eexists. rewrite generate_website_code_start.
    apply (generate_loop_complete ud pv hp fl dr en dn tr n fuel 0 Hfuel Hbefore Hfresh).
  - intros fuel c w' website_name w1 _ Hadd fuel2 c2 w2 Hrun2 ->.
    apply Hsound in Hrun2 as (_ & _ & Hk & _).
    apply Hk. eapply add_website_adds, Hadd.
Qed.

(** C7, witness: in [crowded_world] the first code drawn is in use; the call
    returns the second one. *)
Lemma generated_code_is_fresh_witness :
  exists w',
    generate_website_code 1 crowded_world = (Return (Some (str "klmnopqrst")), w').
Proof.
  destruct (generated_code_is_fresh crowded_world) as (_ & H & _).
  apply (H 1%nat 1%nat (le_n 1)).
  - intros j Hj. assert (j = 0%nat) as -> by lia. vm_compute. reflexivity.
  - vm_compute. reflexivity.
Defined.


Lemma vault_world_account :
  account_with_blob Toy.module_file vault_world (str "alice") [1; 2; 3; 9; 42].
Proof.
  split; [discriminate|]. split; [reflexivity|]. split.
  - apply (bool_decide_unpack _). vm_compute. exact I.
  - vm_compute. reflexivity.
Qed.


(** C9.  When the engine reports an error, [load_encryptedtext] raises
    [ComputationError] after it has wiped the password and pin buffers it was
    given, and [dumps_encryptedtext] raises [ComputationError] after it has
    wiped the password, pin and data buffers it was given; the blob is left as
    it was. *)
Theorem engine_failure_wipes_secrets {E : Engine}
    (module_file : path) (w : world) (a : pystr) (content : bytes)
    (pw pn d : loc) (pwc pnc dc : bytes) :
  account_with_blob module_file w a content ->
  heap w !! pw = Some pwc -> heap w !! pn = Some pnc -> heap w !! d = Some dc ->
  pwc <> [] -> pnc <> [] ->
  (is_error (decrypt_pin content pwc pnc) = true ->
   exists w',
     load_encryptedtext module_file (PyStr a) (PyBytearray pw) (PyBytearray pn) w
     = (Raise ComputationError, w')
     /\ is_wiped w' pw /\ is_wiped w' pn
     /\ trace w'
        = trace w ++ [EvRead (blob_path module_file a); EvDecrypt content; EvWipe pw; EvWipe pn]
     /\ files w' = files w)
  /\ (is_error (encrypt_pin dc pwc pnc (entropy w (drawn w))) = true ->
      exists w',
        dumps_encryptedtext module_file (PyStr a) (PyBytearray pw) (PyBytearray pn)
          (PyBytearray d) w
        = (Raise ComputationError, w')
        /\ is_wiped w' pw /\ is_wiped w' pn /\ is_wiped w' d
        /\ trace w' = trace w ++ [EvEncrypt dc; EvWipe pw; EvWipe pn; EvWipe d]
        /\ files w' = files w).
Proof.
  intros H Hpw Hpn Hd Hpwc Hpnc. split; intros Herr.
  - exact (load_encryptedtext_failure module_file w a content pw pn pwc pnc
             H Hpw Hpn Hpwc Hpnc Herr).
  - exact (dumps_encryptedtext_failure module_file w a content pw pn d pwc pnc dc
             H Hpw Hpn Hd Hpwc Hpnc Herr).
Qed.

(** C9, witness: in [vault_world] the blob of ["alice"] does not open under
    the password [9] and the pin [1; 2; 3], and the engine fails to encrypt at
    the next random value; both calls raise and leave buffers 3, 1 and 2
    wiped. *)
Lemma engine_failure_wipes_secrets_witness :
  (exists w',
      load_encryptedtext Toy.module_file (PyStr (str "alice"))
        (PyBytearray 3%positive) (PyBytearray 1%positive) vault_world
      = (Raise ComputationError, w')
      /\ is_wiped w' 3%positive /\ is_wiped w' 1%positive)
  /\ (exists w',
         dumps_encryptedtext Toy.module_file (PyStr (str "alice"))
           (PyBytearray 3%positive) (PyBytearray 1%positive) (PyBytearray 2%positive) vault_world
         = (Raise ComputationError, w')
         /\ is_wiped w' 3%positive /\ is_wiped w' 1%positive /\ is_wiped w' 2%positive).
Proof.
  destruct (engine_failure_wipes_secrets Toy.module_file vault_world (str "alice")
              [1; 2; 3; 9; 42] 3%positive 1%positive 2%positive [9] [1; 2; 3] [1; 2; 3]
              vault_world_account eq_refl eq_refl eq_refl
              ltac:(discriminate) ltac:(discriminate)) as [Hload Hdump].
  split.
  - destruct (Hload eq_refl) as (w' & Hrun & H3 & H1 & _).
    exists w'. exact (conj Hrun (conj H3 H1)).
  - destruct (Hdump eq_refl) as (w' & Hrun & H3 & H1 & H2 & _).
    exists w'. exact (conj Hrun (conj H3 (conj H1 H2))).
Defined.
(** ** The store through its methods *)

Module StoreFacts.
Import Json JsonFacts Binder BinderFacts KeyFacts.

Lemma dict_get_del_ne {V : Type} (d : dict V) (k k0 : pystr) :
  k <> k0 -> dict_get (dict_del d k) k0 = dict_get d k0.
Proof.
  intros Hne. induction d as [|[k' v'] d IH]; cbn [dict_del dict_get]; [reflexivity|].
  destruct (str_eqb k' k) eqn:Ek.
  - apply str_eqb_eq in Ek. subst k'. now apply str_eqb_neq in Hne as ->.
  - cbn [dict_get]. now rewrite IH.
Qed.

Lemma dict_get_None_keys {V : Type} (d : dict V) (k : pystr) :
  dict_get d k = None <-> ~ In k (dict_keys d).
Proof.
  split.
  - intros Hget Hin. apply dict_keys_get in Hin as [v Hv]. congruence.
  - intros Hin. destruct (dict_get d k) eqn:Hget; [|reflexivity].
    exfalso. eapply Hin, dict_get_keys, Hget.
Qed.

Lemma dict_set_absent {V : Type} (d : dict V) (k : pystr) (v : V) :
  dict_get d k = None -> dict_set d k v = d ++ [(k, v)].
Proof.
  intros H. apply dict_set_fresh. intros Hin. apply list_elem_of_In in Hin.
  now apply dict_get_None_keys in H.
Qed.

Lemma dict_del_last {V : Type} (d : dict V) (k : pystr) (v : V) :
  dict_get d k = None -> dict_del (d ++ [(k, v)]) k = d.
Proof.
  induction d as [|[k' v'] d IH]; cbn [dict_get dict_del app].
  - now rewrite str_eqb_refl.
  - destruct (str_eqb k' k); [discriminate|]. intros H. now rewrite IH.
Qed.

Lemma dict_get_del_eq {V : Type} (d : dict V) (k : pystr) :
  NoDup (dict_keys d) -> dict_get (dict_del d k) k = None.
Proof.
  unfold dict_keys. induction d as [|[k' v'] d IH]; cbn [dict_del dict_get map fst];
    [reflexivity|].
  intros Hnd. apply NoDup_cons in Hnd as [Hk' Hnd].
  destruct (str_eqb k' k) eqn:Ek.
  - apply str_eqb_eq in Ek. subst k'. apply dict_get_None_keys.
    intros Hin. apply Hk'. now apply list_elem_of_In.
  - cbn [dict_get]. rewrite Ek. now apply IH.
Qed.

Section WithCollaborators.
Context {E : Engine} {B : Base64}.

Lemma is_website_code_visible (w : world) (c : pystr) :
  is_website_code (PyStr c) w = (Return (str_in c (visible_codes w)), w).
Proof. reflexivity. Qed.

Lemma visible_site (w : world) (c : pystr) :
  str_in c (visible_codes w) = true <-> exists info, site_at w c info.
Proof.
  unfold visible_codes, site_at. rewrite str_in_In, filter_In, negb_true_iff. split.
  - intros [Hin Hpv]. apply dict_keys_get in Hin as [info Hget]. now exists info.
  - intros (info & Hget & Hpv). split; [eapply dict_get_keys, Hget | exact Hpv].
Qed.

Lemma visible_absent (w : world) (c : pystr) :
  dict_get (userdict w) c = None -> str_in c (visible_codes w) = false.
Proof.
  intros H. destruct (str_in c (visible_codes w)) eqn:Hv; [|reflexivity].
  apply visible_site in Hv as (info & Hget & _). congruence.
Qed.

Lemma set_website_name_at (w : world) (c n : pystr) (info : website_info) :
  site_at w c info ->
  set_website_name (PyStr c) (PyStr n) w
  = (Return tt,
     set_userdict (dict_set (userdict w) c (WebsiteInfo n (encrypted info) (data info))) w).
Proof.
  intros H. unfold set_website_name.
  erewrite bind_return by (eapply is_website_code_at; exact H). cbn [negb].
  erewrite bind_return by (eapply getitem_at; exact H). reflexivity.
Qed.

Lemma get_website_name_at (w : world) (c : pystr) (info : website_info) :
  site_at w c info -> get_website_name (PyStr c) w = (Return (name info), w).
Proof.
  intros H. unfold get_website_name.
  erewrite bind_return by (eapply is_website_code_at; exact H). cbn [negb].
  erewrite bind_return by (eapply getitem_at; exact H). reflexivity.
Qed.

Lemma get_website_data_number_at (w : world) (c : pystr) (info : website_info) :
  site_at w c info ->
  get_website_data_number (PyStr c) w = (Return (length (data info)), w).
Proof.
  intros H. unfold get_website_data_number.
  erewrite bind_return by (eapply is_website_code_at; exact H). cbn [negb].
  erewrite bind_return by (eapply getitem_at; exact H). reflexivity.
Qed.

Lemma site_at_set (w : world) (c : pystr) (info : website_info) :
  str_in c (private_website_code w) = false ->
  site_at (set_userdict (dict_set (userdict w) c info) w) c info.
Proof. intros H. split; [apply dict_get_set_eq | exact H]. Qed.

(** [add_website] with a code that is not listed. *)
Lemma add_website_run (w : world) (c n : pystr) :
  str_in c (visible_codes w) = false -> str_in c (private_website_code w) = false ->
  add_website (PyStr c) (PyStr n) w
  = (Return tt, set_userdict (dict_set (userdict w) c (WebsiteInfo n false [])) w).
Proof.
  intros Hv Hpv. unfold add_website. rewrite (bind_return _ _ _ _ _ (is_website_code_visible w c)).
  rewrite Hv. unfold bind at 1. unfold setitem, modify.
  rewrite (set_website_name_at _ c n (WebsiteInfo (str "") false []))
    by (apply site_at_set; exact Hpv).
  unfold set_userdict. cbn [userdict private_website_code heap files dirs entropy drawn trace
                             encrypted data].
  now rewrite dict_set_set.
Qed.

Lemma remove_website_at (w : world) (c : pystr) (info : website_info) :
  site_at w c info ->
  remove_website (PyStr c) w = (Return tt, set_userdict (dict_del (userdict w) c) w).
Proof.
  intros H. unfold remove_website.
  erewrite bind_return by (eapply is_website_code_at; exact H). reflexivity.
Qed.

Lemma set_userdict_same (w : world) : set_userdict (userdict w) w = w.
Proof. now destruct w. Qed.

(** How the guards of the methods end. *)
Lemma is_website_code_cases (c : pyobj) (w : world) :
  is_website_code c w = (Raise TypeError, w)
  \/ exists s, c = PyStr s /\ is_website_code c w = (Return (str_in s (visible_codes w)), w).
Proof. destruct c; try (now left). right. eexists. split; reflexivity. Qed.

Lemma guard_cases (c : pyobj) (w : world) :
  is_website_code c w = (Raise TypeError, w)
  \/ (exists s, c = PyStr s /\ is_website_code c w = (Return false, w))
  \/ (exists s info, c = PyStr s /\ site_at w s info
                     /\ is_website_code c w = (Return true, w)
                     /\ getitem c w = (Return info, w)).
Proof.
  destruct (is_website_code_cases c w) as [H | (s & -> & H)]; [now left|]. right.
  destruct (str_in s (visible_codes w)) eqn:Hv.
  - right. apply visible_site in Hv as (info & Hsite).
    exists s, info. split; [reflexivity|]. split; [exact Hsite|].
    split; [exact H | now apply getitem_at].
  - left. exists s. split; [reflexivity | exact H].
Qed.

Lemma is_encrypted_cases (c : pyobj) (w : world) :
  (exists e, is_encrypted_website_data c w = (Raise e, w))
  \/ (exists s info, c = PyStr s /\ site_at w s info
                     /\ is_encrypted_website_data c w = (Return (encrypted info), w)).
Proof.
  unfold is_encrypted_website_data.
  destruct (guard_cases c w) as [H | [(s & -> & H) | (s & info & -> & Hsite & H & Hget)]].
  - left. exists TypeError. now rewrite (bind_raise _ _ _ _ _ H).
  - left. exists ValueError. now rewrite (bind_return _ _ _ _ _ H).
  - right. exists s, info. split; [reflexivity|]. split; [exact Hsite|].
    rewrite (bind_return _ _ _ _ _ H). cbn [negb]. now rewrite (bind_return _ _ _ _ _ Hget).
Qed.

Lemma same_store_refl (w : world) : same_store w w.
Proof. now split. Qed.

Lemma same_store_trans (w1 w2 w3 : world) :
  same_store w1 w2 -> same_store w2 w3 -> same_store w1 w3.
Proof. intros [H1 H2] [H3 H4]. split; congruence. Qed.

Lemma same_store_draw : preserves same_store draw.
Proof. intros w r w' [= <- <-]. now split. Qed.

Lemma same_store_log (e : event) : preserves same_store (modify (log e)).
Proof. intros w r w' [= <- <-]. now split. Qed.

Lemma same_store_random_code (n : nat) : preserves same_store (random_code n).
Proof.
  induction n as [|n IH]; cbn [random_code].
  - apply preserves_ret, same_store_refl.
  - apply preserves_bind; [exact same_store_trans | |].
    + unfold random_choice. apply preserves_bind; [exact same_store_trans | |].
      * exact same_store_draw.
      * intros r. apply preserves_ret, same_store_refl.
    + intros c. apply preserves_bind; [exact same_store_trans | exact IH |].
      intros s. apply preserves_ret, same_store_refl.
Qed.

Lemma same_store_generate_loop (fuel : nat) (codes : list pystr) (c : pystr) :
  preserves same_store (generate_loop fuel codes c).
Proof.
  revert c. induction fuel as [|fuel IH]; intros c; cbn [generate_loop];
    (apply preserves_bind; [exact same_store_trans | |]);
    try (apply preserves_gets, same_store_refl);
    intros pv; destruct (_ || _); try (apply preserves_ret, same_store_refl).
  apply preserves_bind; [exact same_store_trans | apply same_store_random_code |].
  intros c'. apply IH.
Qed.

Lemma same_store_generate (fuel : nat) : preserves same_store (generate_website_code fuel).
Proof.
  unfold generate_website_code.
  apply preserves_bind; [exact same_store_trans | apply same_store_random_code |].
  intros c. apply preserves_bind; [exact same_store_trans | |].
  - apply (preserves_listing _ same_store_refl same_store_trans).
  - intros codes. apply same_store_generate_loop.
Qed.

Lemma same_store_encrypt_loop (k : loc) (items : list datum) :
  preserves same_store (encrypt_loop k items).
Proof.
  apply (preserves_encrypt_loop _ same_store_refl same_store_trans same_store_draw).
  intros e _. apply same_store_log.
Qed.

(** [delete_bytearray] does not raise. *)
Lemma delete_bytearray_no_raise (l : loc) (w w' : world) (e : exn) :
  delete_bytearray l w <> (Raise e, w').
Proof.
  unfold delete_bytearray, bind, read_buffer, modify. destruct (heap w !! l); discriminate.
Qed.

End WithCollaborators.
End StoreFacts.
(** ** Properties of the store methods *)

Import StoreFacts.

(** X1.  [add_website] with a code that is neither in the store nor reserved,
    and a name, adds the site after the sites of the store, with that name,
    the encrypted flag false and no data, and changes nothing else; the code
    is then listed, after the codes that were. *)
Theorem add_website_registers {E : Engine} {B : Base64} (w : world) (c n : pystr) :
  dict_get (userdict w) c = None -> str_in c (private_website_code w) = false ->
  exists w',
    add_website (PyStr c) (PyStr n) w = (Return tt, w')
    /\ w' = set_userdict (userdict w ++ [(c, WebsiteInfo n false [])]) w
    /\ listing_website_codes w' = (Return (visible_codes w ++ [c]), w')
    /\ get_website_name (PyStr c) w' = (Return n, w')
    /\ is_encrypted_website_data (PyStr c) w' = (Return false, w')
    /\ get_website_data (PyStr c) PyNone w' = (Return [], w').
Proof.
  intros Hget Hpv. eexists. split; [apply add_website_run; [now apply visible_absent | exact Hpv]|].
  rewrite (dict_set_absent _ _ _ Hget).
  set (w' := set_userdict _ w).
  assert (Hsite : site_at w' c (WebsiteInfo n false [])).
  { subst w'. rewrite <- (dict_set_absent _ _ _ Hget). now apply site_at_set. }
  split; [reflexivity|]. split.
  - unfold listing_website_codes, bind, gets, ret. do 2 f_equal.
    subst w'. unfold visible_codes, dict_keys, set_userdict. cbn [userdict private_website_code].
    rewrite map_app, List.filter_app. cbn [map fst List.filter]. now rewrite Hpv.
  - split; [exact (get_website_name_at w' c _ Hsite)|].
    split; [exact (is_encrypted_at w' c _ Hsite)|].
    exact (get_website_data_plain w' c _ PyNone Hsite eq_refl).
Qed.

(** X1, witness: the code ["c"] is new to the example store. *)
Lemma add_website_registers_witness :
  exists w',
    add_website (PyStr (str "c")) (PyStr (str "mail")) example_world = (Return tt, w')
    /\ listing_website_codes w' = (Return [str "a"; str "b"; str "c"], w').
Proof.
  destruct (add_website_registers example_world (str "c") (str "mail") eq_refl eq_refl)
    as (w' & Hrun & _ & Hlist & _).
  exists w'. split; [exact Hrun | exact Hlist].
Defined.

(** X2.  [add_website] with a new code and a name that is no string raises
    [TypeError] from [set_website_name], after the entry was created: the
    site stays in the store, with the empty name. *)
Theorem add_website_bad_name_leaves_entry (w : world) (c : pystr) (website_name : pyobj) :
  dict_get (userdict w) c = None -> str_in c (private_website_code w) = false ->
  (forall n, website_name <> PyStr n) ->
  add_website (PyStr c) website_name w
  = (Raise TypeError, set_userdict (userdict w ++ [(c, WebsiteInfo (str "") false [])]) w).
Proof.
  intros Hget Hpv Hname. unfold add_website.
  rewrite (bind_return _ _ _ _ _ (is_website_code_visible w c)).
  rewrite (visible_absent w c Hget). unfold bind at 1. unfold setitem, modify.
  unfold set_website_name.
  erewrite bind_return
    by (eapply is_website_code_at, (site_at_set w c (WebsiteInfo (str "") false [])), Hpv).
  cbn [negb]. rewrite (dict_set_absent _ _ _ Hget).
  destruct website_name; try reflexivity. now destruct (Hname s).
Qed.

(** X2, witness: the name [None]. *)
Lemma add_website_bad_name_leaves_entry_witness :
  exists w',
    add_website (PyStr (str "c")) PyNone example_world = (Raise TypeError, w')
    /\ is_website_code (PyStr (str "c")) w' = (Return true, w').
Proof.
  eexists. split.
  - apply (add_website_bad_name_leaves_entry example_world (str "c") PyNone eq_refl eq_refl).
    discriminate.
  - reflexivity.
Defined.

(** X3.  [remove_website] on a listed site deletes its entry and nothing
    else: the code is no longer listed, and every other entry is as it was. *)
Theorem remove_website_removes (w : world) (c : pystr) (info : website_info) :
  site_at w c info -> NoDup (dict_keys (userdict w)) ->
  exists w',
    remove_website (PyStr c) w = (Return tt, w')
    /\ w' = set_userdict (dict_del (userdict w) c) w
    /\ is_website_code (PyStr c) w' = (Return false, w')
    /\ remove_website (PyStr c) w' = (Raise ValueError, w')
    /\ forall c', c' <> c -> dict_get (userdict w') c' = dict_get (userdict w) c'.
Proof.
  intros Hsite Hnd. eexists. split; [eapply remove_website_at, Hsite|].
  set (w' := set_userdict _ w).
  assert (Hgone : str_in c (visible_codes w') = false).
  { apply visible_absent. subst w'. unfold set_userdict. cbn [userdict].
    now apply dict_get_del_eq. }
  split; [reflexivity|]. split; [rewrite is_website_code_visible; now rewrite Hgone|].
  split.
  - unfold remove_website. rewrite (bind_return _ _ _ _ _ (is_website_code_visible w' c)).
    now rewrite Hgone.
  - intros c' Hne. subst w'. unfold set_userdict. cbn [userdict].
    apply dict_get_del_ne. congruence.
Qed.

Lemma example_store_nodup : NoDup (dict_keys (userdict example_world)).
Proof. apply (bool_decide_unpack _). vm_compute. exact I. Qed.

(** X3, witness: site ["a"] of the example store. *)
Lemma remove_website_removes_witness :
  exists w',
    remove_website (PyStr (str "a")) example_world = (Return tt, w')
    /\ listing_website_codes w' = (Return [str "b"], w').
Proof.
  destruct (remove_website_removes example_world (str "a")
              (WebsiteInfo (str "shop") false [Datum KTuple (str "login") (str "bob")])
              (conj eq_refl eq_refl) example_store_nodup) as (w' & Hrun & -> & _).
  eexists. split; [exact Hrun | reflexivity].
Defined.

(** X4.  [remove_website] undoes [add_website]: adding a new code and then
    removing it leaves the world as it was. *)
Theorem remove_website_undoes_add (w : world) (c n : pystr) :
  dict_get (userdict w) c = None -> str_in c (private_website_code w) = false ->
  exists w1,
    add_website (PyStr c) (PyStr n) w = (Return tt, w1)
    /\ remove_website (PyStr c) w1 = (Return tt, w).
Proof.
  intros Hget Hpv. eexists. split; [apply add_website_run; [now apply visible_absent | exact Hpv]|].
  erewrite remove_website_at by (apply site_at_set; exact Hpv).
  unfold set_userdict. cbn [userdict private_website_code heap files dirs entropy drawn trace].
  rewrite (dict_set_absent _ _ _ Hget), (dict_del_last _ _ _ Hget). now destruct w.
Qed.

(** X4, witness: the code ["c"] and the example store. *)
Lemma remove_website_undoes_add_witness :
  exists w1,
    add_website (PyStr (str "c")) (PyStr (str "mail")) example_world = (Return tt, w1)
    /\ remove_website (PyStr (str "c")) w1 = (Return tt, example_world).
Proof.
  exact (remove_website_undoes_add example_world (str "c") (str "mail") eq_refl eq_refl).
Defined.

(** X5.  [set_website_name] then [get_website_name] returns the name set;
    the flag and the data of the site, the order of the store and every
    other entry stay as they were. *)
Theorem website_name_round_trip (w : world) (c n : pystr) (info : website_info) :
  site_at w c info ->
  exists w',
    set_website_name (PyStr c) (PyStr n) w = (Return tt, w')
    /\ get_website_name (PyStr c) w' = (Return n, w')
    /\ site_at w' c (WebsiteInfo n (encrypted info) (data info))
    /\ dict_keys (userdict w') = dict_keys (userdict w)
    /\ (forall c', c' <> c -> dict_get (userdict w') c' = dict_get (userdict w) c')
    /\ w' = set_userdict (userdict w') w.
Proof.
  intros Hsite. eexists. split; [eapply set_website_name_at, Hsite|].
  set (w' := set_userdict _ w).
  assert (Hsite' : site_at w' c (WebsiteInfo n (encrypted info) (data info)))
    by (apply site_at_set; apply Hsite).
  split; [exact (get_website_name_at w' c _ Hsite')|]. split; [exact Hsite'|].
  split; [eapply dict_keys_set, Hsite|].
  split; [|reflexivity].
  intros c' Hne. subst w'. unfold set_userdict. cbn [userdict].
  apply dict_get_set_ne. congruence.
Qed.

(** X5, witness: site ["a"] of the example store is renamed. *)
Lemma website_name_round_trip_witness :
  exists w',
    set_website_name (PyStr (str "a")) (PyStr (str "store")) example_world = (Return tt, w')
    /\ get_website_name (PyStr (str "a")) w' = (Return (str "store"), w').
Proof.
  destruct (website_name_round_trip example_world (str "a") (str "store")
              (WebsiteInfo (str "shop") false [Datum KTuple (str "login") (str "bob")])
              (conj eq_refl eq_refl)) as (w' & Hset & Hget & _).
  exists w'. split; [exact Hset | exact Hget].
Defined.

(** X6.  On a site that is not flagged encrypted, [set_website_data] stores
    the tuples it is given as they are, returns [None] and touches nothing
    but the entry (no buffer, no engine call, whatever it is given as a key);
    [get_website_data] then returns these tuples and
    [get_website_data_number] their number. *)
Theorem plain_data_round_trip {E : Engine} {B : Base64}
    (w : world) (c : pystr) (info : website_info) (D : list (pystr * pystr))
    (user_key user_key' : pyobj) :
  site_at w c info -> encrypted info = false ->
  exists w',
    set_website_data (PyStr c) (py_data D) user_key w = (Return None, w')
    /\ w' = set_userdict (dict_set (userdict w) c (WebsiteInfo (name info) false (tuples D))) w
    /\ get_website_data (PyStr c) user_key' w' = (Return (tuples D), w')
    /\ get_website_data_number (PyStr c) w' = (Return (length D), w').
Proof.
  intros Hsite Henc. eexists. split.
  - unfold set_website_data, py_data. rewrite traverse_as_datum.
    erewrite bind_return by (eapply is_encrypted_at; exact Hsite).
    rewrite Henc. cbn [negb].
    erewrite bind_return by (eapply getitem_at; exact Hsite).
    rewrite Henc. reflexivity.
  - set (w' := set_userdict _ w).
    assert (Hsite' : site_at w' c (WebsiteInfo (name info) false (tuples D)))
      by (apply site_at_set; apply Hsite).
    split; [reflexivity|].
    split; [exact (get_website_data_plain w' c _ user_key' Hsite' eq_refl)|].
    rewrite (get_website_data_number_at w' c _ Hsite'). cbn [data].
    unfold tuples. now rewrite length_map.
Qed.

(** X6, witness: two tuples on the plain site ["a"], no key. *)
Lemma plain_data_round_trip_witness :
  exists w',
    set_website_data (PyStr (str "a")) (py_data [(str "login", str "eve"); (str "pin", str "7")])
      PyNone example_world = (Return None, w')
    /\ get_website_data (PyStr (str "a")) PyNone w'
       = (Return (tuples [(str "login", str "eve"); (str "pin", str "7")]), w').
Proof.
  destruct (plain_data_round_trip example_world (str "a")
              (WebsiteInfo (str "shop") false [Datum KTuple (str "login") (str "bob")])
              [(str "login", str "eve"); (str "pin", str "7")] PyNone PyNone
              (conj eq_refl eq_refl) eq_refl) as (w' & Hset & _ & Hget & _).
  exists w'. split; [exact Hset | exact Hget].
Defined.

Lemma as_datum_None (x : pyobj) : as_datum x = None <-> ~ is_pair_of_str x.
Proof.
  split.
  - intros H (t & v & ->). discriminate.
  - intros H. destruct (as_datum x) eqn:Hx; [|reflexivity]. exfalso. apply H.
    unfold as_datum in Hx.
    destruct x as [| | | | | | |[|[| | |t| | | |] [|[| | |v| | | |] [|]]]]; try discriminate.
    now exists t, v.
Qed.

Lemma traverse_None {A C : Type} (f : A -> option C) (l : list A) :
  Exists (fun x => f x = None) l -> traverse f l = None.
Proof.
  induction 1 as [x l Hx | x l _ IH]; cbn [traverse].
  - now rewrite Hx.
  - rewrite IH. now destruct (f x).
Qed.

(** X7.  [set_website_data] checks the shape of the data before it looks at
    the site or the key: data that is no list raises [TypeError], a list with
    an element that is not a tuple of two strings raises [ValueError], for
    every code (in the store or not, a string or not) and every key, and
    nothing changes. *)
Theorem set_website_data_checks_shape_first {E : Engine} {B : Base64}
    (w : world) (website_code website_data user_key : pyobj) :
  ((forall items, website_data <> PyList items) ->
   set_website_data website_code website_data user_key w = (Raise TypeError, w))
  /\ (forall items,
        website_data = PyList items -> Exists (fun x => ~ is_pair_of_str x) items ->
        set_website_data website_code website_data user_key w = (Raise ValueError, w)).
Proof.
  split.
  - intros H. destruct website_data; try reflexivity. now destruct (H items).
  - intros items -> Hbad. unfold set_website_data.
    rewrite traverse_None; [reflexivity|].
    eapply Exists_impl; [exact Hbad|]. intros x Hx. now apply as_datum_None.
Qed.

Lemma same_store_dropped {A : Type} (m : M A) :
  preserves same_store m -> preserves same_store (m ;;; ret tt).
Proof.
  intros H. apply preserves_bind; [exact same_store_trans | exact H |].
  intros _. apply preserves_ret, same_store_refl.
Qed.

Lemma same_store_read_only {E : Engine} {B : Base64} (c : call) :
  match c with
  | CallListing | CallIsWebsiteCode _ | CallGenerate _ | CallGetName _ | CallDataNumber _
  | CallIsEncrypted _ | CallSetEncryption _ => preserves same_store (run c)
  | _ => True
  end.
Proof.
  pose proof same_store_refl as Hr. pose proof same_store_trans as Ht.
  destruct c; try exact I; cbn [run]; try apply same_store_dropped.
  - now apply preserves_listing.
  - now apply preserves_is_website_code.
  - apply same_store_generate.
  - unfold get_website_name. apply preserves_bind; [exact Ht | now apply preserves_is_website_code |].
    intros ok. destruct (negb ok); [now apply preserves_raise|].
    apply preserves_bind; [exact Ht | now apply preserves_getitem |].
    intros info. now apply preserves_ret.
  - unfold get_website_data_number.
    apply preserves_bind; [exact Ht | now apply preserves_is_website_code |].
    intros ok. destruct (negb ok); [now apply preserves_raise|].
    apply preserves_bind; [exact Ht | now apply preserves_getitem |].
    intros info. now apply preserves_ret.
  - now apply preserves_is_encrypted.
  - unfold set_website_data_encryption. destruct args as [|a [|b args]]; now apply preserves_raise.
Qed.

(** X9.  A code that is not listed (it is not in the store, or it is
    reserved) is refused with [ValueError] by every method that works on a
    site, and a code that is no string with [TypeError]; the world is left
    as it was.  [set_website_data] does so when its data is a list of
    2-tuples of strings; given any other data it raises what its check of the
    data raises, the world left as it was all the same. *)
Theorem unlisted_code_is_refused {E : Engine} {B : Base64} (w : world) (code : pyobj) :
  (forall c, code = PyStr c -> str_in c (visible_codes w) = false -> refuses code w ValueError)
  /\ ((forall c, code <> PyStr c) -> refuses code w TypeError).
Proof.
  assert (forall e, is_website_code code w = (Raise e, w)
                    \/ (e = ValueError /\ is_website_code code w = (Return false, w)) ->
          refuses code w e) as Hall.
  { intros e Hguard. unfold refuses.
    assert (forall (A : Type) (k : bool -> M A),
               k false w = (Raise ValueError, w) ->
               bind (is_website_code code) k w = (Raise e, w)) as Hk.
    { intros A k Hkf. destruct Hguard as [H | [-> H]].
      - apply (bind_raise _ _ _ _ _ H).
      - now rewrite (bind_return _ _ _ _ _ H). }
    assert (is_encrypted_website_data code w = (Raise e, w)) as Henc
      by (apply Hk; reflexivity).
    split; [apply Hk; reflexivity|].
    split; [intros website_name; apply Hk; reflexivity|].
    split; [apply Hk; reflexivity|].
    split; [exact Henc|].
    split; [intros user_key; unfold get_website_data; apply (bind_raise _ _ _ _ _ Henc)|].
    split; [|apply Hk; reflexivity].
    intros website_data user_key. unfold set_website_data.
    destruct website_data as [| | | | | |items|];
      try (exists TypeError; split; [reflexivity | intros D HD; discriminate HD]).
    destruct (traverse as_datum items) as [news|] eqn:Hshape.
    - exists e. split; [apply (bind_raise _ _ _ _ _ Henc) | reflexivity].
    - exists ValueError. split; [reflexivity|]. intros D HD. injection HD as ->.
      rewrite traverse_as_datum in Hshape. discriminate Hshape. }
  split.
  - intros c -> Hv. apply Hall. right. split; [reflexivity|].
    rewrite is_website_code_visible. now rewrite Hv.
  - intros Hns. apply Hall. left.
    destruct code; try reflexivity. now destruct (Hns s).
Qed.

(** X10.  On a site flagged encrypted, [get_website_data] and
    [set_website_data] called without a key, or with a key that is no
    [bytearray], raise [TypeError] before anything is decrypted or encrypted,
    and the world is left as it was. *)
Theorem key_is_required {E : Engine} {B : Base64}
    (w : world) (c : pystr) (info : website_info) (user_key : pyobj)
    (D : list (pystr * pystr)) :
  site_at w c info -> encrypted info = true ->
  (forall k, user_key <> PyBytearray k) ->
  get_website_data (PyStr c) user_key w = (Raise TypeError, w)
  /\ set_website_data (PyStr c) (py_data D) user_key w = (Raise TypeError, w).
Proof.
  intros Hsite Henc Hkey. split.
  - unfold get_website_data.
    erewrite bind_return by (eapply is_encrypted_at; exact Hsite). rewrite Henc. cbn [negb].
    destruct user_key; try reflexivity. now destruct (Hkey l).
  - unfold set_website_data, py_data. rewrite traverse_as_datum.
    erewrite bind_return by (eapply is_encrypted_at; exact Hsite). rewrite Henc. cbn [negb].
    destruct user_key; try reflexivity. now destruct (Hkey l).
Qed.

(** X10, witness: the encrypted site ["b"], and [bytes] where a [bytearray]
    is needed. *)
Lemma key_is_required_witness :
  get_website_data (PyStr (str "b")) (PyBytes [1; 2; 3]) example_world
  = (Raise TypeError, example_world)
  /\ set_website_data (PyStr (str "b")) (py_data [(str "login", str "bob")]) (PyBytes [1; 2; 3])
       example_world
     = (Raise TypeError, example_world).
Proof.
  apply (key_is_required example_world (str "b") (WebsiteInfo (str "bank") true [])
           (PyBytes [1; 2; 3]) [(str "login", str "bob")] (conj eq_refl eq_refl) eq_refl).
  discriminate.
Defined.

(** X11.  [dump] returns for every store: it puts the document into a new
    [bytearray], changes nothing else, and the buffer holds ASCII octets only
    (none when the store is empty, the JSON text otherwise), whatever
    characters the names and values are made of. *)
Theorem dump_returns_ascii (w : world) :
  exists l content,
    dump w = (Return (PyBytearray l), set_heap (<[l := content]> (heap w)) w)
    /\ heap w !! l = None
    /\ Forall (fun b => b < 0x80) content
    /\ (userdict w = [] -> content = [])
    /\ (userdict w <> [] -> content = dumps (json_of_userdict (userdict w))).
Proof.
  exists (fresh (dom (heap w))).
  unfold dump, bind, gets. destruct (userdict w) as [|ki d] eqn:Hd.
  - exists []. cbn. split; [reflexivity|].
    split; [apply not_elem_of_dom, is_fresh|]. split; [constructor|]. split; congruence.
  - exists (dumps (json_of_userdict (ki :: d))).
    cbn [dict_keys map length Nat.eqb].
    rewrite (Utf8Facts.encode_ascii _ (dumps_ascii _)).
    split; [reflexivity|].
    split; [apply not_elem_of_dom, is_fresh|]. split; [apply dumps_ascii|]. split; congruence.
Qed.

(** X12.  [load] that does not return leaves the world as it was, the store
    included; it raises [TypeError] for anything but a [bytearray] and
    [UnicodeDecodeError] for a buffer that holds octets that are no UTF-8
    text.  [load] that returns has changed the store and nothing else. *)
Theorem load_failure_keeps_world (data : pyobj) (w w' : world) (r : outcome unit) :
  load data w = (r, w') ->
  match r with
  | Return _ => w' = set_userdict (userdict w') w
  | _ => w' = w
  end
  /\ ((forall l, data <> PyBytearray l) -> r = Raise TypeError)
  /\ (forall l (content : bytes),
        data = PyBytearray l -> heap w !! l = Some content -> content <> [] ->
        Utf8.decode content = None -> r = Raise UnicodeDecodeError).
Proof.
  intros Hrun. split; [|split].
  - unfold load in Hrun. destruct data; try (injection Hrun as <- <-; reflexivity).
    unfold bind, read_buffer in Hrun.
    destruct (heap w !! l) as [content|]; [|injection Hrun as <- <-; reflexivity].
    destruct (_ =? _)%nat; [injection Hrun as <- <-; reflexivity|].
    unfold of_option in Hrun.
    destruct (Utf8.decode content) as [text|]; [|injection Hrun as <- <-; reflexivity].
    cbn [ret] in Hrun.
    destruct (loads text) as [v | | |]; try (injection Hrun as <- <-; reflexivity).
    destruct (userdict_of_json v); injection Hrun as <- <-; reflexivity.
  - intros Hn. unfold load in Hrun.
    destruct data; try (now injection Hrun as <- _). now destruct (Hn l).
  - intros l content -> Hl Hne Hdec. unfold load, bind, read_buffer in Hrun.
    rewrite Hl in Hrun. destruct content; [congruence|].
    cbn [length Nat.eqb] in Hrun. rewrite Hdec in Hrun. now injection Hrun as <- _.
Qed.

(** X12, witness: buffer 3 of the example world holds one continuation
    octet, which is no UTF-8 text. *)
Lemma load_failure_keeps_world_witness :
  load (PyBytearray 3%positive) (set_heap (<[3%positive := [0x80]]> (heap example_world)) example_world)
  = (Raise UnicodeDecodeError,
     set_heap (<[3%positive := [0x80]]> (heap example_world)) example_world).
Proof.
  set (w := set_heap _ example_world).
  destruct (load (PyBytearray 3%positive) w) as [r w'] eqn:Hrun.
  destruct (load_failure_keeps_world _ _ _ _ Hrun) as (Hw & _ & Hdec).
  rewrite (Hdec 3%positive ([0x80] : bytes) eq_refl eq_refl ltac:(discriminate) eq_refl) in Hw |- *.
  now rewrite Hw.
Defined.

Lemma plain_get (w : world) (c : pystr) (info : website_info) :
  plain_store w -> dict_get (userdict w) c = Some info -> encrypted info = false.
Proof.
  unfold plain_store. induction (userdict w) as [|[k i] d IH]; cbn [dict_get]; [discriminate|].
  intros Hall. apply Forall_cons in Hall as [Hi Hall].
  destruct (str_eqb k c); [now intros [= <-] | now apply IH].
Qed.

Lemma plain_set (w : world) (c : pystr) (info : website_info) :
  plain_store w -> encrypted info = false ->
  plain_store (set_userdict (dict_set (userdict w) c info) w).
Proof.
  unfold plain_store, set_userdict. cbn [userdict].
  induction (userdict w) as [|[k i] d IH]; cbn [dict_set]; intros Hall Hi.
  - now repeat constructor.
  - apply Forall_cons in Hall as [Hk Hall].
    destruct (str_eqb k c); constructor; auto.
Qed.

Lemma plain_del (w : world) (c : pystr) :
  plain_store w -> plain_store (set_userdict (dict_del (userdict w) c) w).
Proof.
  unfold plain_store, set_userdict. cbn [userdict].
  induction (userdict w) as [|[k i] d IH]; cbn [dict_del]; intros Hall; [constructor|].
  apply Forall_cons in Hall as [Hk Hall].
  destruct (str_eqb k c); [exact Hall | constructor; auto].
Qed.

Lemma plain_same_store (w w' : world) : same_store w w' -> plain_store w -> plain_store w'.
Proof. unfold plain_store. now intros [-> _]. Qed.

Lemma plain_set_website_name (c n : pyobj) (w w' : world) (r : outcome unit) :
  plain_store w -> set_website_name c n w = (r, w') -> plain_store w'.
Proof.
  intros Hp Hrun. unfold set_website_name in Hrun.
  destruct (guard_cases c w) as [H | [(s & -> & H) | (s & info & -> & Hsite & H & Hitem)]].
  - rewrite (bind_raise _ _ _ _ _ H) in Hrun. now injection Hrun as <- <-.
  - rewrite (bind_return _ _ _ _ _ H) in Hrun. now injection Hrun as <- <-.
  - rewrite (bind_return _ _ _ _ _ H) in Hrun. cbn [negb] in Hrun.
    destruct n; try (now injection Hrun as <- <-).
    rewrite (bind_return _ _ _ _ _ Hitem) in Hrun. injection Hrun as <- <-.
    apply plain_set; [exact Hp|]. cbn [encrypted]. eapply plain_get; [exact Hp | apply Hsite].
Qed.

(** A call of a method keeps a store without encrypted sites without any. *)
Lemma plain_run {E : Engine} {B : Base64} (c : call) (w w' : world) (r : outcome unit) :
  plain_store w -> run c w = (r, w') -> plain_store w'.
Proof.
  intros Hp Hrun. pose proof (same_store_read_only c) as Hro.
  destruct c; try (exact (plain_same_store _ _ (Hro _ _ _ Hrun) Hp)); clear Hro;
    cbn [run] in Hrun.
  - (* dump *)
    unfold dump, bind, gets, of_option, alloc, ret in Hrun.
    destruct (_ =? _)%nat; destruct (Utf8.encode _); injection Hrun as <- <-; exact Hp.
  - (* set_website_name *)
    eapply plain_set_website_name; eassumption.
  - (* get_website_data *)
    unfold get_website_data in Hrun. rewrite bind_assoc in Hrun.
    destruct (is_encrypted_cases website_code w) as [(e0 & H) | (s & info & -> & Hsite & H)].
    + rewrite (bind_raise _ _ _ _ _ H) in Hrun. now injection Hrun as <- <-.
    + rewrite (bind_return _ _ _ _ _ H) in Hrun.
      rewrite (plain_get w s info Hp (proj1 Hsite)) in Hrun. cbn [negb] in Hrun.
      rewrite bind_assoc, (bind_return _ _ _ _ _ (getitem_at w s info Hsite)) in Hrun.
      now injection Hrun as <- <-.
  - (* set_website_data *)
    unfold set_website_data in Hrun.
    destruct website_data as [| | | | | |items|]; try (now injection Hrun as <- <-).
    destruct (traverse as_datum items) as [news|]; [|now injection Hrun as <- <-].
    rewrite bind_assoc in Hrun.
    destruct (is_encrypted_cases website_code w) as [(e0 & H) | (s & info & -> & Hsite & H)].
    + rewrite (bind_raise _ _ _ _ _ H) in Hrun. now injection Hrun as <- <-.
    + rewrite (bind_return _ _ _ _ _ H) in Hrun.
      rewrite (plain_get w s info Hp (proj1 Hsite)) in Hrun. cbn [negb] in Hrun.
      rewrite bind_assoc, (bind_return _ _ _ _ _ (getitem_at w s info Hsite)) in Hrun.
      injection Hrun as <- <-. apply plain_set; [exact Hp|].
      cbn [encrypted]. eapply plain_get; [exact Hp | apply Hsite].
  - (* remove_website *)
    unfold remove_website in Hrun.
    destruct (guard_cases website_code w)
      as [H | [(s & -> & H) | (s & info & -> & Hsite & H & Hitem)]].
    + rewrite (bind_raise _ _ _ _ _ H) in Hrun. now injection Hrun as <- <-.
    + rewrite (bind_return _ _ _ _ _ H) in Hrun. now injection Hrun as <- <-.
    + rewrite (bind_return _ _ _ _ _ H) in Hrun. injection Hrun as <- <-. now apply plain_del.
  - (* add_website *)
    unfold add_website in Hrun.
    destruct (is_website_code_cases website_code w) as [H | (s & -> & H)].
    + rewrite (bind_raise _ _ _ _ _ H) in Hrun. now injection Hrun as <- <-.
    + rewrite (bind_return _ _ _ _ _ H) in Hrun.
      destruct (str_in s (visible_codes w)); [now injection Hrun as <- <-|].
      unfold bind at 1 in Hrun. unfold setitem, modify in Hrun.
      eapply plain_set_website_name; [|exact Hrun]. now apply plain_set.
Qed.

(** X13.  No method but [load] makes a site encrypted: after any sequence of
    calls of the other methods, with any arguments and whether the calls
    return or raise, a store that had no site flagged encrypted has none.  (A
    new site is created with the flag false, and
    [set_website_data_encryption] cannot be called.) *)
Theorem store_stays_plain {E : Engine} {B : Base64} (calls : list call) (w w' : world) :
  plain_store w -> after_calls calls w = Some w' -> plain_store w'.
Proof.
  revert w. induction calls as [|c calls IH]; intros w Hp Hrun; cbn [after_calls] in Hrun.
  - now injection Hrun as <-.
  - destruct (run c w) as [[[] | e |] w1] eqn:Hc; try discriminate;
      (eapply IH; [eapply plain_run; [exact Hp | exact Hc] | exact Hrun]).
Qed.

(** X13, witness: from the empty store, a site is added, the flag "set"
    (the call raises), data stored with a key and read back. *)
Lemma store_stays_plain_witness :
  exists w',
    after_calls [CallAdd (PyStr (str "a")) (PyStr (str "shop"));
                 CallSetEncryption [PyStr (str "a"); PyBool true];
                 CallSetData (PyStr (str "a")) (py_data [(str "login", str "bob")])
                   (PyBytearray 1%positive);
                 CallGetData (PyStr (str "a")) (PyBytearray 1%positive)]
      (set_userdict [] example_world) = Some w'
    /\ userdict w' = [(str "a", WebsiteInfo (str "shop") false
                                  [Datum KTuple (str "login") (str "bob")])]
    /\ plain_store w'.
Proof.
  eexists. split; [vm_compute; reflexivity|]. split; [reflexivity|].
  apply (store_stays_plain
           [CallAdd (PyStr (str "a")) (PyStr (str "shop"));
            CallSetEncryption [PyStr (str "a"); PyBool true];
            CallSetData (PyStr (str "a")) (py_data [(str "login", str "bob")])
              (PyBytearray 1%positive);
            CallGetData (PyStr (str "a")) (PyBytearray 1%positive)]
           (set_userdict [] example_world)).
  - constructor.
  - vm_compute. reflexivity.
Defined.

(** X14.  A code that [generate_website_code] returns can be added:
    [add_website] with it returns and the site is in the store. *)
Theorem generated_code_can_be_added (w w' : world) (fuel : nat) (c n : pystr) :
  generate_website_code fuel w = (Return (Some c), w') ->
  exists w1,
    add_website (PyStr c) (PyStr n) w' = (Return tt, w1)
    /\ site_at w1 c (WebsiteInfo n false []).
Proof.
  intros Hrun. destruct w as [ud pv hp fl dr en dn tr].
  rewrite generate_website_code_start in Hrun.
  apply generate_loop_sound in Hrun as (j & -> & Ht & ->).
  apply taken_false in Ht as [Hk Hp]. cbn [userdict private_website_code] in Hk, Hp.
  set (c := candidate _ j) in *.
  set (w' := World ud pv hp fl dr en _ tr).
  assert (Hget : dict_get (userdict w') c = None) by now apply dict_get_None_keys.
  assert (Hpv : str_in c (private_website_code w') = false).
  { apply not_true_iff_false. intros H. now apply str_in_In in H. }
  eexists. split; [apply add_website_run; [now apply visible_absent | exact Hpv]|].
  now apply site_at_set.
Qed.

(** X14, witness: the code generated in [crowded_world] is added. *)
Lemma generated_code_can_be_added_witness :
  exists w' w1,
    generate_website_code 1 crowded_world = (Return (Some (str "klmnopqrst")), w')
    /\ add_website (PyStr (str "klmnopqrst")) (PyStr (str "mail")) w' = (Return tt, w1).
Proof.
  eexists.
  assert (generate_website_code 1 crowded_world
          = (Return (Some (str "klmnopqrst")),
             snd (generate_website_code 1 crowded_world))) as Hgen
    by (vm_compute; reflexivity).
  destruct (generated_code_can_be_added _ _ _ _ (str "mail") Hgen) as (w1 & Hadd & _).
  exists w1. split; [exact Hgen | exact Hadd].
Defined.
(** ** More of [filesmanager.py] *)

Module AccountFacts.
Import FilesManager FilesFacts.

Lemma name_char_newline : name_char 10 = false.
Proof. reflexivity. Qed.

Lemma match_name_spec (seen : bool) (a : pystr) :
  match_name seen a = true <->
  exists body tail,
    a = body ++ tail /\ Forall (fun c => name_char c = true) body
    /\ (tail = [] \/ tail = [10]) /\ (seen = true \/ body <> []).
Proof.
  revert seen. induction a as [|c r IH]; intros seen; cbn [match_name].
  - split.
    + intros ->. exists [], []. repeat split; auto.
    + intros (body & tail & Ha & _ & _ & [Hs | Hb]); [exact Hs|].
      symmetry in Ha. apply app_eq_nil in Ha as [-> _]. congruence.
  - destruct (name_char c) eqn:Hc.
    + rewrite IH. split.
      * intros (body & tail & -> & Hall & Ht & _).
        exists (c :: body), tail. repeat split; auto; try (right; discriminate).
      * intros (body & tail & Ha & Hall & Ht & _).
        destruct body as [|c' body].
        -- cbn [app] in Ha. destruct Ht as [-> | ->]; [discriminate|].
           injection Ha as -> _. rewrite name_char_newline in Hc. discriminate.
        -- injection Ha as <- ->. apply Forall_cons in Hall as [_ Hall].
           exists body, tail. repeat split; auto.
    + split.
      * intros H. apply andb_true_iff in H as [H Hr]. apply andb_true_iff in H as [-> H10].
        apply N.eqb_eq in H10. subst c. destruct r; [|discriminate].
        exists [], [10]. repeat split; auto.
      * intros (body & tail & Ha & Hall & Ht & Hs).
        destruct body as [|c' body].
        -- cbn [app] in Ha. destruct Ht as [-> | ->]; [discriminate|].
           injection Ha as -> ->. destruct Hs as [-> | Hs]; [reflexivity | congruence].
        -- injection Ha as <- _. apply Forall_cons in Hall as [Hc' _]. congruence.
Qed.


Lemma match_name_nonempty (a : pystr) : match_name false a = true -> a <> [].
Proof. now intros H ->. Qed.

Lemma name_char_plain (c : N) : name_char c = true -> c <> 47 /\ c <> 0 /\ c <> 46 /\ c <> 10.
Proof. intros H. repeat split; intros ->; discriminate. Qed.

(** A valid name is one path component. *)
Lemma valid_name_component (a : pystr) : match_name false a = true -> is_component a = true.
Proof.
  intros H. apply match_name_spec in H as (body & tail & -> & Hall & Ht & [Hs | Hb]);
    [discriminate|].
  assert (Hchars : Forall (fun c => c <> 47 /\ c <> 0) (body ++ tail)).
  { apply Forall_app. split.
    - eapply Forall_impl; [exact Hall|]. intros c Hc. apply name_char_plain in Hc. tauto.
    - destruct Ht as [-> | ->]; repeat constructor; discriminate. }
  assert (Hno : forall x, (forall c, (c <> 47 /\ c <> 0) -> N.eqb x c = false) ->
                          existsb (N.eqb x) (body ++ tail) = false).
  { intros x Hx. induction Hchars as [|c l Hc _ IH]; [reflexivity|].
    cbn [existsb]. now rewrite (Hx c Hc), IH. }
  unfold is_component.
  rewrite (Hno 47) by (intros c [H1 _]; apply N.eqb_neq; congruence).
  rewrite (Hno 0) by (intros c [_ H1]; apply N.eqb_neq; congruence).
  destruct body as [|c body]; [congruence|]. apply Forall_cons in Hall as [Hc _].
  apply name_char_plain in Hc as (_ & _ & H46 & _).
  cbn [app length Nat.eqb negb andb].
  assert (forall s, str_eqb (c :: body ++ tail) (46 :: s) = false) as Hdot.
  { intros s. cbn [str_eqb]. apply N.eqb_neq in H46. now rewrite H46. }
  change (str ".") with [46]. change (str "..") with [46; 46]. now rewrite !Hdot.
Qed.

Section WithModuleFile.
Variable module_file : path.

Lemma account_dir_at (a : pystr) (w : world) :
  account_dir module_file a w = (Return (account_path module_file a), w).
Proof. reflexivity. Qed.

Lemma is_valid_account_name_at (a : pystr) (w : world) :
  a <> [] -> is_valid_account_name (PyStr a) w = (Return (match_name false a), w).
Proof. intros H. unfold is_valid_account_name. destruct a; [congruence | reflexivity]. Qed.

Lemma exist_account_valid (a : pystr) (w : world) :
  match_name false a = true ->
  exist_account module_file (PyStr a) w
  = (Return (bool_decide (account_path module_file a ∈ dirs w)), w).
Proof.
  intros H. unfold exist_account.
  rewrite (bind_return _ _ _ _ _ (is_valid_account_name_at a w (match_name_nonempty a H))).
  rewrite H. reflexivity.
Qed.

Lemma exist_account_invalid (a : pystr) (w : world) :
  match_name false a = false ->
  exist_account module_file (PyStr a) w = (Raise ValueError, w).
Proof.
  intros H. unfold exist_account. destruct a as [|c a]; [reflexivity|].
  rewrite (bind_return _ _ _ _ _ (is_valid_account_name_at (c :: a) w ltac:(discriminate))).
  now rewrite H.
Qed.

Lemma get_account_path_present (a : pystr) (w : world) :
  account_present module_file w a ->
  get_account_path module_file (PyStr a) w = (Return (account_path module_file a), w).
Proof.
  intros [Hname Hdir]. unfold get_account_path.
  rewrite (bind_return _ _ _ _ _ (exist_account_valid a w Hname)).
  now rewrite (bool_decide_eq_true_2 _ Hdir).
Qed.

Lemma get_encryptedtext_filepath_present (a : pystr) (w : world) :
  account_present module_file w a ->
  get_encryptedtext_filepath module_file (PyStr a) w = (Return (blob_path module_file a), w).
Proof.
  intros H. unfold get_encryptedtext_filepath.
  now rewrite (bind_return _ _ _ _ _ (get_account_path_present a w H)).
Qed.

End WithModuleFile.

Section Vault.
Context {E : Engine}.
Variable module_file : path.

(** [write_file] into an existing directory. *)
Lemma write_file_at ud pv hp fl dr en dn tr (p : path) (content : bytes) :
  removelast p ∈ dr -> p ∉ dr ->
  write_file p content (World ud pv hp fl dr en dn tr)
  = (Return tt, World ud pv hp (<[p := content]> fl) dr en dn (tr ++ [EvWrite p content])).
Proof.
  intros Hparent Hp. unfold write_file. wsimpl. destruct (fl !! p); [reflexivity|].
  now rewrite (bool_decide_eq_true_2 _ Hparent), (bool_decide_eq_false_2 _ Hp).
Qed.

Lemma removelast_snoc {A : Type} (l : list A) (x : A) : removelast (l ++ [x]) = l.
Proof. apply removelast_last. Qed.

(** [dumps_encryptedtext] when the engine reports no error. *)
Lemma dumps_encryptedtext_run ud pv hp fl dr en dn tr (a : pystr)
    (pw pn d : loc) (pwc pnc dc : bytes) :
  let w := World ud pv hp fl dr en dn tr in
  let r := encrypt_pin dc pwc pnc (en dn) in
  account_present module_file w a -> blob_path module_file a ∉ dr ->
  hp !! pw = Some pwc -> hp !! pn = Some pnc -> hp !! d = Some dc ->
  pwc <> [] -> pnc <> [] -> is_error r = false ->
  dumps_encryptedtext module_file (PyStr a) (PyBytearray pw) (PyBytearray pn) (PyBytearray d) w
  = (Return tt,
     World ud pv
       (<[pn := pin_after r]> (<[pw := password_after r]> (<[d := data_after r]> hp)))
       (<[blob_path module_file a := result r]> fl) dr en (S dn)
       (tr ++ [EvEncrypt dc] ++ [EvWrite (blob_path module_file a) (result r)])).
Proof.
  intros w r Hacc Hblob Hpw Hpn Hd Hpwc Hpnc Herr. unfold dumps_encryptedtext.
  rewrite (bind_return _ _ _ _ _ (get_encryptedtext_filepath_present module_file a w Hacc)).
  erewrite bind_return by (eapply check_secrets_at; eassumption).
  cbn [fst snd].
  erewrite bind_return by (apply read_buffer_at; exact Hd).
  erewrite bind_return by (apply read_buffer_at; exact Hpw).
  erewrite bind_return by (apply read_buffer_at; exact Hpn).
  subst w. unfold bind at 1. unfold draw. wsimpl. fold r. rewrite Herr.
  unfold bind at 1 2 3 4. unfold overwrite, modify. wsimpl.
  rewrite write_file_at; [now rewrite <- app_assoc | | exact Hblob].
  unfold blob_path. rewrite removelast_snoc. apply Hacc.
Qed.

(** [load_encryptedtext] when the engine reports no error. *)
Lemma load_encryptedtext_run ud pv hp fl dr en dn tr (a : pystr) (content : bytes)
    (pw pn : loc) (pwc pnc : bytes) :
  let w := World ud pv hp fl dr en dn tr in
  let r := decrypt_pin content pwc pnc in
  let hp' := <[pn := pin_after r]> (<[pw := password_after r]> hp) in
  account_present module_file w a -> fl !! blob_path module_file a = Some content ->
  hp !! pw = Some pwc -> hp !! pn = Some pnc ->
  pwc <> [] -> pnc <> [] -> is_error r = false ->
  load_encryptedtext module_file (PyStr a) (PyBytearray pw) (PyBytearray pn) w
  = (Return (PyBytearray (fresh (dom hp'))),
     World ud pv (<[fresh (dom hp') := result r]> hp') fl dr en dn
       (tr ++ [EvRead (blob_path module_file a)] ++ [EvDecrypt content])).
Proof.
  intros w r hp' Hacc Hblob Hpw Hpn Hpwc Hpnc Herr. unfold load_encryptedtext.
  rewrite (bind_return _ _ _ _ _ (get_encryptedtext_filepath_present module_file a w Hacc)).
  erewrite bind_return by (eapply check_secrets_at; eassumption).
  cbn [fst snd]. subst w.
  unfold bind at 1. unfold read_file. cbn [files]. rewrite Hblob. wsimpl.
  erewrite bind_return by (apply read_buffer_at; exact Hpw).
  erewrite bind_return by (apply read_buffer_at; exact Hpn).
  fold r. rewrite Herr.
  unfold bind at 1 2 3. unfold overwrite, modify. wsimpl.
  unfold bind, alloc, ret. wsimpl. now rewrite <- app_assoc.
Qed.

End Vault.
End AccountFacts.

Module CreateFacts.
Import FilesManager FilesFacts AccountFacts.

Lemma removelast_account_path (module_file : path) (a : pystr) :
  removelast (account_path module_file a) = accounts_path module_file.
Proof.
  unfold account_path, accounts_path.
  change [str "files"; str "accounts"; a] with ([str "files"; str "accounts"] ++ [a]).
  rewrite app_assoc. apply removelast_last.
Qed.

Lemma snoc_ne_self {A : Type} (l : list A) (x : A) : l ++ [x] <> l.
Proof.
  intros H. apply (f_equal (@length A)) in H. rewrite length_app in H. cbn in H. lia.
Qed.

(** In a file system nothing lies below a path that does not exist. *)
Lemma nothing_below (w : world) (p : path) (x : pystr) :
  fs_wf w -> p ∉ dirs w -> (p ++ [x] ∉ dirs w) /\ files w !! (p ++ [x]) = None.
Proof.
  intros [Hd Hf] Hp. split.
  - intros Hin. apply Hp. rewrite <- (removelast_last p x). apply Hd; [exact Hin|].
    now destruct p.
  - destruct (files w !! (p ++ [x])) eqn:Hl; [|reflexivity].
    exfalso. apply Hp. rewrite <- (removelast_last p x). now apply Hf.
Qed.

Lemma not_below (w : world) (p q : path) :
  fs_wf w -> p ∉ dirs w -> files w !! p = None ->
  (q ∈ dirs w \/ is_Some (files w !! q)) -> is_prefix p q = false.
Proof.
  intros Hwf Hp Hnf. revert q.
  assert (forall n q, length q = n -> (q ∈ dirs w \/ is_Some (files w !! q)) ->
                      is_prefix p q = false) as H.
  { induction n as [|n IH]; intros q Hlen Hq; unfold is_prefix; apply bool_decide_eq_false.
    - destruct q; [|discriminate]. rewrite take_nil. intros <-.
      destruct Hq as [Hq | [x Hq]]; [contradiction|].
      discriminate (eq_trans (eq_sym Hq) Hnf).
    - intros Htake.
      destruct (decide (length p <= n)%nat) as [Hle | Hgt].
      + assert (removelast q ∈ dirs w) as Hparent.
        { destruct Hwf as [Hd Hf]. destruct Hq as [Hq | Hq]; [|now apply Hf].
          apply Hd; [exact Hq|]. intros ->. discriminate. }
        assert (length (removelast q) = n) as Hlen'.
        { destruct q as [|c q] using rev_ind; [discriminate|].
          rewrite removelast_last. rewrite length_app in Hlen. cbn in Hlen. lia. }
        specialize (IH (removelast q) Hlen' (or_introl Hparent)).
        unfold is_prefix in IH. apply bool_decide_eq_false in IH. apply IH.
        destruct q as [|c q _] using rev_ind; [discriminate|].
        rewrite removelast_last. rewrite length_app in Hlen. cbn in Hlen.
        rewrite take_app_le in Htake by lia. exact Htake.
      + rewrite take_ge in Htake by lia. subst q.
        destruct Hq as [Hq | [x Hq]]; [contradiction|].
        discriminate (eq_trans (eq_sym Hq) Hnf). }
  intros q Hq. now apply (H (length q) q).
Qed.


Lemma mkdir_at ud pv hp fl dr en dn tr (p : path) :
  p ∉ dr -> fl !! p = None -> fl !! removelast p = None -> removelast p ∈ dr ->
  mkdir p (World ud pv hp fl dr en dn tr)
  = (Return tt, World ud pv hp fl ({[ p ]} ∪ dr) en dn tr).
Proof.
  intros Hp Hf Hpf Hparent. unfold mkdir. wsimpl.
  rewrite (bool_decide_eq_false_2 _ Hp), Hf, Hpf. now rewrite (bool_decide_eq_true_2 _ Hparent).
Qed.

Lemma write_text_at ud pv hp fl dr en dn tr (p : path) (text : pystr) (content : bytes) :
  Utf8.encode text = Some content -> removelast p ∈ dr -> p ∉ dr ->
  write_text p text (World ud pv hp fl dr en dn tr)
  = (Return tt, World ud pv hp (<[p := content]> fl) dr en dn (tr ++ [EvWrite p content])).
Proof. intros Henc Hparent Hp. unfold write_text. rewrite Henc. now apply write_file_at. Qed.

Lemma get_UI_icon_at (module_file : path) (w : world) (n : pystr) (icon : bytes) :
  is_component (n ++ str ".png") = true ->
  files w !! ui_icon_path module_file n = Some icon ->
  get_UI_icon module_file (PyStr n) w = (Return (ui_icon_path module_file n), w).
Proof.
  intros Hc Hicon. unfold get_UI_icon, dirname, bind, ret, isfile, gets.
  cbn [Z.leb Z.compare]. rewrite Hc.
  change (Nat.iter (Z.to_nat 2) (@removelast pystr) module_file
          ++ [str "files"; str "iconbank"; str "iconui"; n ++ str ".png"])
    with (ui_icon_path module_file n).
  now rewrite Hicon.
Qed.

Lemma get_UI_icon_missing (module_file : path) (w : world) (n : pystr) :
  is_component (n ++ str ".png") = true ->
  files w !! ui_icon_path module_file n = None ->
  get_UI_icon module_file (PyStr n) w = (Raise FileNotFoundError, w).
Proof.
  intros Hc Hicon. unfold get_UI_icon, dirname, bind, ret, isfile, gets.
  cbn [Z.leb Z.compare]. rewrite Hc.
  change (Nat.iter (Z.to_nat 2) (@removelast pystr) module_file
          ++ [str "files"; str "iconbank"; str "iconui"; n ++ str ".png"])
    with (ui_icon_path module_file n).
  now rewrite Hicon.
Qed.

Lemma copyfile_at ud pv hp fl dr en dn tr (src dst : path) (content : bytes) :
  src <> dst -> fl !! src = Some content -> removelast dst ∈ dr -> dst ∉ dr ->
  copyfile src dst (World ud pv hp fl dr en dn tr)
  = (Return tt,
     World ud pv hp (<[dst := content]> fl) dr en dn
       (tr ++ [EvRead src] ++ [EvWrite dst content])).
Proof.
  intros Hne Hsrc Hparent Hdst. unfold copyfile, bind at 1, gets. wsimpl.
  rewrite (bool_decide_eq_false_2 _ Hne). cbn [andb].
  unfold bind, read_file. wsimpl. rewrite Hsrc. wsimpl.
  rewrite write_file_at by assumption. now rewrite <- app_assoc.
Qed.


Lemma account_files_differ (module_file : path) (a : pystr) :
  let ap := account_path module_file a in
  ap ++ [str "icons"] <> ap
  /\ blob_path module_file a <> ap
  /\ blob_path module_file a <> ap ++ [str "icons"]
  /\ language_path module_file a <> ap
  /\ language_path module_file a <> ap ++ [str "icons"]
  /\ language_path module_file a <> blob_path module_file a
  /\ profile_path module_file a <> ap
  /\ profile_path module_file a <> ap ++ [str "icons"]
  /\ profile_path module_file a <> blob_path module_file a
  /\ profile_path module_file a <> language_path module_file a.
Proof.
  intros ap. unfold blob_path, language_path, profile_path. fold ap.
  repeat split; try apply snoc_ne_self; intros H; apply app_inv_head in H; discriminate.
Qed.

Lemma ui_icon_outside (module_file : path) (n a : pystr) (x : pystr) :
  ui_icon_path module_file n <> account_path module_file a ++ [x].
Proof.
  unfold ui_icon_path, account_path. rewrite <- app_assoc. intros H.
  apply app_inv_head in H. discriminate.
Qed.

Lemma fs_wf_check_sound (w : world) : fs_wf_check w = true -> fs_wf w.
Proof.
  unfold fs_wf_check. intros H. apply andb_true_iff in H as [Hd Hf].
  rewrite forallb_forall in Hd, Hf. split.
  - intros p Hp Hne. specialize (Hd p). destruct p as [|c p]; [congruence|].
    eapply bool_decide_eq_true_1, Hd. apply list_elem_of_In, elem_of_elements, Hp.
  - intros p [c Hp]. specialize (Hf (p, c)). cbn [fst] in Hf.
    assert (In (p, c) (map_to_list (files w))) as Hin
      by (apply list_elem_of_In, elem_of_map_to_list, Hp).
    apply Hf, andb_true_iff in Hin as [H1 H2].
    split; [now apply bool_decide_eq_true_1 in H1|].
    apply negb_true_iff in H2. now apply bool_decide_eq_false_1 in H2.
Qed.

(** The file system stays one when a file is written into a directory and
    when a directory is made in a directory. *)
Lemma fs_wf_only (w w' : world) :
  files w' = files w -> dirs w' = dirs w -> fs_wf w -> fs_wf w'.
Proof. unfold fs_wf. now intros -> ->. Qed.

Lemma fs_wf_write (w w' : world) (p : path) (content : bytes) :
  fs_wf w -> removelast p ∈ dirs w -> p ∉ dirs w ->
  files w' = <[p := content]> (files w) -> dirs w' = dirs w -> fs_wf w'.
Proof.
  intros [Hd Hf] Hparent Hp Hfl Hdr. unfold fs_wf. rewrite Hfl, Hdr. split; [exact Hd|].
  intros q Hq. destruct (decide (p = q)) as [<- | Hne]; [now split|].
  rewrite lookup_insert_ne in Hq by exact Hne. now apply Hf.
Qed.

Lemma fs_wf_mkdir (w w' : world) (p : path) :
  fs_wf w -> removelast p ∈ dirs w -> files w !! p = None ->
  files w' = files w -> dirs w' = {[ p ]} ∪ dirs w -> fs_wf w'.
Proof.
  intros [Hd Hf] Hparent Hp Hfl Hdr. unfold fs_wf. rewrite Hfl, Hdr. split.
  - intros q Hq Hne. apply elem_of_union in Hq as [Hq | Hq].
    + apply elem_of_singleton in Hq. subst q. now apply elem_of_union_r.
    + apply elem_of_union_r. now apply Hd.
  - intros q Hq. destruct (Hf q Hq) as [Hqp Hqd]. split; [now apply elem_of_union_r|].
    intros Hin. apply elem_of_union in Hin as [Hin | Hin]; [|contradiction].
    apply elem_of_singleton in Hin. subst q. destruct Hq as [x Hq].
    discriminate (eq_trans (eq_sym Hq) Hp).
Qed.

(** [rmtree] of a directory takes away what was put below it, and nothing
    else when nothing else was below it. *)
Lemma rmtree_files_restored (fl : gmap path bytes) (ap : path)
    (extra : list (pystr * bytes)) :
  (forall q, is_Some (fl !! q) -> is_prefix ap q = false) ->
  filter (fun qb => is_prefix ap (fst qb) = false)
    (foldr (fun xc m => <[ap ++ [fst xc] := snd xc]> m) fl extra) = fl.
Proof.
  intros Hfl. apply map_eq. intros q. apply option_eq. intros c.
  rewrite map_lookup_filter_Some. cbn [fst]. split.
  - intros [Hq Hpre]. induction extra as [|[x c'] extra IH]; cbn [foldr fst snd] in Hq;
      [exact Hq|].
    destruct (decide (ap ++ [x] = q)) as [<- | Hne].
    + now rewrite is_prefix_app in Hpre.
    + rewrite lookup_insert_ne in Hq by exact Hne. now apply IH.
  - intros Hq. assert (Hpre : is_prefix ap q = false) by (apply Hfl; eexists; exact Hq).
    split; [|exact Hpre].
    induction extra as [|[x c'] extra IH]; cbn [foldr fst snd]; [exact Hq|].
    rewrite lookup_insert_ne; [exact IH|].
    intros <-. now rewrite is_prefix_app in Hpre.
Qed.

Lemma rmtree_dirs_restored (dr : gset path) (ap : path) (x : pystr) :
  (forall q, q ∈ dr -> is_prefix ap q = false) ->
  filter (fun q => is_prefix ap q = false) ({[ ap ++ [x] ]} ∪ ({[ ap ]} ∪ dr)) = dr.
Proof.
  intros Hdr. apply set_eq. intros q.
  rewrite elem_of_filter, !elem_of_union, !elem_of_singleton. split.
  - intros [Hpre [-> | [-> | Hq]]]; [| |exact Hq].
    + now rewrite is_prefix_app in Hpre.
    + now rewrite is_prefix_refl in Hpre.
  - intros Hq. split; [now apply Hdr | now right; right].
Qed.

Section Create.
Context {E : Engine}.
Variable module_file : path.

(** [create_account] with a new name, up to the copy of the default profile
    icon: the directories, the blob and the language file are there. *)
Lemma create_account_steps ud pv hp fl dr en dn tr (a lang : pystr) (pw pn : loc)
    (pwc pnc enc : bytes) :
  let w := World ud pv hp fl dr en dn tr in
  let ap := account_path module_file a in
  let d := fresh (dom hp) in
  let r := encrypt_pin [] pwc pnc (en dn) in
  fs_wf w -> new_account module_file w a -> fl !! ap = None ->
  hp !! pw = Some pwc -> hp !! pn = Some pnc -> pwc <> [] -> pnc <> [] ->
  Utf8.encode lang = Some enc ->
  create_account module_file (PyStr a) (PyBytearray pw) (PyBytearray pn) (PyStr lang) w
  = (icon <- get_UI_icon module_file (PyStr (str "default_profile")) ;;
     copyfile icon (profile_path module_file a))
      (World ud pv
         (<[pn := pin_after r]> (<[pw := password_after r]> (<[d := data_after r]>
            (<[d := []]> hp))))
         (<[language_path module_file a := enc]>
            (<[blob_path module_file a := result r]> fl))
         ({[ ap ++ [str "icons"] ]} ∪ ({[ ap ]} ∪ dr))
         en (S dn)
         (tr ++ [EvEncrypt []; EvWrite (blob_path module_file a) (result r);
                 EvWrite (language_path module_file a) enc])).
Proof.
  intros w ap d r Hwf (Hne & Hname & Hnew & Haccs) Hnofile Hpw Hpn Hpwc Hpnc Henc.
  cbn [dirs] in Hnew, Haccs.
  destruct (account_files_differ module_file a)
    as (Hd1 & Hd2 & Hd3 & Hd4 & Hd5 & Hd6 & Hd7 & Hd8 & Hd9 & Hd10). fold ap in Hd1, Hd2, Hd3,
    Hd4, Hd5, Hd7, Hd8.
  assert (Hbelow : forall x, (ap ++ [x] ∉ dr) /\ fl !! (ap ++ [x]) = None)
    by (intros x; exact (nothing_below w ap x Hwf Hnew)).
  assert (Haccfile : fl !! accounts_path module_file = None).
  { destruct (fl !! accounts_path module_file) eqn:Hl; [|reflexivity].
    destruct Hwf as [_ Hf].
    destruct (Hf (accounts_path module_file)) as [_ Hnd]; [eexists; exact Hl|].
    destruct (Hnd Haccs). }
  assert (Hfresh : hp !! d = None) by (apply not_elem_of_dom, is_fresh).
  assert (Hdpw : d <> pw) by (intros ->; congruence).
  assert (Hdpn : d <> pn) by (intros ->; congruence).
  unfold create_account.
  rewrite (bind_return _ _ _ _ _ (read_buffer_at w pw pwc Hpw)).
  rewrite (bind_return _ _ _ _ _ (read_buffer_at w pn pnc Hpn)).
  destruct pwc as [|b0 pwc']; [congruence|]. destruct pnc as [|b1 pnc']; [congruence|].
  cbn [length Nat.eqb]. destruct a as [|c0 a']; [congruence|]. cbn [length Nat.eqb].
  set (a := c0 :: a') in *. set (pwc := b0 :: pwc') in *. set (pnc := b1 :: pnc') in *.
  rewrite (bind_return _ _ _ _ _ (is_valid_account_name_at a w Hne)). rewrite Hname.
  cbn [negb].
  rewrite (bind_return _ _ _ _ _ (exist_account_valid module_file a w Hname)).
  rewrite (bool_decide_eq_false_2 _ Hnew).
  rewrite (bind_return _ _ _ _ _ (account_dir_at module_file a _)). fold ap.
  subst w.
  set (dr1 := {[ ap ]} ∪ dr).
  set (dr2 := {[ ap ++ [str "icons"] ]} ∪ dr1).
  assert (Hap1 : ap ∈ dr1) by (apply elem_of_union_l, elem_of_singleton; reflexivity).
  assert (Hap2 : ap ∈ dr2) by (apply elem_of_union_r, Hap1).
  assert (Hicons1 : ap ++ [str "icons"] ∉ dr1).
  { intros H. apply elem_of_union in H as [H | H].
    - apply elem_of_singleton in H. exact (Hd1 H).
    - exact (proj1 (Hbelow _) H). }
  assert (Hout2 : forall x, x <> str "icons" -> ap ++ [x] ∉ dr2).
  { intros x Hx H. apply elem_of_union in H as [H | H].
    - apply elem_of_singleton, app_inv_head in H. congruence.
    - apply elem_of_union in H as [H | H].
      + apply elem_of_singleton in H. exact (snoc_ne_self _ _ H).
      + exact (proj1 (Hbelow _) H). }
  assert (Hparent : forall x, removelast (ap ++ [x]) = ap) by (intros x; apply removelast_last).
  rewrite (bind_return _ _ _ _ _ (mkdir_at ud pv hp fl dr en dn tr ap Hnew Hnofile
             ltac:(unfold ap; now rewrite removelast_account_path)
             ltac:(unfold ap; now rewrite removelast_account_path))).
  fold dr1.
  rewrite (bind_return _ _ _ _ _ (mkdir_at ud pv hp fl dr1 en dn tr (ap ++ [str "icons"])
             Hicons1 (proj2 (Hbelow (str "icons")))
             ltac:(now rewrite Hparent) ltac:(now rewrite Hparent))).
  fold dr2.
  unfold bind at 1. unfold alloc. wsimpl. fold d.
  erewrite bind_return by (apply read_buffer_at; cbn [heap]; apply lookup_insert_eq).
  erewrite bind_return
    by (apply read_buffer_at; cbn [heap]; rewrite lookup_insert_ne by exact Hdpw; exact Hpw).
  erewrite bind_return
    by (apply read_buffer_at; cbn [heap]; rewrite lookup_insert_ne by exact Hdpn; exact Hpn).
  unfold bind at 1. unfold draw. wsimpl. fold r.
  unfold bind at 1 2 3 4. unfold overwrite, modify. wsimpl.
  rewrite (bind_return _ _ _ _ _ (write_file_at _ _ _ _ dr2 _ _ _
             (ap ++ [str "encryptedtext.bin"]) (result r)
             ltac:(now rewrite Hparent) (Hout2 (str "encryptedtext.bin") ltac:(discriminate)))).
  rewrite (bind_return _ _ _ _ _ (write_text_at _ _ _ _ dr2 _ _ _ (ap ++ [str "language.txt"])
             lang enc Henc
             ltac:(now rewrite Hparent) (Hout2 (str "language.txt") ltac:(discriminate)))).
  unfold blob_path, language_path, profile_path. fold ap. now rewrite <- !app_assoc.
Qed.

(** In the world [create_account] has made, the paths of the account are
    where they can be written. *)
Lemma created_dirs (dr : gset path) (w : world) (module_file0 : path) (a : pystr) :
  fs_wf w -> dirs w = dr -> account_path module_file0 a ∉ dr ->
  let ap := account_path module_file0 a in
  let dr2 := {[ ap ++ [str "icons"] ]} ∪ ({[ ap ]} ∪ dr) in
  ap ∈ dr2 /\ (ap ++ [str "icons"] ∈ dr2)
  /\ forall x, x <> str "icons" -> ap ++ [x] ∉ dr2.
Proof.
  intros Hwf <- Hnew ap dr2. split; [|split].
  - apply elem_of_union_r, elem_of_union_l, elem_of_singleton. reflexivity.
  - apply elem_of_union_l, elem_of_singleton. reflexivity.
  - intros x Hx H. apply elem_of_union in H as [H | H].
    + apply elem_of_singleton, app_inv_head in H. congruence.
    + apply elem_of_union in H as [H | H].
      * apply elem_of_singleton in H. exact (snoc_ne_self _ _ H).
      * exact (proj1 (nothing_below w ap x Hwf Hnew) H).
Qed.

(** [create_account] with a new name, when every step succeeds. *)
Lemma create_account_run ud pv hp fl dr en dn tr (a lang : pystr) (pw pn : loc)
    (pwc pnc enc icon : bytes) :
  let w := World ud pv hp fl dr en dn tr in
  let ap := account_path module_file a in
  let d := fresh (dom hp) in
  let r := encrypt_pin [] pwc pnc (en dn) in
  fs_wf w -> new_account module_file w a -> fl !! ap = None ->
  hp !! pw = Some pwc -> hp !! pn = Some pnc -> pwc <> [] -> pnc <> [] ->
  Utf8.encode lang = Some enc ->
  fl !! ui_icon_path module_file (str "default_profile") = Some icon ->
  create_account module_file (PyStr a) (PyBytearray pw) (PyBytearray pn) (PyStr lang) w
  = (Return tt,
     World ud pv
       (<[pn := pin_after r]> (<[pw := password_after r]> (<[d := data_after r]>
          (<[d := []]> hp))))
       (<[profile_path module_file a := icon]>
          (<[language_path module_file a := enc]>
             (<[blob_path module_file a := result r]> fl)))
       ({[ ap ++ [str "icons"] ]} ∪ ({[ ap ]} ∪ dr))
       en (S dn)
       (tr ++ [EvEncrypt []; EvWrite (blob_path module_file a) (result r);
               EvWrite (language_path module_file a) enc;
               EvRead (ui_icon_path module_file (str "default_profile"));
               EvWrite (profile_path module_file a) icon])).
Proof.
  intros w ap d r Hwf Hnew Hnofile Hpw Hpn Hpwc Hpnc Henc Hicon.
  pose proof (create_account_steps ud pv hp fl dr en dn tr a lang pw pn pwc pnc enc
                Hwf Hnew Hnofile Hpw Hpn Hpwc Hpnc Henc) as Hsteps.
  cbv zeta in Hsteps. fold w ap d r in Hsteps. rewrite Hsteps. clear Hsteps.
  destruct (created_dirs dr w module_file a Hwf eq_refl (proj1 (proj2 (proj2 Hnew))))
    as (Hap & _ & Hout).
  fold ap in Hap, Hout.
  assert (Hui : (<[language_path module_file a := enc]>
                   (<[blob_path module_file a := result r]> fl))
                !! ui_icon_path module_file (str "default_profile") = Some icon).
  { unfold language_path, blob_path.
    rewrite !lookup_insert_ne by (apply not_eq_sym, ui_icon_outside). exact Hicon. }
  erewrite bind_return
    by (apply (get_UI_icon_at module_file _ (str "default_profile") icon);
        [reflexivity | exact Hui]).
  unfold profile_path. fold ap.
  rewrite (copyfile_at _ _ _ _ _ _ _ _ _ (ap ++ [str "profile.png"]) icon).
  - now rewrite <- !app_assoc.
  - apply ui_icon_outside.
  - exact Hui.
  - now rewrite removelast_last.
  - apply Hout. discriminate.
Qed.

(** [create_account] with a new name in an installation without the default
    profile icon. *)
Lemma create_account_no_icon ud pv hp fl dr en dn tr (a lang : pystr) (pw pn : loc)
    (pwc pnc enc : bytes) :
  let w := World ud pv hp fl dr en dn tr in
  let ap := account_path module_file a in
  let d := fresh (dom hp) in
  let r := encrypt_pin [] pwc pnc (en dn) in
  fs_wf w -> new_account module_file w a -> fl !! ap = None ->
  hp !! pw = Some pwc -> hp !! pn = Some pnc -> pwc <> [] -> pnc <> [] ->
  Utf8.encode lang = Some enc ->
  fl !! ui_icon_path module_file (str "default_profile") = None ->
  create_account module_file (PyStr a) (PyBytearray pw) (PyBytearray pn) (PyStr lang) w
  = (Raise FileNotFoundError,
     World ud pv
       (<[pn := pin_after r]> (<[pw := password_after r]> (<[d := data_after r]>
          (<[d := []]> hp))))
       (<[language_path module_file a := enc]>
          (<[blob_path module_file a := result r]> fl))
       ({[ ap ++ [str "icons"] ]} ∪ ({[ ap ]} ∪ dr))
       en (S dn)
       (tr ++ [EvEncrypt []; EvWrite (blob_path module_file a) (result r);
               EvWrite (language_path module_file a) enc])).
Proof.
  intros w ap d r Hwf Hnew Hnofile Hpw Hpn Hpwc Hpnc Henc Hicon.
  pose proof (create_account_steps ud pv hp fl dr en dn tr a lang pw pn pwc pnc enc
                Hwf Hnew Hnofile Hpw Hpn Hpwc Hpnc Henc) as Hsteps.
  cbv zeta in Hsteps. fold w ap d r in Hsteps. rewrite Hsteps. clear Hsteps.
  apply bind_raise.
  apply (get_UI_icon_missing module_file _ (str "default_profile")); [reflexivity|].
  cbn [files]. unfold language_path, blob_path.
  rewrite !lookup_insert_ne by (apply not_eq_sym, ui_icon_outside). exact Hicon.
Qed.


(** The file system [create_account] leaves: the account directory with its
    [icons] directory, and the files written so far. *)
Lemma fs_wf_created ud pv hp fl dr en dn tr ud' pv' hp' en' dn' tr' (a : pystr)
    (extra : list (pystr * bytes)) :
  let w := World ud pv hp fl dr en dn tr in
  let ap := account_path module_file a in
  fs_wf w -> new_account module_file w a -> fl !! ap = None ->
  Forall (fun xc => fst xc <> str "icons") extra ->
  fs_wf (World ud' pv' hp'
           (foldr (fun xc m => <[ap ++ [fst xc] := snd xc]> m) fl extra)
           ({[ ap ++ [str "icons"] ]} ∪ ({[ ap ]} ∪ dr)) en' dn' tr').
Proof.
  intros w ap Hwf (Hne & Hname & Hnew & Haccs) Hnofile Hextra.
  cbn [dirs] in Hnew, Haccs.
  set (w1 := World ud pv hp fl ({[ ap ]} ∪ dr) en dn tr).
  assert (Hwf1 : fs_wf w1).
  { apply (fs_wf_mkdir w w1 ap Hwf); try reflexivity; [|exact Hnofile].
    unfold ap. now rewrite removelast_account_path. }
  set (w2 := World ud pv hp fl ({[ ap ++ [str "icons"] ]} ∪ ({[ ap ]} ∪ dr)) en dn tr).
  assert (Hwf2 : fs_wf w2).
  { apply (fs_wf_mkdir w1 w2 (ap ++ [str "icons"]) Hwf1); try reflexivity.
    - rewrite removelast_last. apply elem_of_union_l, elem_of_singleton. reflexivity.
    - exact (proj2 (nothing_below w ap (str "icons") Hwf Hnew)). }
  destruct (created_dirs dr w module_file a Hwf eq_refl Hnew) as (Hap & _ & Hout).
  fold ap in Hap, Hout.
  induction Hextra as [|[x c] extra Hx _ IH]; cbn [foldr fst snd].
  - eapply fs_wf_only; [| |exact Hwf2]; reflexivity.
  - eapply (fs_wf_write _ _ (ap ++ [x]) c IH); try reflexivity.
    + cbn [dirs]. now rewrite removelast_last.
    + cbn [dirs]. now apply Hout.
Qed.

(** [create_account] with a name that is invalid or in use. *)
Lemma create_account_refused (w : world) (a lang : pystr) (pw pn : loc) (pwc pnc : bytes) :
  heap w !! pw = Some pwc -> heap w !! pn = Some pnc ->
  match_name false a = false \/ account_path module_file a ∈ dirs w ->
  create_account module_file (PyStr a) (PyBytearray pw) (PyBytearray pn) (PyStr lang) w
  = (Raise ValueError, w).
Proof.
  intros Hpw Hpn Hbad. unfold create_account.
  rewrite (bind_return _ _ _ _ _ (read_buffer_at w pw pwc Hpw)).
  rewrite (bind_return _ _ _ _ _ (read_buffer_at w pn pnc Hpn)).
  destruct (length pwc =? 0)%nat; [reflexivity|].
  destruct (length pnc =? 0)%nat; [reflexivity|].
  destruct a as [|c a']; [reflexivity|]. cbn [length Nat.eqb].
  rewrite (bind_return _ _ _ _ _
             (is_valid_account_name_at (c :: a') w ltac:(discriminate))).
  destruct (match_name false (c :: a')) eqn:Hname; [|reflexivity]. cbn [negb].
  destruct Hbad as [Hbad | Hdir]; [discriminate|].
  rewrite (bind_return _ _ _ _ _ (exist_account_valid module_file (c :: a') w Hname)).
  now rewrite (bool_decide_eq_true_2 _ Hdir).
Qed.

End Create.
End CreateFacts.
(** ** Properties of the account functions *)

Import AccountFacts ToyInstall.

(** X15.  [is_valid_account_name] answers [True] exactly for a name made of
    one or more of the characters [A-Z a-z 0-9 _ -], or such a name followed
    by one newline (the [$] of the pattern matches before a final newline).
    A valid name therefore holds no ["/"] and is neither ["."] nor [".."]: it
    names one entry of the accounts directory. *)
Theorem valid_account_names (a : pystr) (w : world) :
  (is_valid_account_name (PyStr a) w = (Return true, w) <->
   exists body,
     body <> [] /\ Forall (fun c => name_char c = true) body /\ (a = body \/ a = body ++ [10]))
  /\ (is_valid_account_name (PyStr a) w = (Return true, w) -> is_component a = true).
Proof.
  assert (is_valid_account_name (PyStr a) w = (Return true, w) <-> match_name false a = true)
    as Hm.
  { destruct a as [|c a]; [split; discriminate|].
    rewrite (is_valid_account_name_at (c :: a) w) by discriminate.
    split; [intros H; now injection H | intros H; now rewrite H]. }
  split.
  - rewrite Hm, match_name_spec. split.
    + intros (body & tail & -> & Hall & Ht & [Hs | Hb]); [discriminate|].
      exists body. split; [exact Hb|]. split; [exact Hall|].
      destruct Ht as [-> | ->]; [left; now rewrite app_nil_r | now right].
    + intros (body & Hb & Hall & [-> | ->]).
      * exists body, []. rewrite app_nil_r. repeat split; auto.
      * exists body, [10]. repeat split; auto.
  - intros H. apply valid_name_component. now apply Hm.
Qed.

(** X16.  The three look-ups of an account, [exist_account],
    [get_account_path] and [get_encryptedtext_filepath], change nothing.
    They raise [TypeError] for a name that is no string and [ValueError] for
    an invalid name ([exist_account] too: it does not answer [False]); for a
    valid name without directory [exist_account] answers [False] and the two
    others raise [ValueError]; for an account that exists they return [True],
    its directory under [files/accounts] and the file [encryptedtext.bin] in
    it. *)
Theorem account_lookup (module_file : path) (w : world) (account : pyobj) :
  ((forall a, account <> PyStr a) ->
   looks_up module_file w account (Raise TypeError) (Raise TypeError) (Raise TypeError))
  /\ (forall a,
        account = PyStr a -> match_name false a = false ->
        looks_up module_file w account (Raise ValueError) (Raise ValueError) (Raise ValueError))
  /\ (forall a,
        account = PyStr a -> match_name false a = true ->
        account_path module_file a ∉ dirs w ->
        looks_up module_file w account (Return false) (Raise ValueError) (Raise ValueError))
  /\ (forall a,
        account = PyStr a -> match_name false a = true ->
        account_path module_file a ∈ dirs w ->
        looks_up module_file w account (Return true)
          (Return (account_path module_file a)) (Return (blob_path module_file a))).
Proof.
  unfold looks_up. split; [|split; [|split]].
  - intros Hns. destruct account; try (now destruct (Hns s)); repeat split; reflexivity.
  - intros a -> Hname.
    pose proof (exist_account_invalid module_file a w Hname) as He.
    assert (get_account_path module_file (PyStr a) w = (Raise ValueError, w)) as Hp
      by (unfold get_account_path; now rewrite (bind_raise _ _ _ _ _ He)).
    split; [exact He|]. split; [exact Hp|].
    unfold get_encryptedtext_filepath. now rewrite (bind_raise _ _ _ _ _ Hp).
  - intros a -> Hname Hdir.
    pose proof (exist_account_valid module_file a w Hname) as He.
    rewrite (bool_decide_eq_false_2 _ Hdir) in He.
    assert (get_account_path module_file (PyStr a) w = (Raise ValueError, w)) as Hp
      by (unfold get_account_path; now rewrite (bind_return _ _ _ _ _ He)).
    split; [exact He|]. split; [exact Hp|].
    unfold get_encryptedtext_filepath. now rewrite (bind_raise _ _ _ _ _ Hp).
  - intros a -> Hname Hdir.
    pose proof (exist_account_valid module_file a w Hname) as He.
    rewrite (bool_decide_eq_true_2 _ Hdir) in He.
    split; [exact He|].
    split; [now apply get_account_path_present | now apply get_encryptedtext_filepath_present].
Qed.

(** X17.  [delete_account] on an account whose directory holds no
    [encryptedtext.bin] raises [FileNotFoundError] when it opens the blob, and
    removes nothing: the account stays. *)
Theorem delete_account_needs_blob {E : Engine} (module_file : path) (w : world) (a : pystr) :
  account_present module_file w a ->
  files w !! blob_path module_file a = None -> blob_path module_file a ∉ dirs w ->
  delete_account module_file (PyStr a) w = (Raise FileNotFoundError, w)
  /\ exist_account module_file (PyStr a) w = (Return true, w).
Proof.
  intros Hacc Hblob _. split.
  - unfold delete_account.
    rewrite (bind_return _ _ _ _ _ (get_account_path_present module_file a w Hacc)).
    rewrite (bind_return _ _ _ _ _ (get_encryptedtext_filepath_present module_file a w Hacc)).
    unfold bind, read_file. now rewrite Hblob.
  - destruct Hacc as [Hname Hdir]. rewrite (exist_account_valid module_file a w Hname).
    now rewrite (bool_decide_eq_true_2 _ Hdir).
Qed.

(** X17, witness: the directory of ["alice"] without its blob. *)
Lemma delete_account_needs_blob_witness :
  delete_account Toy.module_file (PyStr (str "alice")) (set_files ∅ vault_world)
  = (Raise FileNotFoundError, set_files ∅ vault_world).
Proof.
  apply (delete_account_needs_blob Toy.module_file (set_files ∅ vault_world) (str "alice")).
  - split; [reflexivity|]. apply (bool_decide_unpack _). vm_compute. exact I.
  - reflexivity.
  - apply (bool_decide_unpack _). vm_compute. exact I.
Defined.


(** X18.  What [dumps_encryptedtext] writes, [load_encryptedtext] reads back:
    when the engine encrypts without error, the blob of the account holds the
    engine's result, and a later call of [load_encryptedtext] with buffers
    holding the same password and pin returns a new buffer with the data that
    was dumped. *)
Theorem vault_round_trip {E : Engine} (module_file : path) (w : world) (a : pystr)
    (pw pn d : loc) (pwc pnc dc : bytes) :
  decrypt_pin_inverts_encrypt_pin E ->
  account_present module_file w a -> blob_path module_file a ∉ dirs w ->
  heap w !! pw = Some pwc -> heap w !! pn = Some pnc -> heap w !! d = Some dc ->
  pwc <> [] -> pnc <> [] ->
  is_error (encrypt_pin dc pwc pnc (entropy w (drawn w))) = false ->
  exists w1,
    dumps_encryptedtext module_file (PyStr a) (PyBytearray pw) (PyBytearray pn)
      (PyBytearray d) w = (Return tt, w1)
    /\ files w1 !! blob_path module_file a
       = Some (result (encrypt_pin dc pwc pnc (entropy w (drawn w))))
    /\ forall pw2 pn2,
         heap w1 !! pw2 = Some pwc -> heap w1 !! pn2 = Some pnc ->
         exists l w2,
           load_encryptedtext module_file (PyStr a) (PyBytearray pw2) (PyBytearray pn2) w1
           = (Return (PyBytearray l), w2)
           /\ heap w1 !! l = None
           /\ heap w2 !! l = Some dc
           /\ files w2 = files w1.
Proof.
  intros Hlaw Hacc Hblob Hpw Hpn Hd Hpwc Hpnc Herr.
  destruct w as [ud pv hp fl dr en dn tr]. cbn [heap dirs entropy drawn] in *.
  eexists. split; [now apply (dumps_encryptedtext_run module_file _ _ _ _ _ _ _ _ a pw pn d
                                pwc pnc dc)|].
  cbn [files heap]. split; [apply lookup_insert_eq|].
  intros pw2 pn2 Hpw2 Hpn2.
  set (r := encrypt_pin dc pwc pnc (en dn)) in *.
  destruct (Hlaw dc pwc pnc (en dn) Herr) as [Hok Hback]. fold r in Hok, Hback.
  do 2 eexists. split.
  - eapply (load_encryptedtext_run module_file _ _ _ _ _ _ _ _ a (result r) pw2 pn2 pwc pnc);
      try eassumption.
    apply lookup_insert_eq.
  - cbn [heap files]. split; [|split; [|reflexivity]].
    + match goal with
      | |- _ !! fresh (dom ?h) = None =>
          pose proof (is_fresh (dom h)) as Hf; apply not_elem_of_dom in Hf
      end.
      apply lookup_insert_None in Hf as [Hf _]. now apply lookup_insert_None in Hf as [Hf _].
    + rewrite lookup_insert_eq. now rewrite Hback.
Qed.

Lemma toy_decrypt_pin_inverts_encrypt_pin : decrypt_pin_inverts_encrypt_pin Toy.engine.
Proof.
  intros data password pin r _. cbn [encrypt_pin decrypt_pin Toy.engine].
  unfold toy_encrypt_pin, toy_decrypt_pin. cbn [result].
  rewrite app_assoc, starts_with_app. now split.
Qed.

Lemma vault_world_present (n : nat) :
  account_present Toy.module_file (set_drawn n vault_world) (str "alice").
Proof. split; [reflexivity|]. apply (bool_decide_unpack _). vm_compute. exact I. Qed.

(** X18, witness: the data of buffer 2 goes into the vault of ["alice"] under
    the password of buffer 1 and the pin of buffer 3, and comes back. *)
Lemma vault_round_trip_witness :
  exists w1 l w2,
    dumps_encryptedtext Toy.module_file (PyStr (str "alice")) (PyBytearray 1%positive)
      (PyBytearray 3%positive) (PyBytearray 2%positive) (set_drawn 0 vault_world)
    = (Return tt, w1)
    /\ load_encryptedtext Toy.module_file (PyStr (str "alice")) (PyBytearray 1%positive)
         (PyBytearray 3%positive) w1 = (Return (PyBytearray l), w2)
    /\ heap w2 !! l = Some [1; 2; 3].
Proof.
  destruct (vault_round_trip Toy.module_file (set_drawn 0 vault_world) (str "alice")
              1%positive 3%positive 2%positive [1; 2; 3] [9] [1; 2; 3]
              toy_decrypt_pin_inverts_encrypt_pin (vault_world_present 0))
    as (w1 & Hdump & Hblob & Hload); try reflexivity; try discriminate.
  assert (heap w1 = heap vault_world) as Hheap.
  { assert (snd (dumps_encryptedtext Toy.module_file (PyStr (str "alice"))
                     (PyBytearray 1%positive) (PyBytearray 3%positive) (PyBytearray 2%positive)
                     (set_drawn 0 vault_world)) = w1) as <- by now rewrite Hdump.
      vm_compute. reflexivity. }
    destruct (Hload 1%positive 3%positive) as (l & w2 & Hrun & _ & Hl & _);
      [now rewrite Hheap | now rewrite Hheap |].
    exists w1, l, w2. exact (conj Hdump (conj Hrun Hl)).
Defined.

(** X19.  [load_encryptedtext] and [dumps_encryptedtext] check the account,
    then the password and the pin, before they read the blob or call the
    engine: for an account that does not exist they raise [ValueError], and
    for an account that exists, [TypeError] when the password or the pin is no
    [bytearray] and [ValueError] when one of them is empty; the world is as it
    was (no buffer is wiped). *)
Theorem secrets_are_checked_first {E : Engine} (module_file : path) (w : world) (a : pystr)
    (password pin data : pyobj) :
  (match_name false a = true -> account_path module_file a ∉ dirs w ->
   load_encryptedtext module_file (PyStr a) password pin w = (Raise ValueError, w)
   /\ dumps_encryptedtext module_file (PyStr a) password pin data w = (Raise ValueError, w))
  /\ (forall e,
        account_present module_file w a -> bad_secrets w password pin e ->
        load_encryptedtext module_file (PyStr a) password pin w = (Raise e, w)
        /\ dumps_encryptedtext module_file (PyStr a) password pin data w = (Raise e, w)).
Proof.
  split.
  - intros Hname Hdir.
    pose proof (exist_account_valid module_file a w Hname) as He.
    rewrite (bool_decide_eq_false_2 _ Hdir) in He.
    assert (get_encryptedtext_filepath module_file (PyStr a) w = (Raise ValueError, w)) as Hp.
    { unfold get_encryptedtext_filepath, get_account_path.
      now rewrite bind_assoc, (bind_return _ _ _ _ _ He). }
    unfold load_encryptedtext, dumps_encryptedtext.
    now rewrite !(bind_raise _ _ _ _ _ Hp).
  - intros e Hacc Hbad.
    assert (check_secrets password pin w = (Raise e, w)) as Hc.
    { unfold check_secrets.
      destruct Hbad as [[-> Hty] | [-> (pw & pn & pwc & pnc & -> & -> & Hpw & Hpn & Hempty)]].
      - destruct password; try reflexivity. destruct pin; try reflexivity.
        destruct Hty as [H | H]; [now destruct (H l) | now destruct (H l0)].
      - unfold bind, read_buffer. rewrite Hpw, Hpn.
        destruct Hempty as [-> | ->]; [reflexivity|]. now destruct pwc. }
    unfold load_encryptedtext, dumps_encryptedtext.
    rewrite !(bind_return _ _ _ _ _ (get_encryptedtext_filepath_present module_file a w Hacc)).
    now rewrite !(bind_raise _ _ _ _ _ Hc).
Qed.

(** ** Properties of [create_account] *)

Import AccountFacts CreateFacts ToyInstall.

Lemma install_world_wf : fs_wf install_world.
Proof. apply fs_wf_check_sound. vm_compute. reflexivity. Qed.

Lemma install_world_new (a : pystr) :
  a <> [] -> match_name false a = true ->
  new_account Toy.module_file install_world a.
Proof.
  intros Hne Hname. split; [exact Hne|]. split; [exact Hname|]. split.
  - intros Hin. unfold install_world, set_dirs in Hin. cbn [dirs] in Hin.
    rewrite !elem_of_union, !elem_of_singleton in Hin.
    repeat (destruct Hin as [Hin | Hin]); discriminate Hin.
  - apply (bool_decide_unpack _). vm_compute. exact I.
Qed.

(** X20.  [create_account] with a valid name that is not in use, a password
    and a pin that are not empty, and a language, in an installation that
    has the default profile icon: when the engine reports no error the call
    returns; the account then exists, with its [icons] directory, the blob
    the engine made of the empty data, the language file and a copy of the
    default profile icon; nothing outside the directory of the account has
    changed. *)
Theorem create_account_creates {E : Engine} (module_file : path) (w : world)
    (a lang : pystr) (pw pn : loc) (pwc pnc enc icon : bytes) :
  fs_wf w -> new_account module_file w a -> files w !! account_path module_file a = None ->
  heap w !! pw = Some pwc -> heap w !! pn = Some pnc -> pwc <> [] -> pnc <> [] ->
  Utf8.encode lang = Some enc ->
  files w !! ui_icon_path module_file (str "default_profile") = Some icon ->
  is_error (encrypt_pin [] pwc pnc (entropy w (drawn w))) = false ->
  exists w',
    create_account module_file (PyStr a) (PyBytearray pw) (PyBytearray pn) (PyStr lang) w
    = (Return tt, w')
    /\ exist_account module_file (PyStr a) w' = (Return true, w')
    /\ icons_path module_file a ∈ dirs w'
    /\ files w' !! blob_path module_file a
       = Some (result (encrypt_pin [] pwc pnc (entropy w (drawn w))))
    /\ files w' !! language_path module_file a = Some enc
    /\ files w' !! profile_path module_file a = Some icon
    /\ fs_wf w'
    /\ (forall p,
          is_prefix (account_path module_file a) p = false ->
          files w' !! p = files w !! p /\ (p ∈ dirs w' <-> p ∈ dirs w))
    /\ userdict w' = userdict w.
Proof.
  intros Hwf Hnew Hnofile Hpw Hpn Hpwc Hpnc Henc Hicon _.
  destruct w as [ud pv hp fl dr en dn tr]. cbn [heap files dirs entropy drawn] in *.
  eexists. split; [now apply (create_account_run module_file ud pv hp fl dr en dn tr a lang
                                 pw pn pwc pnc enc icon)|].
  set (r := encrypt_pin [] pwc pnc (en dn)).
  set (ap := account_path module_file a).
  destruct (created_dirs dr _ module_file a Hwf eq_refl (proj1 (proj2 (proj2 Hnew))))
    as (Hap & Hicons & Hout).
  destruct (account_files_differ module_file a)
    as (Hd1 & Hd2 & Hd3 & Hd4 & Hd5 & Hd6 & Hd7 & Hd8 & Hd9 & Hd10).
  cbn [files dirs userdict].
  split.
  { rewrite (exist_account_valid module_file a _ (proj1 (proj2 Hnew))). cbn [dirs].
    now rewrite (bool_decide_eq_true_2 _ Hap). }
  split; [exact Hicons|].
  split; [rewrite !lookup_insert_ne by congruence; apply lookup_insert_eq|].
  split; [rewrite lookup_insert_ne by congruence; apply lookup_insert_eq|].
  split; [apply lookup_insert_eq|].
  split.
  { apply (fs_wf_created module_file ud pv hp fl dr en dn tr _ _ _ _ _ _ a
             [(str "profile.png", icon); (str "language.txt", enc);
              (str "encryptedtext.bin", result r)] Hwf Hnew Hnofile).
    repeat constructor; discriminate. }
  split; [|reflexivity].
  intros p Hpre. split.
  - unfold profile_path, language_path, blob_path.
    rewrite !lookup_insert_ne; [reflexivity | | |];
      intros <-; now rewrite is_prefix_app in Hpre.
  - rewrite !elem_of_union, !elem_of_singleton. split; [|tauto].
    intros [-> | [-> | H]]; [| |exact H].
    + now rewrite is_prefix_app in Hpre.
    + now rewrite is_prefix_refl in Hpre.
Qed.

(** X20, witness: the account ["bob"] is created in [install_world]. *)
Lemma create_account_creates_witness :
  exists w',
    create_account Toy.module_file (PyStr (str "bob")) (PyBytearray 1%positive)
      (PyBytearray 3%positive) (PyStr (str "fr")) install_world = (Return tt, w')
    /\ exist_account Toy.module_file (PyStr (str "bob")) w' = (Return true, w')
    /\ files w' !! language_path Toy.module_file (str "bob") = Some [102; 114].
Proof.
  destruct (create_account_creates Toy.module_file install_world (str "bob") (str "fr")
              1%positive 3%positive [1; 2; 3] [9] [102; 114] [80; 78; 71; 1]
              install_world_wf
              (install_world_new (str "bob") ltac:(discriminate) eq_refl)
              ltac:(vm_compute; reflexivity) eq_refl eq_refl
              ltac:(discriminate) ltac:(discriminate)
              eq_refl ltac:(vm_compute; reflexivity) eq_refl)
    as (w' & Hrun & Hex & _ & _ & Hlang & _).
  exists w'. exact (conj Hrun (conj Hex Hlang)).
Defined.


(** X21.  [delete_account] undoes [create_account]: after the two calls the
    files and the directories are those there were before, and the account
    does not exist. *)
Theorem delete_account_undoes_create {E : Engine} (module_file : path) (w : world)
    (a lang : pystr) (pw pn : loc) (pwc pnc enc icon : bytes) :
  fs_wf w -> new_account module_file w a -> files w !! account_path module_file a = None ->
  heap w !! pw = Some pwc -> heap w !! pn = Some pnc -> pwc <> [] -> pnc <> [] ->
  Utf8.encode lang = Some enc ->
  files w !! ui_icon_path module_file (str "default_profile") = Some icon ->
  is_error (encrypt_pin [] pwc pnc (entropy w (drawn w))) = false ->
  exists w1 w2,
    create_account module_file (PyStr a) (PyBytearray pw) (PyBytearray pn) (PyStr lang) w
    = (Return tt, w1)
    /\ delete_account module_file (PyStr a) w1 = (Return tt, w2)
    /\ files w2 = files w /\ dirs w2 = dirs w
    /\ exist_account module_file (PyStr a) w2 = (Return false, w2).
Proof.
  intros Hwf Hnew Hnofile Hpw Hpn Hpwc Hpnc Henc Hicon _.
  destruct w as [ud pv hp fl dr en dn tr]. cbn [heap files dirs entropy drawn] in *.
  set (r := encrypt_pin [] pwc pnc (en dn)).
  set (ap := account_path module_file a).
  destruct (created_dirs dr _ module_file a Hwf eq_refl (proj1 (proj2 (proj2 Hnew))))
    as (Hap & _ & _). fold ap in Hap.
  destruct (account_files_differ module_file a)
    as (Hd1 & Hd2 & Hd3 & Hd4 & Hd5 & Hd6 & Hd7 & Hd8 & Hd9 & Hd10).
  do 2 eexists.
  split; [now apply (create_account_run module_file ud pv hp fl dr en dn tr a lang
                       pw pn pwc pnc enc icon)|].
  split.
  { apply (delete_account_run module_file _ _ _ _ _ _ _ _ a (result r)).
    split; [apply Hnew|]. split; [apply Hnew|]. split; [exact Hap|]. cbn [files].
    rewrite !lookup_insert_ne by congruence. apply lookup_insert_eq. }
  assert (Hfiles :
    filter (fun qb => is_prefix ap (fst qb) = false)
      (<[blob_path module_file a := random_bytes (length (result r)) (en (S dn))]>
         (<[profile_path module_file a := icon]>
            (<[language_path module_file a := enc]>
               (<[blob_path module_file a := result r]> fl)))) = fl).
  { apply (rmtree_files_restored fl ap
             [(str "encryptedtext.bin", random_bytes (length (result r)) (en (S dn)));
              (str "profile.png", icon); (str "language.txt", enc);
              (str "encryptedtext.bin", result r)]).
    intros q Hq. apply (not_below _ ap q Hwf); [apply Hnew | exact Hnofile | now right]. }
  assert (Hdirs :
    filter (fun q => is_prefix ap q = false) ({[ ap ++ [str "icons"] ]} ∪ ({[ ap ]} ∪ dr)) = dr).
  { apply rmtree_dirs_restored. intros q Hq.
    apply (not_below _ ap q Hwf); [apply Hnew | exact Hnofile | now left]. }
  cbn [files dirs]. split; [exact Hfiles|]. split; [exact Hdirs|].
  rewrite (exist_account_valid module_file a _ (proj1 (proj2 Hnew))). cbn [dirs].
  fold ap. rewrite Hdirs. now rewrite (bool_decide_eq_false_2 _ (proj1 (proj2 (proj2 Hnew)))).
Qed.

(** X21, witness: ["bob"] is created in [install_world] and deleted. *)
Lemma delete_account_undoes_create_witness :
  exists w1 w2,
    create_account Toy.module_file (PyStr (str "bob")) (PyBytearray 1%positive)
      (PyBytearray 3%positive) (PyStr (str "fr")) install_world = (Return tt, w1)
    /\ delete_account Toy.module_file (PyStr (str "bob")) w1 = (Return tt, w2)
    /\ files w2 = files install_world /\ dirs w2 = dirs install_world.
Proof.
  destruct (delete_account_undoes_create Toy.module_file install_world (str "bob") (str "fr")
              1%positive 3%positive [1; 2; 3] [9] [102; 114] [80; 78; 71; 1]
              install_world_wf
              (install_world_new (str "bob") ltac:(discriminate) eq_refl)
              ltac:(vm_compute; reflexivity) eq_refl eq_refl
              ltac:(discriminate) ltac:(discriminate)
              eq_refl ltac:(vm_compute; reflexivity) eq_refl)
    as (w1 & w2 & Hc & Hd & Hf & Hdr & _).
  exists w1, w2. exact (conj Hc (conj Hd (conj Hf Hdr))).
Defined.

(** X22.  The vault of a new account opens under the password and the pin it
    was made with, and is empty: after [create_account],
    [load_encryptedtext] with buffers holding that password and that pin
    returns a new buffer of length zero. *)
Theorem new_vault_is_empty {E : Engine} (module_file : path) (w : world)
    (a lang : pystr) (pw pn : loc) (pwc pnc enc icon : bytes) :
  decrypt_pin_inverts_encrypt_pin E ->
  fs_wf w -> new_account module_file w a -> files w !! account_path module_file a = None ->
  heap w !! pw = Some pwc -> heap w !! pn = Some pnc -> pwc <> [] -> pnc <> [] ->
  Utf8.encode lang = Some enc ->
  files w !! ui_icon_path module_file (str "default_profile") = Some icon ->
  is_error (encrypt_pin [] pwc pnc (entropy w (drawn w))) = false ->
  exists w1,
    create_account module_file (PyStr a) (PyBytearray pw) (PyBytearray pn) (PyStr lang) w
    = (Return tt, w1)
    /\ forall pw2 pn2,
         heap w1 !! pw2 = Some pwc -> heap w1 !! pn2 = Some pnc ->
         exists l w2,
           load_encryptedtext module_file (PyStr a) (PyBytearray pw2) (PyBytearray pn2) w1
           = (Return (PyBytearray l), w2)
           /\ heap w1 !! l = None
           /\ heap w2 !! l = Some ([] : bytes).
Proof.
  intros Hlaw Hwf Hnew Hnofile Hpw Hpn Hpwc Hpnc Henc Hicon Herr.
  destruct w as [ud pv hp fl dr en dn tr]. cbn [heap files dirs entropy drawn] in *.
  set (r := encrypt_pin [] pwc pnc (en dn)) in *.
  set (ap := account_path module_file a).
  destruct (created_dirs dr _ module_file a Hwf eq_refl (proj1 (proj2 (proj2 Hnew))))
    as (Hap & _ & _). fold ap in Hap.
  destruct (account_files_differ module_file a)
    as (Hd1 & Hd2 & Hd3 & Hd4 & Hd5 & Hd6 & Hd7 & Hd8 & Hd9 & Hd10).
  destruct (Hlaw [] pwc pnc (en dn) Herr) as [Hok Hback]. fold r in Hok, Hback.
  eexists.
  split; [now apply (create_account_run module_file ud pv hp fl dr en dn tr a lang
                       pw pn pwc pnc enc icon)|].
  intros pw2 pn2 Hpw2 Hpn2. cbn [heap] in Hpw2, Hpn2. do 2 eexists. split.
  - eapply (load_encryptedtext_run module_file _ _ _ _ _ _ _ _ a (result r) pw2 pn2 pwc pnc);
      try eassumption.
    + split; [apply Hnew | exact Hap].
    + rewrite !lookup_insert_ne by congruence. apply lookup_insert_eq.
  - cbn [heap]. split.
    + match goal with
      | |- _ !! fresh (dom ?h) = None =>
          pose proof (is_fresh (dom h)) as Hf; apply not_elem_of_dom in Hf
      end.
      apply lookup_insert_None in Hf as [Hf _]. now apply lookup_insert_None in Hf as [Hf _].
    + rewrite lookup_insert_eq. now rewrite Hback.
Qed.

(** X22, witness: the vault of ["bob"], made under the password of buffer 1
    and the pin of buffer 3, opens under them. *)
Lemma new_vault_is_empty_witness :
  exists w1 l w2,
    create_account Toy.module_file (PyStr (str "bob")) (PyBytearray 1%positive)
      (PyBytearray 3%positive) (PyStr (str "fr")) install_world = (Return tt, w1)
    /\ load_encryptedtext Toy.module_file (PyStr (str "bob")) (PyBytearray 1%positive)
         (PyBytearray 3%positive) w1 = (Return (PyBytearray l), w2)
    /\ heap w2 !! l = Some ([] : bytes).
Proof.
  destruct (new_vault_is_empty Toy.module_file install_world (str "bob") (str "fr")
              1%positive 3%positive [1; 2; 3] [9] [102; 114] [80; 78; 71; 1]
              toy_decrypt_pin_inverts_encrypt_pin
              install_world_wf
              (install_world_new (str "bob") ltac:(discriminate) eq_refl)
              ltac:(vm_compute; reflexivity) eq_refl eq_refl
              ltac:(discriminate) ltac:(discriminate)
              eq_refl ltac:(vm_compute; reflexivity) eq_refl)
    as (w1 & Hc & Hload).
  assert (heap w1 !! 1%positive = Some [1; 2; 3] /\ heap w1 !! 3%positive = Some [9]) as [H1 H3].
  { assert (snd (create_account Toy.module_file (PyStr (str "bob")) (PyBytearray 1%positive)
                   (PyBytearray 3%positive) (PyStr (str "fr")) install_world) = w1) as <-
      by now rewrite Hc.
    split; vm_compute; reflexivity. }
  destruct (Hload 1%positive 3%positive H1 H3) as (l & w2 & Hrun & _ & Hl).
  exists w1, l, w2. exact (conj Hc (conj Hrun Hl)).
Defined.

(** X23.  [create_account] in an installation without the default profile
    icon raises [FileNotFoundError] at its last step, after the directory of
    the account, its blob and its language file were made: the account exists
    afterwards, without profile icon, and a second call with the same name
    raises [ValueError]. *)
Theorem create_account_without_icon {E : Engine} (module_file : path) (w : world)
    (a lang : pystr) (pw pn : loc) (pwc pnc enc : bytes) :
  fs_wf w -> new_account module_file w a -> files w !! account_path module_file a = None ->
  heap w !! pw = Some pwc -> heap w !! pn = Some pnc -> pwc <> [] -> pnc <> [] ->
  Utf8.encode lang = Some enc ->
  files w !! ui_icon_path module_file (str "default_profile") = None ->
  is_error (encrypt_pin [] pwc pnc (entropy w (drawn w))) = false ->
  exists w',
    create_account module_file (PyStr a) (PyBytearray pw) (PyBytearray pn) (PyStr lang) w
    = (Raise FileNotFoundError, w')
    /\ exist_account module_file (PyStr a) w' = (Return true, w')
    /\ files w' !! blob_path module_file a
       = Some (result (encrypt_pin [] pwc pnc (entropy w (drawn w))))
    /\ files w' !! language_path module_file a = Some enc
    /\ files w' !! profile_path module_file a = None
    /\ create_account module_file (PyStr a) (PyBytearray pw) (PyBytearray pn) (PyStr lang) w'
       = (Raise ValueError, w').
Proof.
  intros Hwf Hnew Hnofile Hpw Hpn Hpwc Hpnc Henc Hicon _.
  destruct w as [ud pv hp fl dr en dn tr]. cbn [heap files dirs entropy drawn] in *.
  set (r := encrypt_pin [] pwc pnc (en dn)).
  set (ap := account_path module_file a).
  destruct (created_dirs dr _ module_file a Hwf eq_refl (proj1 (proj2 (proj2 Hnew))))
    as (Hap & _ & _). fold ap in Hap.
  destruct (account_files_differ module_file a)
    as (Hd1 & Hd2 & Hd3 & Hd4 & Hd5 & Hd6 & Hd7 & Hd8 & Hd9 & Hd10).
  eexists.
  split; [now apply (create_account_no_icon module_file ud pv hp fl dr en dn tr a lang
                       pw pn pwc pnc enc)|].
  match goal with |- exist_account _ _ ?w1 = _ /\ _ => set (w' := w1) end.
  assert (Hex : exist_account module_file (PyStr a) w' = (Return true, w')).
  { rewrite (exist_account_valid module_file a _ (proj1 (proj2 Hnew))). subst w'. cbn [dirs].
    now rewrite (bool_decide_eq_true_2 _ Hap). }
  split; [exact Hex|]. subst w'. cbn [files].
  split; [rewrite lookup_insert_ne by congruence; apply lookup_insert_eq|].
  split; [apply lookup_insert_eq|].
  split.
  { rewrite !lookup_insert_ne by congruence.
    exact (proj2 (nothing_below _ ap (str "profile.png") Hwf (proj1 (proj2 (proj2 Hnew))))). }
  assert (Hsome : forall l, is_Some (hp !! l) ->
            is_Some ((<[pn := pin_after r]> (<[pw := password_after r]>
                        (<[fresh (dom hp) := data_after r]>
                           (<[fresh (dom hp) := []]> hp)))) !! l)).
  { intros l Hl. now do 4 apply lookup_overwritten. }
  destruct (Hsome pw) as [pwc2 Hpw2]; [eexists; exact Hpw|].
  destruct (Hsome pn) as [pnc2 Hpn2]; [eexists; exact Hpn|].
  eapply (create_account_refused module_file); [exact Hpw2 | exact Hpn2 | right; exact Hap].
Qed.

Lemma bare_world_wf : fs_wf (set_files ∅ install_world).
Proof. apply fs_wf_check_sound. vm_compute. reflexivity. Qed.

(** X23, witness: [install_world] without its icons. *)
Lemma create_account_without_icon_witness :
  exists w',
    create_account Toy.module_file (PyStr (str "bob")) (PyBytearray 1%positive)
      (PyBytearray 3%positive) (PyStr (str "fr")) (set_files ∅ install_world)
    = (Raise FileNotFoundError, w')
    /\ exist_account Toy.module_file (PyStr (str "bob")) w' = (Return true, w').
Proof.
  destruct (create_account_without_icon Toy.module_file (set_files ∅ install_world)
              (str "bob") (str "fr") 1%positive 3%positive [1; 2; 3] [9] [102; 114]
              bare_world_wf
              (install_world_new (str "bob") ltac:(discriminate) eq_refl)
              ltac:(vm_compute; reflexivity) eq_refl eq_refl
              ltac:(discriminate) ltac:(discriminate)
              eq_refl ltac:(vm_compute; reflexivity) eq_refl)
    as (w' & Hrun & Hex & _).
  exists w'. exact (conj Hrun Hex).
Defined.

(** X24.  [create_account] refuses, and changes nothing: with [TypeError]
    when the name or the language is no string or the password or the pin no
    [bytearray]; with [ValueError] when the password or the pin is empty,
    when the name is not valid, and when the account exists already. *)
Theorem create_account_refusals {E : Engine} (module_file : path) (w : world)
    (account password pin language : pyobj) :
  ((forall a, account <> PyStr a) \/ (forall l, password <> PyBytearray l)
   \/ (forall l, pin <> PyBytearray l) \/ (forall s, language <> PyStr s) ->
   create_account module_file account password pin language w = (Raise TypeError, w))
  /\ (forall a lang pw pn (pwc pnc : bytes),
        account = PyStr a -> language = PyStr lang ->
        password = PyBytearray pw -> pin = PyBytearray pn ->
        heap w !! pw = Some pwc -> heap w !! pn = Some pnc ->
        pwc = [] \/ pnc = [] \/ match_name false a = false
        \/ account_path module_file a ∈ dirs w ->
        create_account module_file account password pin language w = (Raise ValueError, w)).
Proof.
  split.
  - intros Hbad. unfold create_account.
    destruct account as [| | |a| | | |]; try reflexivity.
    destruct password as [| | | | |pw| |]; try reflexivity.
    destruct pin as [| | | | |pn| |]; try reflexivity.
    destruct language as [| | |lang| | | |]; try reflexivity.
    destruct Hbad as [H | [H | [H | H]]];
      [destruct (H a) | destruct (H pw) | destruct (H pn) | destruct (H lang)]; reflexivity.
  - intros a lang pw pn pwc pnc -> -> -> -> Hpw Hpn Hbad.
    destruct Hbad as [-> | [-> | Hbad]].
    + unfold create_account.
      rewrite (bind_return _ _ _ _ _ (read_buffer_at w pw [] Hpw)).
      now rewrite (bind_return _ _ _ _ _ (read_buffer_at w pn pnc Hpn)).
    + unfold create_account.
      rewrite (bind_return _ _ _ _ _ (read_buffer_at w pw pwc Hpw)).
      rewrite (bind_return _ _ _ _ _ (read_buffer_at w pn [] Hpn)).
      now destruct (length pwc =? 0)%nat.
    + eapply (create_account_refused module_file); eassumption.
Qed.

Module LanguageFacts.
Import FilesManager FilesFacts AccountFacts CreateFacts.

Lemma universal_newlines_plain (s : pystr) :
  Forall (fun c => is_space c = false) s -> universal_newlines s = s.
Proof.
  induction 1 as [|c s Hc _ IH]; [reflexivity|]. cbn [universal_newlines].
  destruct (c =? 13) eqn:E; [apply N.eqb_eq in E; now subst c|]. now rewrite IH.
Qed.

Lemma lstrip_plain (s : pystr) : Forall (fun c => is_space c = false) s -> lstrip s = s.
Proof. intros H. destruct H as [|c s Hc _]; [reflexivity|]. cbn [lstrip]. now rewrite Hc. Qed.

Lemma strip_plain (s : pystr) : Forall (fun c => is_space c = false) s -> strip s = s.
Proof.
  intros H. unfold strip. rewrite (lstrip_plain s H).
  rewrite lstrip_plain by (apply Forall_rev; exact H). apply rev_involutive.
Qed.

Section WithModuleFile.
Variable module_file : path.

Lemma set_account_language_at ud pv hp fl dr en dn tr (a lang : pystr) (enc : bytes) :
  let w := World ud pv hp fl dr en dn tr in
  account_present module_file w a -> language_path module_file a ∉ dr ->
  Utf8.encode lang = Some enc ->
  set_account_language module_file (PyStr a) (PyStr lang) w
  = (Return tt,
     World ud pv hp (<[language_path module_file a := enc]> fl) dr en dn
       (tr ++ [EvWrite (language_path module_file a) enc])).
Proof.
  intros w Hacc Hdir Henc. unfold set_account_language.
  rewrite (bind_return _ _ _ _ _ (get_account_path_present module_file a w Hacc)).
  subst w. unfold language_path in *. apply write_text_at; [exact Henc | | exact Hdir].
  rewrite removelast_last. apply Hacc.
Qed.

Lemma get_account_language_at (w : world) (a text : pystr) (content : bytes) :
  account_present module_file w a ->
  files w !! language_path module_file a = Some content ->
  Utf8.decode content = Some text ->
  get_account_language module_file (PyStr a) w
  = (Return (strip (universal_newlines text)), log (EvRead (language_path module_file a)) w).
Proof.
  intros Hacc Hfile Hdec. unfold get_account_language.
  rewrite (bind_return _ _ _ _ _ (get_account_path_present module_file a w Hacc)).
  fold (language_path module_file a).
  unfold bind at 1, isfile, gets. rewrite Hfile. cbn [negb].
  unfold read_text, bind, read_file. rewrite Hfile, Hdec. reflexivity.
Qed.

End WithModuleFile.
End LanguageFacts.

Import LanguageFacts.

(** X25.  [set_account_language] then [get_account_language]: the language
    that was set comes back stripped of the white space around it, its line
    ends read as ["\n"]; a language without white space, like ["en"], comes
    back as it is.  Without language file [get_account_language] raises
    [ValueError]. *)
Theorem account_language_round_trip (module_file : path) (w : world) (a lang : pystr) :
  account_present module_file w a -> language_path module_file a ∉ dirs w -> text_ok lang ->
  (exists w1 w2,
      set_account_language module_file (PyStr a) (PyStr lang) w = (Return tt, w1)
      /\ get_account_language module_file (PyStr a) w1
         = (Return (strip (universal_newlines lang)), w2)
      /\ (Forall (fun c => is_space c = false) lang ->
          get_account_language module_file (PyStr a) w1 = (Return lang, w2)))
  /\ (files w !! language_path module_file a = None ->
      get_account_language module_file (PyStr a) w = (Raise ValueError, w)).
Proof.
  intros Hacc Hdir Htext. split.
  - destruct (Utf8Facts.decode_encode lang Htext) as (enc & Henc & Hdec).
    destruct w as [ud pv hp fl dr en dn tr]. cbn [dirs] in Hdir.
    do 2 eexists.
    split; [exact (set_account_language_at module_file ud pv hp fl dr en dn tr a lang enc
                     Hacc Hdir Henc)|].
    assert (Hget : forall w1, account_present module_file w1 a ->
                     files w1 !! language_path module_file a = Some enc ->
                     get_account_language module_file (PyStr a) w1
                     = (Return (strip (universal_newlines lang)),
                        log (EvRead (language_path module_file a)) w1))
      by (intros w1 H1 H2; now apply (get_account_language_at module_file w1 a lang enc)).
    split.
    + apply Hget; [exact Hacc | apply lookup_insert_eq].
    + intros Hplain. rewrite Hget; [| exact Hacc | apply lookup_insert_eq].
      now rewrite (universal_newlines_plain lang Hplain), (strip_plain lang Hplain).
  - intros Hnone. unfold get_account_language.
    rewrite (bind_return _ _ _ _ _ (get_account_path_present module_file a w Hacc)).
    fold (language_path module_file a). unfold bind, isfile, gets. now rewrite Hnone.
Qed.

(** X25, witness: the language of ["alice"] is set to ["fr"], then to
    [" fr\r\n"]. *)
Lemma account_language_round_trip_witness :
  (exists w1 w2,
      set_account_language Toy.module_file (PyStr (str "alice")) (PyStr (str "fr")) vault_world
      = (Return tt, w1)
      /\ get_account_language Toy.module_file (PyStr (str "alice")) w1 = (Return (str "fr"), w2))
  /\ (exists w1 w2,
         set_account_language Toy.module_file (PyStr (str "alice")) (PyStr [32; 102; 114; 13; 10])
           vault_world = (Return tt, w1)
         /\ get_account_language Toy.module_file (PyStr (str "alice")) w1
            = (Return (str "fr"), w2)).
Proof.
  assert (Hdir : language_path Toy.module_file (str "alice") ∉ dirs vault_world)
    by (apply (bool_decide_unpack _); vm_compute; exact I).
  split.
  - destruct (account_language_round_trip Toy.module_file vault_world (str "alice") (str "fr")
                (vault_world_present 1) Hdir ltac:(repeat constructor))
      as [(w1 & w2 & Hset & _ & Hget) _].
    exists w1, w2. split; [exact Hset|]. apply Hget. repeat constructor.
  - destruct (account_language_round_trip Toy.module_file vault_world (str "alice")
                [32; 102; 114; 13; 10]
                (vault_world_present 1) Hdir ltac:(repeat constructor))
      as [(w1 & w2 & Hset & Hget & _) _].
    exists w1, w2. split; [exact Hset | exact Hget].
Defined.

Module ListingFacts.
Import FilesManager FilesFacts AccountFacts CreateFacts.

Lemma keep_dirs_spec (parent : path) (names : list pystr) (w : world) :
  keep_dirs parent names w
  = (Return (List.filter (fun d => bool_decide (parent ++ [d] ∈ dirs w)) names), w).
Proof.
  induction names as [|d names IH]; [reflexivity|]. cbn [keep_dirs List.filter].
  unfold bind at 1, isdir, gets. rewrite (bind_return _ _ _ _ _ IH).
  now destruct (bool_decide _).
Qed.

Lemma listdir_lists (d : path) (w : world) (a : pystr) :
  d ++ [a] ∈ dirs w ->
  In a (omap (fun q => if bool_decide (removelast q = d) then last q else None)
          (elements (dirs w) ++ map fst (map_to_list (files w)))).
Proof.
  intros H. apply list_elem_of_In, list_elem_of_omap. exists (d ++ [a]). split.
  - apply elem_of_app. left. now apply elem_of_elements.
  - rewrite removelast_last, bool_decide_eq_true_2 by reflexivity. apply last_snoc.
Qed.

Lemma accounts_path_snoc (module_file : path) (a : pystr) :
  accounts_path module_file ++ [a] = account_path module_file a.
Proof. unfold accounts_path, account_path. now rewrite <- app_assoc. Qed.

End ListingFacts.

Import FilesManager AccountFacts ListingFacts.

(** X26.  [get_existing_accounts] returns the names of the directories of
    [files/accounts], whatever they are: a valid name is among them exactly
    when [exist_account] answers [True] for it.  It changes nothing, and
    raises [FileNotFoundError] when [files/accounts] is no directory. *)
Theorem existing_accounts_are_listed (module_file : path) (w : world) :
  (accounts_path module_file ∈ dirs w ->
   exists names,
     get_existing_accounts module_file w = (Return names, w)
     /\ (forall a, In a names <-> account_path module_file a ∈ dirs w)
     /\ (forall a,
           match_name false a = true ->
           (In a names <-> exist_account module_file (PyStr a) w = (Return true, w))))
  /\ (accounts_path module_file ∉ dirs w ->
      get_existing_accounts module_file w = (Raise FileNotFoundError, w)).
Proof.
  split.
  - intros Hdir. eexists. split.
    + unfold get_existing_accounts, dirname, bind at 1, ret. cbn [Z.leb Z.compare].
      change (Nat.iter (Z.to_nat 2) (@removelast pystr) module_file
              ++ [str "files"; str "accounts"]) with (accounts_path module_file).
      unfold bind at 1, isdir, gets. rewrite (bool_decide_eq_true_2 _ Hdir). cbn [negb].
      unfold bind, listdir. rewrite (bool_decide_eq_true_2 _ Hdir).
      apply keep_dirs_spec.
    + assert (forall a,
                 In a (List.filter
                         (fun d => bool_decide (accounts_path module_file ++ [d] ∈ dirs w))
                         (omap (fun q => if bool_decide (removelast q = accounts_path module_file)
                                         then last q else None)
                            (elements (dirs w) ++ map fst (map_to_list (files w)))))
                 <-> account_path module_file a ∈ dirs w) as Hin.
      { intros a. rewrite filter_In, accounts_path_snoc. split.
        - intros [_ H]. now apply bool_decide_eq_true_1 in H.
        - intros H. split; [|now apply bool_decide_eq_true_2].
          apply listdir_lists. now rewrite accounts_path_snoc. }
      split; [exact Hin|].
      intros a Hname. rewrite Hin, (exist_account_valid module_file a w Hname). split.
      * intros H. now rewrite (bool_decide_eq_true_2 _ H).
      * intros H. injection H as H. now apply bool_decide_eq_true_1 in H.
  - intros Hdir. unfold get_existing_accounts, dirname, bind at 1, ret. cbn [Z.leb Z.compare].
    change (Nat.iter (Z.to_nat 2) (@removelast pystr) module_file
            ++ [str "files"; str "accounts"]) with (accounts_path module_file).
    unfold bind, isdir, gets. now rewrite (bool_decide_eq_false_2 _ Hdir).
Qed.

Module IconFacts.
Import FilesManager FilesFacts AccountFacts CreateFacts.

Lemma remove_at ud pv hp fl dr en dn tr (p : path) (content : bytes) :
  p ∉ dr -> fl !! p = Some content ->
  os_remove p (World ud pv hp fl dr en dn tr)
  = (Return tt, World ud pv hp (delete p fl) dr en dn tr).
Proof.
  intros Hp Hf. unfold os_remove. wsimpl. now rewrite (bool_decide_eq_false_2 _ Hp), Hf.
Qed.

Section WithModuleFile.
Variable module_file : path.

Lemma website_icon_path_eq (a c : pystr) :
  account_path module_file a ++ [str "icons"; c ++ str ".png"]
  = website_icon_path module_file a c.
Proof. reflexivity. Qed.

Lemma website_icon_parent (a c : pystr) :
  removelast (website_icon_path module_file a c) = icons_path module_file a.
Proof.
  unfold website_icon_path, icons_path.
  change [str "icons"; c ++ str ".png"] with ([str "icons"] ++ [c ++ str ".png"]).
  rewrite app_assoc. apply removelast_last.
Qed.

(** [remove_website_icon] takes the icon away when there is one, and does
    nothing otherwise. *)
Lemma remove_website_icon_at ud pv hp fl dr en dn tr (a c : pystr) :
  let w := World ud pv hp fl dr en dn tr in
  account_present module_file w a -> is_component (c ++ str ".png") = true ->
  website_icon_path module_file a c ∉ dr ->
  remove_website_icon module_file (PyStr a) (PyStr c) w
  = (Return tt, World ud pv hp (delete (website_icon_path module_file a c) fl) dr en dn tr).
Proof.
  intros w Hacc Hc Hdir. unfold remove_website_icon.
  rewrite (bind_return _ _ _ _ _ (get_account_path_present module_file a w Hacc)).
  rewrite Hc, website_icon_path_eq. unfold bind, isfile, gets. subst w. cbn [files].
  destruct (fl !! website_icon_path module_file a c) as [old|] eqn:Hold.
  - now apply (remove_at _ _ _ _ _ _ _ _ _ old).
  - unfold ret. now rewrite delete_id.
Qed.

Lemma get_website_icon_at (w : world) (a c : pystr) (content : bytes) :
  account_present module_file w a -> is_component (c ++ str ".png") = true ->
  files w !! website_icon_path module_file a c = Some content ->
  get_website_icon module_file (PyStr a) (PyStr c) w
  = (Return (website_icon_path module_file a c), w).
Proof.
  intros Hacc Hc Hfile. unfold get_website_icon.
  rewrite (bind_return _ _ _ _ _ (get_account_path_present module_file a w Hacc)).
  rewrite Hc, website_icon_path_eq. unfold bind, isfile, gets. now rewrite Hfile.
Qed.

Lemma get_website_icon_default (w : world) (a c : pystr) :
  account_present module_file w a -> is_component (c ++ str ".png") = true ->
  files w !! website_icon_path module_file a c = None ->
  get_website_icon module_file (PyStr a) (PyStr c) w
  = get_UI_icon module_file (PyStr (str "default_website")) w.
Proof.
  intros Hacc Hc Hfile. unfold get_website_icon.
  rewrite (bind_return _ _ _ _ _ (get_account_path_present module_file a w Hacc)).
  rewrite Hc, website_icon_path_eq. unfold bind at 1, isfile, gets. now rewrite Hfile.
Qed.

Lemma set_website_icon_at ud pv hp fl dr en dn tr (a c s : pystr) (src : path)
    (content : bytes) :
  let w := World ud pv hp fl dr en dn tr in
  let dst := website_icon_path module_file a c in
  account_present module_file w a -> is_component (c ++ str ".png") = true ->
  icons_path module_file a ∈ dr -> dst ∉ dr ->
  parse_path s = Some src -> fl !! src = Some content -> src <> dst ->
  set_website_icon module_file (PyStr a) (PyStr c) (PyStr s) w
  = (Return tt,
     World ud pv hp (<[dst := content]> (delete dst fl)) dr en dn
       (tr ++ [EvRead src] ++ [EvWrite dst content])).
Proof.
  intros w dst Hacc Hc Hicons Hdst Hparse Hsrc Hne. unfold set_website_icon.
  rewrite Hparse. unfold bind at 1, isfile, gets. subst w. cbn [files]. rewrite Hsrc.
  cbn [negb].
  rewrite (bind_return _ _ _ _ _ (get_account_path_present module_file a _ Hacc)).
  rewrite Hc, website_icon_path_eq. fold dst.
  rewrite (bind_return _ _ _ _ _
             (remove_website_icon_at ud pv hp fl dr en dn tr a c Hacc Hc Hdst)).
  fold dst. apply copyfile_at.
  - exact Hne.
  - rewrite lookup_delete_ne by congruence. exact Hsrc.
  - unfold dst. now rewrite website_icon_parent.
  - exact Hdst.
Qed.

End WithModuleFile.
End IconFacts.


Import FilesManager AccountFacts CreateFacts IconFacts ToyInstall.

(** X27.  The icon of a website: [set_website_icon] copies the file it is
    given to [icons/<code>.png] in the directory of the account (over the
    icon there was, if any), and [get_website_icon] then returns that path;
    [remove_website_icon] takes the file away, does nothing when called
    again, and [get_website_icon] then answers as [get_UI_icon] does for
    ["default_website"]. *)
Theorem website_icon_round_trip (module_file : path) (w : world) (a c s : pystr)
    (src : path) (content : bytes) :
  account_present module_file w a -> is_component (c ++ str ".png") = true ->
  icons_path module_file a ∈ dirs w -> website_icon_path module_file a c ∉ dirs w ->
  parse_path s = Some src -> files w !! src = Some content ->
  src <> website_icon_path module_file a c ->
  exists w1 w2,
    set_website_icon module_file (PyStr a) (PyStr c) (PyStr s) w = (Return tt, w1)
    /\ files w1 !! website_icon_path module_file a c = Some content
    /\ files w1 !! src = Some content
    /\ get_website_icon module_file (PyStr a) (PyStr c) w1
       = (Return (website_icon_path module_file a c), w1)
    /\ remove_website_icon module_file (PyStr a) (PyStr c) w1 = (Return tt, w2)
    /\ files w2 !! website_icon_path module_file a c = None
    /\ remove_website_icon module_file (PyStr a) (PyStr c) w2 = (Return tt, w2)
    /\ get_website_icon module_file (PyStr a) (PyStr c) w2
       = get_UI_icon module_file (PyStr (str "default_website")) w2.
Proof.
  intros Hacc Hc Hicons Hdst Hparse Hsrc Hne.
  destruct w as [ud pv hp fl dr en dn tr]. cbn [files dirs] in *.
  set (dst := website_icon_path module_file a c) in *.
  do 2 eexists.
  split; [exact (set_website_icon_at module_file ud pv hp fl dr en dn tr a c s src content
                   Hacc Hc Hicons Hdst Hparse Hsrc Hne)|].
  fold dst. cbn [files].
  split; [apply lookup_insert_eq|].
  split; [rewrite lookup_insert_ne, lookup_delete_ne by congruence; exact Hsrc|].
  split.
  { apply (get_website_icon_at module_file _ a c content); [exact Hacc | exact Hc|].
    apply lookup_insert_eq. }
  split; [refine (remove_website_icon_at module_file _ _ _ _ _ _ _ _ a c _ Hc Hdst);
          exact Hacc|].
  fold dst. cbn [files].
  split; [apply lookup_delete_eq|].
  split.
  - etransitivity;
      [refine (remove_website_icon_at module_file _ _ _ _ _ _ _ _ a c _ Hc Hdst); exact Hacc|].
    fold dst. now rewrite delete_delete_eq.
  - apply get_website_icon_default; [exact Hacc | exact Hc|]. apply lookup_delete_eq.
Qed.

Lemma bob_world_present : account_present Toy.module_file bob_world (str "bob").
Proof. split; [reflexivity|]. apply (bool_decide_unpack _). vm_compute. exact I. Qed.

(** X27, witness: the default website icon is made the icon of the site
    ["shop"] of ["bob"]. *)
Lemma website_icon_round_trip_witness :
  exists w1,
    set_website_icon Toy.module_file (PyStr (str "bob")) (PyStr (str "shop"))
      (PyStr (str "/bipbip/files/iconbank/iconui/default_website.png")) bob_world
    = (Return tt, w1)
    /\ get_website_icon Toy.module_file (PyStr (str "bob")) (PyStr (str "shop")) w1
       = (Return (website_icon_path Toy.module_file (str "bob") (str "shop")), w1)
    /\ files w1 !! website_icon_path Toy.module_file (str "bob") (str "shop")
       = Some [80; 78; 71; 2].
Proof.
  destruct (website_icon_round_trip Toy.module_file bob_world (str "bob") (str "shop")
              (str "/bipbip/files/iconbank/iconui/default_website.png")
              (ui_icon_path Toy.module_file (str "default_website")) [80; 78; 71; 2]
              bob_world_present eq_refl)
    as (w1 & w2 & Hset & Hfile & _ & Hget & _).
  - apply (bool_decide_unpack _). vm_compute. exact I.
  - apply (bool_decide_unpack _). vm_compute. exact I.
  - vm_compute. reflexivity.
  - vm_compute. reflexivity.
  - discriminate.
  - exists w1. exact (conj Hset (conj Hget Hfile)).
Defined.

(** X28.  The profile icon: [set_profile_icon] copies the file it is given to
    [profile.png] in the directory of the account, and [get_profile_icon]
    then returns that path; for an account without [profile.png] it answers
    as [get_UI_icon] does for ["default_profile"]. *)
Theorem profile_icon_round_trip (module_file : path) (w : world) (a s : pystr)
    (src : path) (content : bytes) :
  account_present module_file w a -> profile_path module_file a ∉ dirs w ->
  parse_path s = Some src -> files w !! src = Some content ->
  src <> profile_path module_file a ->
  (exists w1,
      set_profile_icon module_file (PyStr a) (PyStr s) w = (Return tt, w1)
      /\ files w1 !! profile_path module_file a = Some content
      /\ get_profile_icon module_file (PyStr a) w1 = (Return (profile_path module_file a), w1))
  /\ (files w !! profile_path module_file a = None ->
      get_profile_icon module_file (PyStr a) w
      = get_UI_icon module_file (PyStr (str "default_profile")) w).
Proof.
  intros Hacc Hdst Hparse Hsrc Hne.
  assert (Hget : forall w1 (x : bytes),
             account_present module_file w1 a ->
             files w1 !! profile_path module_file a = Some x ->
             get_profile_icon module_file (PyStr a) w1
             = (Return (profile_path module_file a), w1)).
  { intros w1 x H1 H2. unfold get_profile_icon.
    rewrite (bind_return _ _ _ _ _ (get_account_path_present module_file a w1 H1)).
    fold (profile_path module_file a). unfold bind, isfile, gets. now rewrite H2. }
  split.
  - destruct w as [ud pv hp fl dr en dn tr]. cbn [files dirs] in *.
    eexists. split.
    + unfold set_profile_icon. rewrite Hparse. unfold bind at 1, isfile, gets. cbn [files].
      rewrite Hsrc. cbn [negb].
      rewrite (bind_return _ _ _ _ _ (get_account_path_present module_file a _ Hacc)).
      fold (profile_path module_file a).
      apply (copyfile_at _ _ _ _ _ _ _ _ src _ content Hne Hsrc); [|exact Hdst].
      unfold profile_path. rewrite removelast_last. apply Hacc.
    + cbn [files]. split; [apply lookup_insert_eq|].
      apply (Hget _ content); [exact Hacc | apply lookup_insert_eq].
  - intros Hnone. unfold get_profile_icon.
    rewrite (bind_return _ _ _ _ _ (get_account_path_present module_file a w Hacc)).
    fold (profile_path module_file a). unfold bind at 1, isfile, gets. now rewrite Hnone.
Qed.

(** X28, witness: the default website icon is made the profile icon of
    ["bob"]. *)
Lemma profile_icon_round_trip_witness :
  exists w1,
    set_profile_icon Toy.module_file (PyStr (str "bob"))
      (PyStr (str "/bipbip/files/iconbank/iconui/default_website.png")) bob_world
    = (Return tt, w1)
    /\ get_profile_icon Toy.module_file (PyStr (str "bob")) w1
       = (Return (profile_path Toy.module_file (str "bob")), w1).
Proof.
  destruct (profile_icon_round_trip Toy.module_file bob_world (str "bob")
              (str "/bipbip/files/iconbank/iconui/default_website.png")
              (ui_icon_path Toy.module_file (str "default_website")) [80; 78; 71; 2]
              bob_world_present)
    as [(w1 & Hset & _ & Hget) _].
  - apply (bool_decide_unpack _). vm_compute. exact I.
  - vm_compute. reflexivity.
  - vm_compute. reflexivity.
  - discriminate.
  - exists w1. exact (conj Hset Hget).
Defined.
